(** * Context-graph agent: the Bedrock agentic loop and its wrappers

    A shallow embedding of
      - [backend/app/bedrock_client.py]  (class BedrockClaudeClient),
      - [backend/app/bedrock_agent.py]   (class BedrockAgent),
      - [backend/app/agent_bedrock.py]   (class ContextGraphAgentBedrock),
      - [backend/app/agent.py]           (class ContextGraphAgent, prompt
        construction and the final [done] event),
    followed by the properties of the agentic tool-calling loop.

    Conventions.  Python dictionaries that carry a fixed set of keys are
    records or constructors; a key read with [d.get(k, default)] is an
    [option] field and the default is written where the code reads it.
    An exception is a value of [exn]; code that can raise returns
    [outcome].  An async generator is modelled by the list of items it
    yields before it finishes, together with the way it finishes.

    Strings.  A character of a string stands for the code point of the
    same number.  [json.dumps] is followed on all of them; [str.upper]
    and [str.lower] are followed on the ASCII range and leave the
    other characters as they are, so what is proved of them is proved
    for ASCII text. *)

From Stdlib Require Import List String Ascii ZArith Lia Bool Arith.
From Stdlib Require Import DecimalString.
Import ListNotations.
Open Scope list_scope.
Open Scope string_scope.

Set Implicit Arguments.
Set Warnings "-register-all".

(* ================================================================== *)
(** ** Python values *)

Module Py.

(** JSON values as [json.loads] builds them.  Numbers are restricted
    to integers; a dict is an association list in insertion order. *)
Inductive json : Type :=
| JNull
| JBool (b : bool)
| JNum (n : Z)
| JStr (s : string)
| JArr (items : list json)
| JObj (members : list (string * json)).

(** [{}] *)
Definition empty_dict : json := JObj [].

(** [d[k] = v] on an insertion-ordered dict. *)
Fixpoint dict_set (k : string) (v : json) (d : list (string * json))
  : list (string * json) :=
  match d with
  | [] => [(k, v)]
  | (k', v') :: rest =>
      if String.eqb k k' then (k', v) :: rest
      else (k', v') :: dict_set k v rest
  end.

(** [sep.join(parts)] *)
Fixpoint join (sep : string) (parts : list string) : string :=
  match parts with
  | [] => ""
  | [p] => p
  | p :: rest => p ++ sep ++ join sep rest
  end.

(** ["".join(parts)] *)
Definition concat_all (parts : list string) : string :=
  fold_right String.append "" parts.

(** [str.upper] on the ASCII range. *)
Definition upper_ascii (c : ascii) : ascii :=
  let n := nat_of_ascii c in
  if (97 <=? n)%nat && (n <=? 122)%nat then ascii_of_nat (n - 32) else c.

Fixpoint upper (s : string) : string :=
  match s with
  | EmptyString => EmptyString
  | String c rest => String (upper_ascii c) (upper rest)
  end.

(** [str(x)] for a value that is a string or [None]. *)
Definition str_opt (x : option string) : string :=
  match x with
  | Some s => s
  | None => "None"
  end.

(** [l[-n:]] for [n > 0]. *)
Definition last_n {A : Type} (n : nat) (l : list A) : list A :=
  skipn (List.length l - n) l.

(** *** [json.dumps] with its default separators

    A character of a model string stands for the code point of the
    same number, so every code point is below 256.  With the default
    [ensure_ascii=True] a string is written between double quotes with
    the quote, the backslash and everything outside the range from the
    space to the tilde escaped: the two-character escapes for
    backspace, tab, newline, form feed and carriage return, and
    [\u00xx] in lower-case hexadecimal for the others. *)

Definition hex_digit (n : nat) : ascii :=
  if (n <? 10)%nat then ascii_of_nat (48 + n) else ascii_of_nat (87 + n).

Definition escape_char (c : ascii) : string :=
  let n := nat_of_ascii c in
  let two (e : ascii) := String "\"%char (String e EmptyString) in
  if Ascii.eqb c "034"%char then two c
  else if Ascii.eqb c "\"%char then two c
  else if (n =? 8)%nat then two "b"%char
  else if (n =? 9)%nat then two "t"%char
  else if (n =? 10)%nat then two "n"%char
  else if (n =? 12)%nat then two "f"%char
  else if (n =? 13)%nat then two "r"%char
  else if (n <? 32)%nat || (126 <? n)%nat then
    String "\"%char
           (String "u"%char
                   (String "0"%char
                           (String "0"%char
                                   (String (hex_digit (n / 16))
                                           (String (hex_digit (n mod 16))
                                                   EmptyString)))))
  else String c EmptyString.

Fixpoint escape (s : string) : string :=
  match s with
  | EmptyString => EmptyString
  | String c rest => escape_char c ++ escape rest
  end.

Definition quote (s : string) : string :=
  String "034"%char (escape s ++ String "034"%char EmptyString).

Definition dumps_int (n : Z) : string :=
  NilZero.string_of_int (Z.to_int n).

Fixpoint json_dumps (v : json) : string :=
  match v with
  | JNull => "null"
  | JBool true => "true"
  | JBool false => "false"
  | JNum n => dumps_int n
  | JStr s => quote s
  | JArr items => "[" ++ join ", " (map json_dumps items) ++ "]"
  | JObj members =>
      "{" ++ join ", "
               (map (fun kv => quote (fst kv) ++ ": " ++ json_dumps (snd kv))
                    members)
          ++ "}"
  end.

(** *** [json.loads]

    A recursive-descent reader that follows the scanner of Python's
    [json] module on the values [json] above can hold: the four JSON
    whitespace characters, [null], [true], [false], integers (a zero
    is a number of its own, so [01] is a zero followed by extra data),
    strings (no raw control character; the escapes for the quote, the
    backslash, the slash, [b], [f], [n], [r], [t] and [\u] with four
    hexadecimal digits), arrays and objects.  [Some v] is the value
    [json.loads] returns.  [None] stands for [json.JSONDecodeError],
    and also for the texts that Python reads into a value this
    embedding has no room for: a number with a fraction or an
    exponent, [NaN], [Infinity], and a [\u] escape of a code point
    above 255.  The properties below rely on [None] only for texts
    that start with [{}] and go on, which Python rejects. *)

Definition is_ws (c : ascii) : bool :=
  Ascii.eqb c " "%char || Ascii.eqb c "009"%char
  || Ascii.eqb c "010"%char || Ascii.eqb c "013"%char.

Fixpoint skip_ws (s : string) : string :=
  match s with
  | String c rest => if is_ws c then skip_ws rest else s
  | EmptyString => EmptyString
  end.

Definition digit_of (c : ascii) : option Z :=
  let n := nat_of_ascii c in
  if (48 <=? n)%nat && (n <=? 57)%nat then Some (Z.of_nat (n - 48)) else None.

Fixpoint read_digits (acc : Z) (s : string) : Z * string :=
  match s with
  | String c rest =>
      match digit_of c with
      | Some d => read_digits (10 * acc + d) rest
      | None => (acc, s)
      end
  | EmptyString => (acc, s)
  end.

(** The integer part of a number: [0], or a digit that is not zero and
    the digits after it. *)
Definition read_nat (s : string) : option (Z * string) :=
  match s with
  | String c rest =>
      match digit_of c with
      | Some 0%Z => Some (0%Z, rest)
      | Some d => Some (read_digits d rest)
      | None => None
      end
  | EmptyString => None
  end.

(** What follows the integer part of a float: a point and a digit, or
    an exponent mark. *)
Definition float_follows (s : string) : bool :=
  match s with
  | String "."%char (String d _) =>
      match digit_of d with Some _ => true | None => false end
  | String "e"%char _ => true
  | String "E"%char _ => true
  | _ => false
  end.

Definition hex_of (c : ascii) : option nat :=
  let n := nat_of_ascii c in
  if (48 <=? n)%nat && (n <=? 57)%nat then Some (n - 48)%nat
  else if (97 <=? n)%nat && (n <=? 102)%nat then Some (n - 87)%nat
  else if (65 <=? n)%nat && (n <=? 70)%nat then Some (n - 55)%nat
  else None.

(** The code point of [\uXXXX], when it is below 256. *)
Definition read_unicode (s : string) : option (ascii * string) :=
  match s with
  | String a (String b (String c (String d rest))) =>
      match hex_of a, hex_of b, hex_of c, hex_of d with
      | Some 0%nat, Some 0%nat, Some h, Some l =>
          Some (ascii_of_nat (16 * h + l), rest)
      | _, _, _, _ => None
      end
  | _ => None
  end.

(** The character an escape stands for, and the text after it. *)
Definition read_escape (s : string) : option (ascii * string) :=
  match s with
  | String e rest =>
      if Ascii.eqb e "034"%char || Ascii.eqb e "\"%char
         || Ascii.eqb e "/"%char
      then Some (e, rest)
      else if Ascii.eqb e "b"%char then Some ("008"%char, rest)
      else if Ascii.eqb e "f"%char then Some ("012"%char, rest)
      else if Ascii.eqb e "n"%char then Some ("010"%char, rest)
      else if Ascii.eqb e "r"%char then Some ("013"%char, rest)
      else if Ascii.eqb e "t"%char then Some ("009"%char, rest)
      else if Ascii.eqb e "u"%char then read_unicode rest
      else None
  | EmptyString => None
  end.

(** The characters of a string literal after its opening quote.  The
    recursion is on the number of characters left. *)
Fixpoint read_string_in (fuel : nat) (s : string) : option (string * string) :=
  match fuel with
  | O => None
  | S fuel' =>
      match s with
      | EmptyString => None
      | String c rest =>
          if Ascii.eqb c "034"%char then Some (EmptyString, rest)
          else if Ascii.eqb c "\"%char then
            match read_escape rest with
            | Some (e, rest') =>
                match read_string_in fuel' rest' with
                | Some (body, tl) => Some (String e body, tl)
                | None => None
                end
            | None => None
            end
          else if (nat_of_ascii c <? 32)%nat then None
          else
            match read_string_in fuel' rest with
            | Some (body, tl) => Some (String c body, tl)
            | None => None
            end
      end
  end.

Definition read_string (s : string) : option (string * string) :=
  read_string_in (S (String.length s)) s.

Definition expect (lit : string) (s : string) : option string :=
  if String.prefix lit s
  then Some (substring (String.length lit) (String.length s - String.length lit) s)
  else None.

Fixpoint read_value (fuel : nat) (s : string) : option (json * string) :=
  match fuel with
  | O => None
  | S fuel' =>
      match s with
      | EmptyString => None
      | String c rest =>
          if Ascii.eqb c "{"%char then
            match skip_ws rest with
            | String "}"%char tl => Some (JObj [], tl)
            | after => read_members fuel' [] after
            end
          else if Ascii.eqb c "["%char then
            match skip_ws rest with
            | String "]"%char tl => Some (JArr [], tl)
            | after => read_items fuel' [] after
            end
          else if Ascii.eqb c "034"%char then
            match read_string rest with
            | Some (body, tl) => Some (JStr body, tl)
            | None => None
            end
          else if Ascii.eqb c "-"%char then
            match read_nat rest with
            | Some (n, tl) =>
                if float_follows tl then None else Some (JNum (- n), tl)
            | None => None
            end
          else if Ascii.eqb c "n"%char then
            option_map (fun tl => (JNull, tl)) (expect "ull" rest)
          else if Ascii.eqb c "t"%char then
            option_map (fun tl => (JBool true, tl)) (expect "rue" rest)
          else if Ascii.eqb c "f"%char then
            option_map (fun tl => (JBool false, tl)) (expect "alse" rest)
          else
            match read_nat s with
            | Some (n, tl) =>
                if float_follows tl then None else Some (JNum n, tl)
            | None => None
            end
      end
  end

with read_members (fuel : nat) (acc : list (string * json)) (s : string)
  : option (json * string) :=
  match fuel with
  | O => None
  | S fuel' =>
      match s with
      | String "034"%char rest =>
          match read_string rest with
          | Some (key, tl) =>
              match skip_ws tl with
              | String ":"%char tl1 =>
                  match read_value fuel' (skip_ws tl1) with
                  | Some (v, tl2) =>
                      match skip_ws tl2 with
                      | String ","%char tl3 =>
                          read_members fuel' (dict_set key v acc) (skip_ws tl3)
                      | String "}"%char tl3 =>
                          Some (JObj (dict_set key v acc), tl3)
                      | _ => None
                      end
                  | None => None
                  end
              | _ => None
              end
          | None => None
          end
      | _ => None
      end
  end

with read_items (fuel : nat) (acc : list json) (s : string)
  : option (json * string) :=
  match fuel with
  | O => None
  | S fuel' =>
      match read_value fuel' s with
      | Some (v, tl) =>
          match skip_ws tl with
          | String ","%char tl1 => read_items fuel' (acc ++ [v])%list (skip_ws tl1)
          | String "]"%char tl1 => Some (JArr (acc ++ [v])%list, tl1)
          | _ => None
          end
      | None => None
      end
  end.

(** [json.loads(s)]: one value, surrounded by optional whitespace, and
    nothing else ("Extra data" otherwise). *)
Definition json_loads (s : string) : option json :=
  match read_value (S (String.length s)) (skip_ws s) with
  | Some (v, tl) =>
      match skip_ws tl with
      | EmptyString => Some v
      | _ => None
      end
  | None => None
  end.

End Py.

Import Py.

(* ================================================================== *)
(** ** Exceptions and the agent monad *)

(** An instance of Python's [Exception]; [str(e)] is [msg]. *)
Inductive exn : Type :=
| Exception (msg : string).

Definition str_exn (e : exn) : string :=
  match e with Exception msg => msg end.

Inductive outcome (A : Type) : Type :=
| Ok (a : A)
| Raise (e : exn).

Arguments Ok {A} a.
Arguments Raise {A} e.

(* ================================================================== *)
(** ** Messages, content blocks and stream chunks *)

(** An item of a tool result's ["content"] list:
    [{"type": "text", "text": text}]. *)
Inductive item : Type :=
| text_item (text : string).

(** The dict a tool handler returns; both keys are read with [.get]. *)
Record tool_output : Type := mk_output {
  output_content : option (list item);
  output_is_error : option bool
}.

(** A content block, keyed by its ["type"]. *)
Inductive block : Type :=
| text_block (text : option string)
| tool_use_block (id name : option string) (input : option json)
| tool_result_block (tool_use_id : option string) (content : list item)
                    (is_error : bool)
| other_block (type : string).

(** ["content"] of a message: a plain string or a list of blocks. *)
Inductive content : Type :=
| Str (s : string)
| Blocks (bs : list block).

Record turn : Type := mk_turn {
  role : string;
  turn_content : content
}.

Definition user_turn (message : string) : turn :=
  mk_turn "user" (Str message).

(** The decoded body of a non-streaming model response. *)
Record response : Type := mk_response {
  response_content : option (list block);
  stop_reason : option string
}.

(** ["delta"] of a [content_block_delta] chunk. *)
Inductive delta : Type :=
| text_delta (text : option string)
| input_json_delta (partial_json : option string)
| other_delta (type : string).

(** A decoded chunk of the response stream, keyed by its ["type"]. *)
Inductive chunk : Type :=
| content_block_start (content_block : block)
| content_block_delta (d : delta)
| content_block_stop
| message_stop
| other_chunk (type : string).

(** A response stream: the chunks it delivers, then either exhaustion
    ([None]) or an exception raised by the provider ([Some e]). *)
Record stream : Type := mk_stream {
  chunks : list chunk;
  ending : option exn
}.

(** [{"name": ..., "input": ...}] *)
Record tool_call : Type := mk_call {
  call_name : option string;
  call_input : json
}.

(** The events the streaming entry points yield. *)
Inductive event : Type :=
| agent_context_event
| text_event (text : string)
| tool_use_event (name : option string) (input : json)
| tool_result_event (name : option string) (output : tool_output)
| done_event (tool_calls : list tool_call) (decisions_made : list json).

(* ================================================================== *)
(** ** bedrock_client.py: BedrockClaudeClient *)

(** The boto3 [bedrock-runtime] client, as a deterministic stub: what
    it answers depends on the messages of the request body (system
    prompt, token limit, temperature and tools are fixed per agent). *)
Record bedrock_runtime : Type := mk_runtime {
  invoke_model : list turn -> outcome response;
  invoke_model_with_response_stream : list turn -> stream
}.

(** [try: ... except Exception as e: logger.error(...); raise] *)
Definition reraise {A : Type} (r : outcome A) : outcome A :=
  match r with
  | Ok a => Ok a
  | Raise e => Raise e
  end.

(** [BedrockClaudeClient.invoke] *)
Definition invoke (rt : bedrock_runtime) (messages : list turn)
  : outcome response :=
  reraise (invoke_model rt messages).

(** [BedrockClaudeClient.invoke_stream]: every chunk of the body is
    decoded and yielded; an exception is logged and raised again. *)
Definition invoke_stream (rt : bedrock_runtime) (messages : list turn)
  : stream :=
  let body := invoke_model_with_response_stream rt messages in
  mk_stream (chunks body) (ending body).

(* ================================================================== *)
(** ** bedrock_agent.py: BedrockAgent *)

(** The agent object.  [conversation_history] is its only mutable
    field; [requests] and [dispatched] record, in order, the message
    lists sent to the client and the calls made to [execute_tool]. *)
Record agent : Type := mk_agent {
  conversation_history : list turn;
  requests : list (list turn);
  dispatched : list tool_call
}.

Definition new_agent : agent := mk_agent [] [] [].

Definition append_history (t : turn) (a : agent) : agent :=
  mk_agent (conversation_history a ++ [t])%list (requests a) (dispatched a).

Definition log_request (messages : list turn) (a : agent) : agent :=
  mk_agent (conversation_history a) (requests a ++ [messages])%list
           (dispatched a).

Definition log_dispatch (name : option string) (input : json) (a : agent)
  : agent :=
  mk_agent (conversation_history a) (requests a)
           (dispatched a ++ [mk_call name input])%list.

(** Computations on the agent that may raise.  What was mutated before
    an exception stays mutated. *)
Definition M (A : Type) : Type := agent -> outcome A * agent.

Definition ret {A : Type} (x : A) : M A := fun a => (Ok x, a).

Definition bind {A B : Type} (m : M A) (k : A -> M B) : M B :=
  fun a =>
    match m a with
    | (Ok x, a') => k x a'
    | (Raise e, a') => (Raise e, a')
    end.

Definition lift {A : Type} (r : outcome A) : M A := fun a => (r, a).

Definition modify (f : agent -> agent) : M unit := fun a => (Ok tt, f a).

Definition get_history : M (list turn) :=
  fun a => (Ok (conversation_history a), a).

Declare Scope agent_scope.
Delimit Scope agent_scope with agent.
Notation "x <- m ;; k" := (bind m (fun x => k))
  (at level 61, m at next level, right associativity) : agent_scope.
Notation "m ;;; k" := (bind m (fun _ => k))
  (at level 61, right associativity) : agent_scope.
Open Scope agent_scope.

(** Truth value of [response.get("content")] and of a list. *)
Definition truthy {A : Type} (l : list A) : bool :=
  match l with [] => false | _ => true end.

Definition or_default {A : Type} (d : A) (x : option A) : A :=
  match x with Some v => v | None => d end.

(** [BedrockAgent.query] *)
Definition query (rt : bedrock_runtime) (message : string) : M response :=
  history <- get_history ;;
  let messages := (history ++ [user_turn message])%list in
  modify (log_request messages) ;;;
  response <- lift (invoke rt messages) ;;
  modify (append_history (user_turn message)) ;;;
  (if truthy (or_default [] (response_content response))
   then modify (append_history
                  (mk_turn "assistant"
                           (Blocks (or_default [] (response_content response)))))
   else ret tt) ;;;
  ret response.

(** *** execute_tool *)

Definition handler : Type := json -> outcome tool_output.

(** [tool_handlers]: a dict from tool name to handler. *)
Definition tool_handlers : Type := list (string * handler).

Fixpoint find_handler (name : string) (hs : tool_handlers) : option handler :=
  match hs with
  | [] => None
  | (k, h) :: rest => if String.eqb name k then Some h else find_handler name rest
  end.

(** [tool_handlers[tool_name]] where [tool_name] may be [None], which
    is never a key. *)
Definition get_handler (tool_name : option string) (hs : tool_handlers)
  : option handler :=
  match tool_name with
  | Some n => find_handler n hs
  | None => None
  end.

Definition error_output (text : string) : tool_output :=
  mk_output (Some [text_item text]) (Some true).

(** [try: body except Exception as e: recover(e)] *)
Definition try_except {A : Type} (body : outcome A) (recover : exn -> outcome A)
  : outcome A :=
  match body with
  | Ok a => Ok a
  | Raise e => recover e
  end.

(** [BedrockAgent.execute_tool] *)
Definition execute_tool (tool_name : option string) (tool_input : json)
           (hs : tool_handlers) : outcome tool_output :=
  match get_handler tool_name hs with
  | None => Ok (error_output ("Tool " ++ str_opt tool_name ++ " not found"))
  | Some h =>
      try_except (h tool_input)
        (fun e => Ok (error_output ("Error executing " ++ str_opt tool_name
                                      ++ ": " ++ str_exn e)))
  end.

(** The [tool_result] block the loops build from a handler's output. *)
Definition tool_result_of (tool_use_id : option string) (result : tool_output)
  : block :=
  tool_result_block tool_use_id
                    (or_default [] (output_content result))
                    (or_default false (output_is_error result)).

(** *** run_agentic_loop *)

(** The local variables of [run_agentic_loop]: [response_text] and
    [tool_calls] live across iterations, [has_tool_use] and
    [tool_results] are reset at the top of each one. *)
Record locals : Type := mk_locals {
  response_text : string;
  tool_calls : list tool_call;
  has_tool_use : bool;
  tool_results : list block
}.

(** One pass through the body of [for block in content]. *)
Definition scan_block (hs : tool_handlers) (b : block) (l : locals) : M locals :=
  match b with
  | text_block text =>
      ret (mk_locals (response_text l ++ or_default "" text)
                     (tool_calls l) (has_tool_use l) (tool_results l))
  | tool_use_block tool_use_id tool_name input =>
      let tool_input := or_default empty_dict input in
      modify (log_dispatch tool_name tool_input) ;;;
      result <- lift (execute_tool tool_name tool_input hs) ;;
      ret (mk_locals (response_text l)
                     (tool_calls l ++ [mk_call tool_name tool_input])%list
                     true
                     (tool_results l ++ [tool_result_of tool_use_id result])%list)
  | _ => ret l
  end.

Fixpoint scan_blocks (hs : tool_handlers) (bs : list block) (l : locals)
  : M locals :=
  match bs with
  | [] => ret l
  | b :: rest => l' <- scan_block hs b l ;; scan_blocks hs rest l'
  end.

(** What the body of [for iteration in range(max_iterations)] ends with. *)
Inductive flow : Type :=
| Next
| Break.

Definition opt_string_eqb (x : option string) (s : string) : bool :=
  match x with
  | Some v => String.eqb v s
  | None => false
  end.

(** The body of the [for iteration ...] loop of [run_agentic_loop]. *)
Definition loop_iteration (rt : bedrock_runtime) (hs : tool_handlers)
           (message : string) (iteration : nat) (l : locals)
  : M (locals * flow) :=
  response <- query rt (if Nat.eqb iteration 0 then message else "") ;;
  l' <- scan_blocks hs (or_default [] (response_content response))
                    (mk_locals (response_text l) (tool_calls l) false []) ;;
  if has_tool_use l' && truthy (tool_results l') then
    modify (append_history (mk_turn "user" (Blocks (tool_results l')))) ;;;
    ret (l', Next)
  else if opt_string_eqb (stop_reason response) "end_turn" then
    ret (l', Break)
  else
    ret (l', Next).

(** [{"response": response_text, "tool_calls": tool_calls}] *)
Record loop_result : Type := mk_result {
  result_response : string;
  result_tool_calls : list tool_call
}.

(** The iterations [iteration, iteration + 1, ...] of the loop, of
    which [remaining] are left in [range(max_iterations)]. *)
Fixpoint loop_from (rt : bedrock_runtime) (hs : tool_handlers)
         (message : string) (remaining iteration : nat) (l : locals)
  : M loop_result :=
  match remaining with
  | O => ret (mk_result (response_text l) (tool_calls l))
  | S remaining' =>
      r <- loop_iteration rt hs message iteration l ;;
      match snd r with
      | Break => ret (mk_result (response_text (fst r)) (tool_calls (fst r)))
      | Next => loop_from rt hs message remaining' (S iteration) (fst r)
      end
  end.

(** [BedrockAgent.run_agentic_loop].  [max_iterations] (10 by default)
    is a natural number: [range(n)] is empty for every [n <= 0]. *)
Definition run_agentic_loop (rt : bedrock_runtime) (hs : tool_handlers)
           (message : string) (max_iterations : nat) : M loop_result :=
  loop_from rt hs message max_iterations 0 (mk_locals "" [] false []).

(** *** query_stream *)

(** [query_stream] up to its [async for]: the request is built from the
    history, the user turn is appended, and the stream is opened. *)
Definition query_stream_open (rt : bedrock_runtime) (message : string)
  : M stream :=
  history <- get_history ;;
  let messages := (history ++ [user_turn message])%list in
  modify (append_history (user_turn message)) ;;;
  modify (log_request messages) ;;;
  ret (invoke_stream rt messages).

(** The body of the [async for] of [query_stream] on one chunk: the new
    [accumulated_content] and the chunk it yields, if it yields. *)
Definition accumulate (c : chunk) (accumulated_content : list block)
  : list block * option chunk :=
  match c with
  | content_block_delta d =>
      match d with
      | text_delta text =>
          ((accumulated_content ++ [text_block (Some (or_default "" text))])%list,
           Some c)
      | _ => (accumulated_content, None)
      end
  | content_block_start cb =>
      match cb with
      | tool_use_block _ _ _ => ((accumulated_content ++ [cb])%list, Some c)
      | _ => (accumulated_content, Some c)
      end
  | _ => (accumulated_content, Some c)
  end.

(** [query_stream] after its [async for], reached only when the stream
    is exhausted and the consumer asked for every chunk. *)
Definition query_stream_close (accumulated_content : list block) : M unit :=
  if truthy accumulated_content
  then modify (append_history (mk_turn "assistant" (Blocks accumulated_content)))
  else ret tt.

(** The chunks [query_stream] yields from [cs], and what it has
    accumulated at the end. *)
Fixpoint relay (cs : list chunk) (accumulated_content : list block)
  : list chunk * list block :=
  match cs with
  | [] => ([], accumulated_content)
  | c :: rest =>
      let (acc', y) := accumulate c accumulated_content in
      let (ys, acc'') := relay rest acc' in
      (match y with Some c' => c' :: ys | None => ys end, acc'')
  end.

(** [BedrockAgent.query_stream], consumed to its end: the chunks
    yielded, and how the generator finishes. *)
Definition query_stream (rt : bedrock_runtime) (message : string) (a : agent)
  : list chunk * outcome unit * agent :=
  match query_stream_open rt message a with
  | (Raise e, a1) => ([], Raise e, a1)
  | (Ok body, a1) =>
      let (ys, acc) := relay (chunks body) [] in
      match ending body with
      | Some e => (ys, Raise e, a1)
      | None =>
          let (r, a2) := query_stream_close acc a1 in (ys, r, a2)
      end
  end.

(** *** run_agentic_loop_stream *)

(** [current_tool_use] *)
Record current : Type := mk_current {
  cur_id : option string;
  cur_name : option string;
  cur_input : json
}.

(** The per-iteration locals of [run_agentic_loop_stream].

    [tool_results] is one list object for the whole iteration, and the
    turn appended on [message_stop] holds that object, not a copy: a
    result added later in the same iteration shows through every turn
    appended before.  [appended] counts those turns; they enter the
    history with the final list when the iteration is over ([settle]).
    Nothing reads the history in between. *)
Record stream_locals : Type := mk_stream_locals {
  current_tool_use : option current;
  stream_tool_results : list block;
  stream_has_tool_use : bool;
  appended : nat
}.

Definition fresh_locals : stream_locals := mk_stream_locals None [] false 0.

Definition nonempty (s : string) : bool :=
  match s with EmptyString => false | _ => true end.

(** The body of [async for chunk in self.query_stream(...)] on one
    chunk: new locals, events yielded, and whether the generator goes
    on ([Next]) or returns ([Break]). *)
Definition stream_chunk (hs : tool_handlers) (c : chunk) (l : stream_locals)
  : M (stream_locals * list event * flow) :=
  match c with
  | content_block_start cb =>
      match cb with
      | tool_use_block id name _ =>
          ret (mk_stream_locals (Some (mk_current id name empty_dict))
                                (stream_tool_results l) true (appended l),
               [tool_use_event name empty_dict], Next)
      | _ => ret (l, [], Next)
      end
  | content_block_delta d =>
      match d with
      | text_delta text => ret (l, [text_event (or_default "" text)], Next)
      | input_json_delta partial_json =>
          match current_tool_use l with
          | Some cur =>
              let partial_json := or_default "" partial_json in
              if nonempty partial_json then
                match json_loads (json_dumps (cur_input cur) ++ partial_json) with
                | Some v =>
                    ret (mk_stream_locals
                           (Some (mk_current (cur_id cur) (cur_name cur) v))
                           (stream_tool_results l) (stream_has_tool_use l)
                           (appended l),
                         [], Next)
                | None => ret (l, [], Next)
                end
              else ret (l, [], Next)
          | None => ret (l, [], Next)
          end
      | other_delta _ => ret (l, [], Next)
      end
  | content_block_stop =>
      match current_tool_use l with
      | Some cur =>
          modify (log_dispatch (cur_name cur) (cur_input cur)) ;;;
          result <- lift (execute_tool (cur_name cur) (cur_input cur) hs) ;;
          ret (mk_stream_locals
                 None
                 (stream_tool_results l ++ [tool_result_of (cur_id cur) result])%list
                 (stream_has_tool_use l) (appended l),
               [tool_result_event (cur_name cur) result], Next)
      | None => ret (l, [], Next)
      end
  | message_stop =>
      if stream_has_tool_use l && truthy (stream_tool_results l) then
        ret (mk_stream_locals (current_tool_use l) (stream_tool_results l)
                              (stream_has_tool_use l) (S (appended l)),
             [], Next)
      else ret (l, [], Break)
  | other_chunk _ => ret (l, [], Next)
  end.

(** How one pass over a stream ends. *)
Inductive pass_end : Type :=
| Exhausted
| Returned
| Raised (e : exn).

Record pass : Type := mk_pass {
  pass_events : list event;
  pass_end_of : pass_end;
  pass_accumulated : list block;
  pass_locals : stream_locals;
  pass_agent : agent
}.

(** [query_stream] and the loop body run in lockstep over the chunks of
    the stream: each chunk goes through [accumulate], and through
    [stream_chunk] when it is yielded. *)
Fixpoint consume (hs : tool_handlers) (cs : list chunk) (fin : option exn)
         (acc : list block) (l : stream_locals) (a : agent) : pass :=
  match cs with
  | [] =>
      mk_pass [] (match fin with Some e => Raised e | None => Exhausted end)
              acc l a
  | c :: rest =>
      let (acc', y) := accumulate c acc in
      match y with
      | None => consume hs rest fin acc' l a
      | Some c' =>
          match stream_chunk hs c' l a with
          | (Raise e, a') => mk_pass [] (Raised e) acc' l a'
          | (Ok (l', evs, Break), a') => mk_pass evs Returned acc' l' a'
          | (Ok (l', evs, Next), a') =>
              let p := consume hs rest fin acc' l' a' in
              mk_pass (evs ++ pass_events p)%list (pass_end_of p)
                      (pass_accumulated p) (pass_locals p) (pass_agent p)
          end
      end
  end.

(** The turns that hold the [tool_results] list enter the history. *)
Definition settle (l : stream_locals) (a : agent) : agent :=
  fold_right (fun t a' => append_history t a') a
             (repeat (mk_turn "user" (Blocks (stream_tool_results l)))
                     (appended l)).

(** One iteration of [for iteration in range(max_iterations)]. *)
Definition stream_iteration (rt : bedrock_runtime) (hs : tool_handlers)
           (message : string) (iteration : nat) (a : agent)
  : list event * pass_end * agent :=
  match query_stream_open rt (if Nat.eqb iteration 0 then message else "") a with
  | (Raise e, a1) => ([], Raised e, a1)
  | (Ok body, a1) =>
      let p := consume hs (chunks body) (ending body) [] fresh_locals a1 in
      let a2 := settle (pass_locals p) (pass_agent p) in
      match pass_end_of p with
      | Exhausted =>
          (pass_events p, Exhausted, snd (query_stream_close (pass_accumulated p) a2))
      | fin => (pass_events p, fin, a2)
      end
  end.

Fixpoint stream_loop_from (rt : bedrock_runtime) (hs : tool_handlers)
         (message : string) (remaining iteration : nat) (a : agent)
  : list event * outcome unit * agent :=
  match remaining with
  | O => ([], Ok tt, a)
  | S remaining' =>
      match stream_iteration rt hs message iteration a with
      | (evs, Exhausted, a') =>
          match stream_loop_from rt hs message remaining' (S iteration) a' with
          | (evs', r, a'') => ((evs ++ evs')%list, r, a'')
          end
      | (evs, Returned, a') => (evs, Ok tt, a')
      | (evs, Raised e, a') => (evs, Raise e, a')
      end
  end.

(** [BedrockAgent.run_agentic_loop_stream]: the events yielded, how the
    generator finishes, and the agent afterwards. *)
Definition run_agentic_loop_stream (rt : bedrock_runtime) (hs : tool_handlers)
           (message : string) (max_iterations : nat) (a : agent)
  : list event * outcome unit * agent :=
  stream_loop_from rt hs message max_iterations 0 a.

(* ================================================================== *)
(** ** agent_bedrock.py: ContextGraphAgentBedrock *)

(** An entry of the caller's [conversation_history]:
    [{"role": ..., "content": ...}] with string values. *)
Record chat_message : Type := mk_chat {
  chat_role : string;
  chat_content : string
}.

Definition turn_of_chat (m : chat_message) : turn :=
  mk_turn (chat_role m) (Str (chat_content m)).

(** [if conversation_history: for msg in conversation_history[-6:]:
        self.agent.conversation_history.append(msg)] *)
Definition seed_history (conversation_history : option (list chat_message))
           (a : agent) : agent :=
  match conversation_history with
  | Some h =>
      if truthy h
      then fold_left (fun a' msg => append_history (turn_of_chat msg) a')
                     (last_n 6 h) a
      else a
  | None => a
  end.

(** The dict [ContextGraphAgentBedrock.query] returns. *)
Record reply : Type := mk_reply {
  reply_response : string;
  reply_tool_calls : list tool_call;
  reply_decisions_made : list json
}.

Module ContextGraphAgentBedrock.

(** [ContextGraphAgentBedrock.query] *)
Definition query (rt : bedrock_runtime) (hs : tool_handlers)
           (message : string)
           (conversation_history : option (list chat_message))
  : M reply :=
  modify (seed_history conversation_history) ;;;
  result <- run_agentic_loop rt hs message 10 ;;
  ret (mk_reply (result_response result) (result_tool_calls result) []).

(** [ContextGraphAgentBedrock.query_stream] *)
Definition query_stream (rt : bedrock_runtime) (hs : tool_handlers)
           (message : string)
           (conversation_history : option (list chat_message))
           (a : agent)
  : list event * outcome unit * agent :=
  let a0 := seed_history conversation_history a in
  match run_agentic_loop_stream rt hs message 10 a0 with
  | (evs, Ok _, a1) =>
      ((agent_context_event :: evs ++ [done_event [] []])%list, Ok tt, a1)
  | (evs, Raise e, a1) =>
      ((agent_context_event :: evs)%list, Raise e, a1)
  end.

End ContextGraphAgentBedrock.

(* ================================================================== *)
(** ** agent.py: ContextGraphAgent (Claude Agent SDK) *)

Module ContextGraphAgent.

Definition nl : string := String "010"%char EmptyString.

(** [f"{msg['role'].upper()}: {msg['content']}"] *)
Definition format_message (msg : chat_message) : string :=
  upper (chat_role msg) ++ ": " ++ chat_content msg.

Definition history_text (shown : list chat_message) : string :=
  join nl (map format_message shown).

Definition with_history (history_text message : string) : string :=
  "Previous conversation:" ++ nl ++ history_text ++ nl ++ nl
    ++ "Current message from USER: " ++ message ++ nl ++ nl
    ++ "Please respond to the current message, taking the conversation history into account.".

(** [full_message], as [query] and [query_stream] both build it. *)
Definition full_message (message : string)
           (conversation_history : option (list chat_message)) : string :=
  match conversation_history with
  | Some h =>
      if truthy h && (0 <? List.length h)%nat
      then with_history (history_text (last_n 6 h)) message
      else message
  | None => message
  end.

(** *** The SDK's message objects, as far as the agent probes them

    A [UserMessage] whose content is a plain string gives no event and
    is [UserMessage []] here. *)

(** An item of a [ToolResultBlock]'s list content. *)
Inductive result_item : Type :=
| text_dict (text : option string)   (* a dict with "type": "text" *)
| other_dict                         (* any other dict *)
| text_object (text : string).       (* an object with a [text] attribute *)

Inductive result_content : Type :=
| content_none
| content_str (s : string)
| content_list (items : list result_item).

Inductive sdk_block : Type :=
| TextBlock (text : string)
| ThinkingBlock
| ToolUseBlock (id : option string) (name : string) (input : json)
| ToolResultBlock (tool_use_id : option string) (content : result_content).

Inductive sdk_message : Type :=
| UserMessage (content : list sdk_block)
| AssistantMessage (content : list sdk_block)
| SystemMessage
| ResultMessage.

(** [parsed_output] *)
Inductive parsed : Type :=
| parsed_none
| parsed_json (v : json)
| parsed_text (s : option string).

Inductive sdk_event : Type :=
| sdk_agent_context
| sdk_text (text : string)
| sdk_tool_use (name : string) (input : json)
| sdk_tool_result (name : string) (output : parsed)
| sdk_done (tool_calls : list tool_call) (decisions_made : list json).

(** [try: json.loads(text) except json.JSONDecodeError: fallback] *)
Definition loads_or (text : string) (fallback : option string) : parsed :=
  match json_loads text with
  | Some v => parsed_json v
  | None => parsed_text fallback
  end.

(** The [for item in block_content] loop with its [break]. *)
Fixpoint parse_items (items : list result_item) : parsed :=
  match items with
  | [] => parsed_none
  | text_dict text :: _ => loads_or (or_default "{}" text) text
  | text_object text :: _ => loads_or text (Some text)
  | other_dict :: rest => parse_items rest
  end.

Definition parse_content (c : result_content) : parsed :=
  match c with
  | content_list items => parse_items items
  | content_str s => loads_or s (Some s)
  | content_none => parsed_none
  end.

(** [tool_id_to_name]: a dict from tool-use id to tool name. *)
Fixpoint name_of (id : string) (tool_id_to_name : list (string * string))
  : string :=
  match tool_id_to_name with
  | [] => "unknown"
  | (k, v) :: rest => if String.eqb id k then v else name_of id rest
  end.

(** The locals of [query_stream] that live across messages. *)
Record sdk_locals : Type := mk_sdk_locals {
  sdk_tool_calls : list tool_call;
  tool_id_to_name : list (string * string)
}.

Definition truthy_id (id : option string) : option string :=
  match id with
  | Some s => if nonempty s then Some s else None
  | None => None
  end.

(** Events of a [UserMessage]: one [tool_result] per
    [ToolResultBlock] that has an id. *)
Definition user_block_events (l : sdk_locals) (b : sdk_block)
  : list sdk_event :=
  match b with
  | ToolResultBlock tool_use_id content =>
      match truthy_id tool_use_id with
      | Some id =>
          [sdk_tool_result (name_of id (tool_id_to_name l))
                           (parse_content content)]
      | None => []
      end
  | _ => []
  end.

(** Events and bookkeeping of one block of any other message that has
    [content]. *)
Definition assistant_block (l : sdk_locals) (b : sdk_block)
  : sdk_locals * list sdk_event :=
  match b with
  | TextBlock text => (l, [sdk_text text])
  | ToolUseBlock id name input =>
      (mk_sdk_locals
         (sdk_tool_calls l ++ [mk_call (Some name) input])%list
         (match truthy_id id with
          | Some i => (i, name) :: tool_id_to_name l
          | None => tool_id_to_name l
          end),
       [sdk_tool_use name input])
  | _ => (l, [])
  end.

Fixpoint assistant_blocks (l : sdk_locals) (bs : list sdk_block)
  : sdk_locals * list sdk_event :=
  match bs with
  | [] => (l, [])
  | b :: rest =>
      let (l1, e1) := assistant_block l b in
      let (l2, e2) := assistant_blocks l1 rest in
      (l2, (e1 ++ e2)%list)
  end.

(** The [async for msg in self.client.receive_response()] loop. *)
Fixpoint receive (l : sdk_locals) (msgs : list sdk_message)
  : sdk_locals * list sdk_event :=
  match msgs with
  | [] => (l, [])
  | UserMessage content :: rest =>
      let (l', evs) := receive l rest in
      ((l', flat_map (user_block_events l) content ++ evs)%list)
  | AssistantMessage content :: rest =>
      let (l1, e1) := assistant_blocks l content in
      let (l2, e2) := receive l1 rest in
      (l2, (e1 ++ e2)%list)
  | _ :: rest => receive l rest
  end.

(** The connected SDK client, as a deterministic stub: the messages
    [receive_response] delivers for a prompt, when it delivers them
    without raising.  (The agent has no [try] around the exchange: an
    exception of the client would leave it as it is.) *)
Definition sdk_client : Type := string -> list sdk_message.

(** [ContextGraphAgent.query_stream]; [None] for [self.client] is the
    agent used outside its context manager. *)
Definition query_stream (client : option sdk_client) (message : string)
           (conversation_history : option (list chat_message))
  : list sdk_event * outcome unit :=
  match client with
  | None =>
      ([], Raise (Exception
                    "Agent not connected. Use 'async with' context manager."))
  | Some c =>
      let prompt := full_message message conversation_history in
      let (l, evs) := receive (mk_sdk_locals [] []) (c prompt) in
      ((sdk_agent_context :: evs ++ [sdk_done (sdk_tool_calls l) []])%list,
       Ok tt)
  end.

End ContextGraphAgent.

(* ================================================================== *)
(** ** A scripted transport *)

(** One content block of a model turn together with the way the
    provider cuts it into deltas when it streams it (specification,
    section 4.1: block-start, block-delta, block-stop, message-stop). *)
Inductive framed : Type :=
| framed_text (fragments : list string)
| framed_tool_use (id name : string) (fragments : list string).

(** The block as a non-streaming response carries it. *)
Definition frame_block (f : framed) : block :=
  match f with
  | framed_text fragments => text_block (Some (concat_all fragments))
  | framed_tool_use id name fragments =>
      tool_use_block (Some id) (Some name) (json_loads (concat_all fragments))
  end.

(** The block as chunks of a response stream. *)
Definition frame_chunks (f : framed) : list chunk :=
  match f with
  | framed_text fragments =>
      (content_block_start (text_block (Some ""))
         :: map (fun s => content_block_delta (text_delta (Some s))) fragments
         ++ [content_block_stop])%list
  | framed_tool_use id name fragments =>
      (content_block_start (tool_use_block (Some id) (Some name) (Some empty_dict))
         :: map (fun s => content_block_delta (input_json_delta (Some s))) fragments
         ++ [content_block_stop])%list
  end.

(** A whole model turn as a response stream. *)
Definition turn_chunks (fs : list framed) : list chunk :=
  (other_chunk "message_start"
     :: flat_map frame_chunks fs
     ++ [other_chunk "message_delta"; message_stop])%list.

(** Runtimes that answer from a script: one for the streaming entry
    point, one for the non-streaming one. *)
Definition scripted_stream (script : list turn -> stream) : bedrock_runtime :=
  mk_runtime (fun _ => Raise (Exception "not scripted")) script.

Definition scripted_response (script : list turn -> outcome response)
  : bedrock_runtime :=
  mk_runtime script (fun _ => mk_stream [] None).

(* ================================================================== *)
(** ** Observations *)

(** The ids of the tool-use blocks of a turn, in order. *)
Definition tool_use_ids (bs : list block) : list (option string) :=
  flat_map (fun b => match b with
                     | tool_use_block id _ _ => [id]
                     | _ => []
                     end) bs.

(** The ids the tool-result blocks of a turn answer, in order. *)
Definition tool_result_ids (bs : list block) : list (option string) :=
  flat_map (fun b => match b with
                     | tool_result_block id _ _ => [id]
                     | _ => []
                     end) bs.

Definition is_tool_result (b : block) : bool :=
  match b with tool_result_block _ _ _ => true | _ => false end.

Definition is_tool_use (b : block) : bool :=
  match b with tool_use_block _ _ _ => true | _ => false end.




(** Concatenation of the [text] events of a sequence, in order. *)
Fixpoint text_of_events (evs : list event) : string :=
  match evs with
  | [] => ""
  | text_event t :: rest => t ++ text_of_events rest
  | _ :: rest => text_of_events rest
  end.

Definition is_done (ev : event) : bool :=
  match ev with done_event _ _ => true | _ => false end.

(** The tool calls announced by the [tool_use] events of a sequence. *)
Definition announced_calls (evs : list event) : list (option string) :=
  flat_map (fun ev => match ev with
                      | tool_use_event name _ => [name]
                      | _ => []
                      end) evs.

(** Concatenation of the text deltas of a chunk sequence, in order. *)
Fixpoint text_of_chunks (cs : list chunk) : string :=
  match cs with
  | [] => ""
  | content_block_delta (text_delta t) :: rest =>
      or_default "" t ++ text_of_chunks rest
  | _ :: rest => text_of_chunks rest
  end.

Definition is_message_stop (c : chunk) : bool :=
  match c with message_stop => true | _ => false end.

(** The result [execute_tool] hands back. *)
Definition run_tool (hs : tool_handlers) (name : option string) (input : json)
  : tool_output :=
  match execute_tool name input hs with
  | Ok r => r
  | Raise e => error_output (str_exn e)
  end.

(** Text, calls and results of the blocks of a non-streaming response,
    in block order. *)
Fixpoint text_of_blocks (bs : list block) : string :=
  match bs with
  | [] => ""
  | text_block t :: rest => or_default "" t ++ text_of_blocks rest
  | _ :: rest => text_of_blocks rest
  end.

Definition calls_of_blocks (bs : list block) : list tool_call :=
  flat_map (fun b => match b with
                     | tool_use_block _ name input =>
                         [mk_call name (or_default empty_dict input)]
                     | _ => []
                     end) bs.

Definition results_of_blocks (hs : tool_handlers) (bs : list block)
  : list block :=
  flat_map (fun b => match b with
                     | tool_use_block id name input =>
                         [tool_result_of
                            id (run_tool hs name (or_default empty_dict input))]
                     | _ => []
                     end) bs.

(** Events, accumulated content, calls and results of the frames of a
    streamed turn, in frame order. *)
Definition frame_events (hs : tool_handlers) (f : framed) : list event :=
  match f with
  | framed_text fragments => map text_event fragments
  | framed_tool_use _ name _ =>
      [tool_use_event (Some name) empty_dict;
       tool_result_event (Some name) (run_tool hs (Some name) empty_dict)]
  end.

Definition frame_accumulated (f : framed) : list block :=
  match f with
  | framed_text fragments => map (fun s => text_block (Some s)) fragments
  | framed_tool_use id name _ =>
      [tool_use_block (Some id) (Some name) (Some empty_dict)]
  end.

Definition frame_calls (f : framed) : list tool_call :=
  match f with
  | framed_text _ => []
  | framed_tool_use _ name _ => [mk_call (Some name) empty_dict]
  end.

Definition frame_results (hs : tool_handlers) (f : framed) : list block :=
  match f with
  | framed_text _ => []
  | framed_tool_use id name _ =>
      [tool_result_of (Some id) (run_tool hs (Some name) empty_dict)]
  end.

Definition is_tool_frame (f : framed) : bool :=
  match f with framed_tool_use _ _ _ => true | _ => false end.

(** The text of the responses the runtime gives to a list of requests,
    in request order. *)
Definition text_of_response (r : outcome response) : string :=
  match r with
  | Ok r => text_of_blocks (or_default [] (response_content r))
  | Raise _ => ""
  end.

Definition response_texts (rt : bedrock_runtime) (reqs : list (list turn))
  : string :=
  concat_all (map (fun msgs => text_of_response (invoke_model rt msgs)) reqs).

(** The text deltas of the streams the runtime gives to a list of
    requests, in request order. *)
Definition streamed_text (rt : bedrock_runtime) (reqs : list (list turn))
  : string :=
  concat_all
    (map (fun msgs =>
            text_of_chunks (chunks (invoke_model_with_response_stream rt msgs)))
         reqs).

(** Events of the loop proper: text, tool use, tool result. *)
Definition is_loop_event (ev : event) : bool :=
  match ev with
  | text_event _ | tool_use_event _ _ | tool_result_event _ _ => true
  | _ => false
  end.

(** The message an iteration sends: the caller's on the first one, the
    empty string afterwards. *)
Definition turn_message (message : string) (iteration : nat) : string :=
  if Nat.eqb iteration 0 then message else "".

(** The input of [current_tool_use] is [{}] for as long as it exists. *)
Definition input_still_empty (l : stream_locals) : Prop :=
  match current_tool_use l with
  | Some cur => cur_input cur = empty_dict
  | None => True
  end.

Definition empty_input (c : tool_call) : Prop := call_input c = empty_dict.

(* ================================================================== *)
(** ** Scenarios *)

Module Scenario.

(** A stand-in for the [find_precedents] tool of agent.py: it needs
    the key "scenario" and reports its absence as an error result. *)
Fixpoint has_key (k : string) (members : list (string * json)) : bool :=
  match members with
  | [] => false
  | (k', _) :: rest => String.eqb k k' || has_key k rest
  end.

(** The JSON text of an empty list of precedents. *)
Definition precedents_text : string := "{" ++ quote "precedents" ++ ": []}".

Definition find_precedents : handler :=
  fun args =>
    match args with
    | JObj members =>
        if has_key "scenario" members
        then Ok (mk_output (Some [text_item precedents_text]) None)
        else Ok (error_output "Error finding precedents: 'scenario'")
    | _ => Ok (error_output "Error finding precedents: 'scenario'")
    end.

Definition handlers : tool_handlers :=
  [("find_precedents", find_precedents)].

Definition question : string :=
  "find precedents for a $50,000 international wire to a new beneficiary".

(** The model's first turn: one call to [find_precedents], its input
    streamed in two fragments. *)
Definition call_input_fragments : list string :=
  ["{" ++ quote "scenario" ++ ": " ++ quote "wire" ++ ",";
   " " ++ quote "limit" ++ ": 5}"].

Definition call_turn : list framed :=
  [framed_tool_use "toolu_01" "find_precedents" call_input_fragments].

(** Its second turn, after the tool result. *)
Definition final_turn : list framed :=
  [framed_text ["No precedent "; "found."]].

(** The first request holds the user turn only. *)
Definition is_first (messages : list turn) : bool :=
  (List.length messages <=? 1)%nat.

Definition streaming : bedrock_runtime :=
  scripted_stream
    (fun messages =>
       mk_stream (turn_chunks (if is_first messages then call_turn
                               else final_turn))
                 None).

Definition plain : bedrock_runtime :=
  scripted_response
    (fun messages =>
       if is_first messages
       then Ok (mk_response (Some (map frame_block call_turn))
                            (Some "tool_use"))
       else Ok (mk_response (Some (map frame_block final_turn))
                            (Some "end_turn"))).

(** A model cut off by the token limit on every turn: text only, stop
    reason [max_tokens]. *)
Definition cut_off_turn : list framed := [framed_text ["Based on polic"]].

Definition cut_off : bedrock_runtime :=
  mk_runtime
    (fun _ => Ok (mk_response (Some (map frame_block cut_off_turn))
                              (Some "max_tokens")))
    (fun _ => mk_stream (turn_chunks cut_off_turn) None).



(** The same exchange as the SDK client reports it. *)
Definition sdk_input : json :=
  JObj [("scenario", JStr "wire"); ("limit", JNum 5)].

Definition sdk : ContextGraphAgent.sdk_client :=
  fun _ =>
    [ContextGraphAgent.SystemMessage;
     ContextGraphAgent.AssistantMessage
       [ContextGraphAgent.ToolUseBlock (Some "toolu_01")
                                       "mcp__graph__find_precedents" sdk_input];
     ContextGraphAgent.UserMessage
       [ContextGraphAgent.ToolResultBlock
          (Some "toolu_01")
          (ContextGraphAgent.content_list
             [ContextGraphAgent.text_dict (Some precedents_text)])];
     ContextGraphAgent.AssistantMessage
       [ContextGraphAgent.TextBlock "No precedent found."];
     ContextGraphAgent.ResultMessage].

End Scenario.

(* ================================================================== *)
(** ** agent.py: the tool handlers *)

(** More of Python's values, as the handlers use them. *)
Module PyValue.

(** [str.lower] on the ASCII range. *)
Definition lower_ascii (c : ascii) : ascii :=
  let n := nat_of_ascii c in
  if (65 <=? n)%nat && (n <=? 90)%nat then ascii_of_nat (n + 32) else c.

Fixpoint lower (s : string) : string :=
  match s with
  | EmptyString => EmptyString
  | String c rest => String (lower_ascii c) (lower rest)
  end.

(** [needle in hay] on strings. *)
Fixpoint contains (needle hay : string) : bool :=
  String.prefix needle hay
  || match hay with
     | EmptyString => false
     | String _ rest => contains needle rest
     end.

(** Truth value of a JSON-like value. *)
Definition truthy_json (v : json) : bool :=
  match v with
  | JNull => false
  | JBool b => b
  | JNum n => negb (Z.eqb n 0)
  | JStr s => nonempty s
  | JArr items => truthy items
  | JObj members => truthy members
  end.

Fixpoint lookup (k : string) (members : list (string * json)) : option json :=
  match members with
  | [] => None
  | (k', v) :: rest => if String.eqb k k' then Some v else lookup k rest
  end.

(** [repr] of a string key, as [str(KeyError(k))] shows it. *)
Definition repr_key (k : string) : string := "'" ++ k ++ "'".

(** [d[k]]: [KeyError] when the key is absent, [TypeError] when [d] is
    not a dict (a list or a string wants an integer index). *)
Definition subscript (d : json) (k : string) : outcome json :=
  match d with
  | JObj members =>
      match lookup k members with
      | Some v => Ok v
      | None => Raise (Exception (repr_key k))
      end
  | JArr _ => Raise (Exception "list indices must be integers or slices, not str")
  | JStr _ => Raise (Exception "string indices must be integers, not 'str'")
  | _ => Raise (Exception "object is not subscriptable")
  end.

(** [d.get(k, default)]: [AttributeError] when [d] is not a dict. *)
Definition get (d : json) (k : string) (default : json) : outcome json :=
  match d with
  | JObj members => Ok (or_default default (lookup k members))
  | _ => Raise (Exception "object has no attribute 'get'")
  end.

(** [len(v)] *)
Definition len (v : json) : outcome nat :=
  match v with
  | JArr items => Ok (List.length items)
  | JObj members => Ok (List.length members)
  | JStr s => Ok (String.length s)
  | _ => Raise (Exception "object has no len()")
  end.

(** [v[0]] *)
Definition first (v : json) : outcome json :=
  match v with
  | JArr (x :: _) => Ok x
  | JArr [] => Raise (Exception "list index out of range")
  | JStr (String c _) => Ok (JStr (String c EmptyString))
  | JStr EmptyString => Raise (Exception "string index out of range")
  | JObj _ => Raise (Exception "0")
  | _ => Raise (Exception "object is not subscriptable")
  end.

(** [v.lower()]: [AttributeError] unless [v] is a string. *)
Definition lower_of (v : json) : outcome string :=
  match v with
  | JStr s => Ok (lower s)
  | _ => Raise (Exception "object has no attribute 'lower'")
  end.

(** The items [for p in v] visits when [v] is a list; a dict gives its
    keys and a string its characters. *)
Definition iterate (v : json) : outcome (list json) :=
  match v with
  | JArr items => Ok items
  | JObj members => Ok (map (fun kv => JStr (fst kv)) members)
  | JStr s => Ok (map (fun c => JStr (String c EmptyString)) (list_ascii_of_string s))
  | _ => Raise (Exception "object is not iterable")
  end.

(** [json.dumps(v, indent=2)]: items one per line, indented by two
    spaces per level; [{}] and [[]] stay on one line. *)
Fixpoint spaces (n : nat) : string :=
  match n with
  | O => EmptyString
  | S n' => String " "%char (spaces n')
  end.

Definition newline : string := String "010"%char EmptyString.

Definition newline_indent (level : nat) : string :=
  newline ++ spaces (2 * level).

Fixpoint dumps_indent (level : nat) (v : json) : string :=
  match v with
  | JArr [] => "[]"
  | JObj [] => "{}"
  | JArr items =>
      "[" ++ newline_indent (S level)
          ++ join ("," ++ newline_indent (S level))
                  (map (dumps_indent (S level)) items)
          ++ newline_indent level ++ "]"
  | JObj members =>
      "{" ++ newline_indent (S level)
          ++ join ("," ++ newline_indent (S level))
                  (map (fun kv => quote (fst kv) ++ ": "
                                    ++ dumps_indent (S level) (snd kv))
                       members)
          ++ newline_indent level ++ "}"
  | other => json_dumps other
  end.

End PyValue.

(** Sequencing of code that may raise. *)
Definition and_then {A B : Type} (r : outcome A) (k : A -> outcome B)
  : outcome B :=
  match r with
  | Ok a => k a
  | Raise e => Raise e
  end.

Declare Scope outcome_scope.
Delimit Scope outcome_scope with outcome.
Notation "x <~ r ;; k" := (and_then r (fun x => k))
  (at level 61, r at next level, right associativity) : outcome_scope.

Module Tools.

Import PyValue.
Local Open Scope outcome_scope.

(** A node and a relationship of the graph the client returns; the
    attribute values are JSON-like. *)
Record graph_node : Type := mk_node {
  node_id : json;
  node_labels : json;
  node_properties : json
}.

Record graph_relationship : Type := mk_relationship {
  rel_id : json;
  rel_type : json;
  rel_start : json;
  rel_end : json;
  rel_properties : json
}.

Record graph : Type := mk_graph {
  graph_nodes : list graph_node;
  graph_relationships : list graph_relationship
}.

(** What [context_graph_client.execute_cypher] does with a query: it
    answers, refuses it with a [ValueError], or fails otherwise. *)
Inductive cypher_outcome : Type :=
| cypher_rows (results : json)
| cypher_refused (e : exn)
| cypher_failed (e : exn).

(** The arguments of [context_graph_client.record_decision].  A
    [confidence_score] of [None] is the handler's default 0.8. *)
Record decision_arguments : Type := mk_decision {
  arg_decision_type : json;
  arg_category : json;
  arg_reasoning : json;
  arg_customer_id : json;
  arg_account_id : json;
  arg_risk_factors : json;
  arg_precedent_ids : json;
  arg_confidence_score : option json;
  arg_reasoning_embedding : json
}.

(** The three clients of agent.py ([context_graph_client],
    [gds_client], [vector_client]), as deterministic stubs.  A
    [similarity_threshold] of [None] is the handler's default 0.7. *)
Record clients : Type := mk_clients {
  search_customers : json -> json -> outcome json;
  customer_decisions : json -> json -> json -> outcome json;
  graph_data : json -> nat -> nat -> outcome graph;
  causal_chain : json -> json -> json -> outcome json;
  store_decision : decision_arguments -> outcome string;
  policies : json -> outcome json;
  run_cypher : json -> cypher_outcome;
  schema : outcome json;
  similar_decisions_knn : json -> json -> outcome json;
  fraud_patterns : json -> option json -> outcome json;
  precedents_hybrid : json -> json -> json -> outcome json;
  embedding : json -> outcome json
}.

Definition node_dict (n : graph_node) : json :=
  JObj [("id", node_id n); ("labels", node_labels n);
        ("properties", node_properties n)].

Definition relationship_dict (r : graph_relationship) : json :=
  JObj [("id", rel_id r); ("type", rel_type r);
        ("startNodeId", rel_start r); ("endNodeId", rel_end r);
        ("properties", rel_properties r)].

Definition empty_graph : json :=
  JObj [("nodes", JArr []); ("relationships", JArr [])].

(** [get_graph_data_for_entity] *)
Definition get_graph_data_for_entity (cl : clients) (entity_id : json)
           (depth : nat) : json :=
  match graph_data cl entity_id depth 50 with
  | Ok g =>
      JObj [("nodes", JArr (map node_dict (graph_nodes g)));
            ("relationships",
             JArr (map relationship_dict (graph_relationships g)))]
  | Raise _ => empty_graph
  end.

(** [{"content": [{"type": "text", "text": text}]}] *)
Definition text_output (text : string) : tool_output :=
  mk_output (Some [text_item text]) None.

(** [except Exception as e: return {... f"{prefix}: {str(e)}" ...,
    "is_error": True}] *)
Definition report (prefix : string) (e : exn) : outcome tool_output :=
  Ok (error_output (prefix ++ ": " ++ str_exn e)).

(** [search_customer] *)
Definition search_customer (cl : clients) : handler :=
  fun args =>
    try_except
      (query <~ subscript args "query" ;;
       limit <~ get args "limit" (JNum 10) ;;
       results <~ search_customers cl query limit ;;
       graph_data <~
         (if truthy_json results then
            n <~ len results ;;
            if (0 <? n)%nat then
              top <~ first results ;;
              id <~ get top "id" JNull ;;
              Ok (get_graph_data_for_entity cl id 2)
            else Ok JNull
          else Ok JNull) ;;
       Ok (text_output
             (dumps_indent 0 (JObj [("customers", results);
                                    ("graph_data", graph_data)]))))
      (report "Error searching customers").

(** [get_customer_decisions] *)
Definition get_customer_decisions (cl : clients) : handler :=
  fun args =>
    try_except
      (customer_id <~ subscript args "customer_id" ;;
       decision_type <~ get args "decision_type" JNull ;;
       limit <~ get args "limit" (JNum 20) ;;
       results <~ customer_decisions cl customer_id decision_type limit ;;
       customer_id' <~ subscript args "customer_id" ;;
       let graph_data := get_graph_data_for_entity cl customer_id' 2 in
       Ok (text_output
             (dumps_indent 0 (JObj [("decisions", results);
                                    ("graph_data", graph_data)]))))
      (report "Error getting decisions").

(** [find_similar_decisions] *)
Definition find_similar_decisions (cl : clients) : handler :=
  fun args =>
    try_except
      (decision_id <~ subscript args "decision_id" ;;
       limit <~ get args "limit" (JNum 5) ;;
       results <~ similar_decisions_knn cl decision_id limit ;;
       decision_id' <~ subscript args "decision_id" ;;
       let graph_data := get_graph_data_for_entity cl decision_id' 2 in
       Ok (text_output
             (dumps_indent 0 (JObj [("similar_decisions", results);
                                    ("graph_data", graph_data)]))))
      (report "Error finding similar decisions").

(** [find_precedents] *)
Definition find_precedents (cl : clients) : handler :=
  fun args =>
    try_except
      (scenario <~ subscript args "scenario" ;;
       category <~ get args "category" JNull ;;
       limit <~ get args "limit" (JNum 5) ;;
       results <~ precedents_hybrid cl scenario category limit ;;
       graph_data <~
         (if truthy_json results then
            n <~ len results ;;
            if (0 <? n)%nat then
              top <~ first results ;;
              let first_id := match top with
                              | JObj members => or_default JNull (lookup "id" members)
                              | _ => JNull
                              end in
              if truthy_json first_id
              then Ok (get_graph_data_for_entity cl first_id 2)
              else Ok JNull
            else Ok JNull
          else Ok JNull) ;;
       Ok (text_output
             (dumps_indent 0 (JObj [("precedents", results);
                                    ("graph_data", graph_data)]))))
      (report "Error finding precedents").

(** [get_causal_chain] *)
Definition get_causal_chain (cl : clients) : handler :=
  fun args =>
    try_except
      (decision_id <~ subscript args "decision_id" ;;
       direction <~ get args "direction" (JStr "both") ;;
       depth <~ get args "depth" (JNum 3) ;;
       results <~ causal_chain cl decision_id direction depth ;;
       decision_id' <~ subscript args "decision_id" ;;
       let graph_data := get_graph_data_for_entity cl decision_id' 3 in
       Ok (text_output
             (dumps_indent 0 (JObj [("causal_chain", results);
                                    ("graph_data", graph_data)]))))
      (report "Error getting causal chain").

(** [args.get(k, default)] for a default that is kept symbolic. *)
Definition get_optional (d : json) (k : string) : outcome (option json) :=
  match d with
  | JObj members => Ok (lookup k members)
  | _ => Raise (Exception "object has no attribute 'get'")
  end.

(** [record_decision] *)
Definition record_decision (cl : clients) : handler :=
  fun args =>
    try_except
      (let reasoning_embedding :=
         match (reasoning <~ subscript args "reasoning" ;;
                embedding cl reasoning) with
         | Ok v => v
         | Raise _ => JNull
         end in
       decision_type <~ subscript args "decision_type" ;;
       category <~ subscript args "category" ;;
       reasoning <~ subscript args "reasoning" ;;
       customer_id <~ get args "customer_id" JNull ;;
       account_id <~ get args "account_id" JNull ;;
       risk_factors <~ get args "risk_factors" (JArr []) ;;
       precedent_ids <~ get args "precedent_ids" (JArr []) ;;
       confidence_score <~ get_optional args "confidence_score" ;;
       decision_id <~
         store_decision cl (mk_decision decision_type category reasoning
                                        customer_id account_id risk_factors
                                        precedent_ids confidence_score
                                        reasoning_embedding) ;;
       Ok (text_output
             (dumps_indent
                0 (JObj [("success", JBool true);
                         ("decision_id", JStr decision_id);
                         ("message",
                          JStr ("Decision recorded successfully with ID "
                                  ++ decision_id))]))))
      (report "Error recording decision").

(** [detect_fraud_patterns] *)
Definition detect_fraud_patterns (cl : clients) : handler :=
  fun args =>
    try_except
      (account_id <~ get args "account_id" JNull ;;
       similarity_threshold <~ get_optional args "similarity_threshold" ;;
       results <~ fraud_patterns cl account_id similarity_threshold ;;
       Ok (text_output (dumps_indent 0 results)))
      (report "Error detecting fraud patterns").

(** The list comprehension of [get_policy]: the policies whose name
    contains the wanted name, case-insensitively. *)
Fixpoint matching_policies (wanted : json) (ps : list json)
  : outcome (list json) :=
  match ps with
  | [] => Ok []
  | p :: rest =>
      needle <~ lower_of wanted ;;
      name <~ get p "name" (JStr "") ;;
      hay <~ lower_of name ;;
      others <~ matching_policies wanted rest ;;
      Ok (if contains needle hay then p :: others else others)
  end.

(** [get_policy] *)
Definition get_policy (cl : clients) : handler :=
  fun args =>
    try_except
      (policy_name <~ get args "policy_name" JNull ;;
       results <~
         (if truthy_json policy_name then
            category <~ get args "category" JNull ;;
            found <~ policies cl category ;;
            ps <~ iterate found ;;
            wanted <~ subscript args "policy_name" ;;
            matching <~ matching_policies wanted ps ;;
            Ok (match matching with
                | p :: _ => p
                | [] => JNull
                end)
          else
            category <~ get args "category" JNull ;;
            policies cl category) ;;
       Ok (text_output (dumps_indent 0 results)))
      (report "Error getting policy").

(** [execute_cypher]: a [ValueError] of the client is reported as a
    query that is not allowed, any other exception as a failed one. *)
Definition execute_cypher (cl : clients) : handler :=
  fun args =>
    match subscript args "cypher" with
    | Raise e => report "Error executing query" e
    | Ok cypher =>
        match run_cypher cl cypher with
        | cypher_rows results => Ok (text_output (dumps_indent 0 results))
        | cypher_refused e => report "Query not allowed" e
        | cypher_failed e => report "Error executing query" e
        end
    end.

(** [get_schema] *)
Definition get_schema (cl : clients) : handler :=
  fun _ =>
    try_except
      (found <~ schema cl ;;
       Ok (text_output (dumps_indent 0 found)))
      (report "Error getting schema").

(** The tools given to [create_sdk_mcp_server], each under the name its
    [@tool] decorator declares. *)
Definition server_tools (cl : clients) : list (string * handler) :=
  [("search_customer", search_customer cl);
   ("get_customer_decisions", get_customer_decisions cl);
   ("find_similar_decisions", find_similar_decisions cl);
   ("find_precedents", find_precedents cl);
   ("get_causal_chain", get_causal_chain cl);
   ("record_decision", record_decision cl);
   ("detect_fraud_patterns", detect_fraud_patterns cl);
   ("get_policy", get_policy cl);
   ("execute_cypher", execute_cypher cl);
   ("get_schema", get_schema cl)].

End Tools.

(* ================================================================== *)
(** ** agent_bedrock.py: the tool tables *)

Module BedrockTools.

(** ["default"] of a schema property; a decimal literal is kept as its
    digits and the number of digits after the point (0.8 is 8, 1). *)
Inductive default_value : Type :=
| no_default
| int_default (n : Z)
| str_default (s : string)
| decimal_default (digits : Z) (decimals : nat).

(** An entry of ["properties"]. *)
Record schema_property : Type := mk_property {
  property_name : string;
  property_type : string;
  property_items : option string;
  property_description : string;
  property_default : default_value
}.

(** A tool definition in Anthropic format; ["input_schema"] always has
    the type "object". *)
Record tool_schema : Type := mk_schema {
  schema_name : string;
  schema_description : string;
  schema_properties : list schema_property;
  schema_required : list string
}.

(** [tool_schemas], in the order of the dict literal. *)
Definition tool_schemas : list tool_schema :=
  [mk_schema
    "search_customer"
    "Search for customers by name, email, or account number. Returns customer profiles with risk scores and related account counts."
    [mk_property "query" "string" None
       "Search query"
       no_default;
     mk_property "limit" "integer" None
       "Maximum results"
       (int_default 10)]
    ["query"];
   mk_schema
    "get_customer_decisions"
    "Get all decisions made about a specific customer, including approvals, rejections, escalations, and exceptions."
    [mk_property "customer_id" "string" None
       "Customer ID"
       no_default;
     mk_property "decision_type" "string" None
       "Filter by decision type"
       no_default;
     mk_property "limit" "integer" None
       "Maximum results"
       (int_default 20)]
    ["customer_id"];
   mk_schema
    "find_similar_decisions"
    "Find structurally similar past decisions using FastRP graph embeddings. Returns decisions with similar influences, causes, and precedents."
    [mk_property "decision_id" "string" None
       "The internal decision ID"
       no_default;
     mk_property "limit" "integer" None
       "Number of similar decisions"
       (int_default 5)]
    ["decision_id"];
   mk_schema
    "find_precedents"
    "Find precedent decisions that could inform the current decision. Uses both semantic similarity (meaning) and structural similarity (graph patterns)."
    [mk_property "scenario" "string" None
       "Scenario description"
       no_default;
     mk_property "category" "string" None
       "Decision category"
       no_default;
     mk_property "limit" "integer" None
       "Maximum results"
       (int_default 5)]
    ["scenario"];
   mk_schema
    "get_causal_chain"
    "Trace the causal chain of a decision - what caused it and what it led to."
    [mk_property "decision_id" "string" None
       "Decision ID"
       no_default;
     mk_property "direction" "string" None
       "Direction: 'upstream', 'downstream', or 'both'"
       (str_default "both");
     mk_property "depth" "integer" None
       "Depth to traverse"
       (int_default 3)]
    ["decision_id"];
   mk_schema
    "record_decision"
    "Record a new decision with full reasoning context. Creates a decision trace in the context graph."
    [mk_property "decision_type" "string" None
       "Type of decision"
       no_default;
     mk_property "category" "string" None
       "Decision category"
       no_default;
     mk_property "reasoning" "string" None
       "Full reasoning"
       no_default;
     mk_property "customer_id" "string" None
       "Customer ID"
       no_default;
     mk_property "account_id" "string" None
       "Account ID"
       no_default;
     mk_property "risk_factors" "array" (Some "string")
       "Risk factors"
       no_default;
     mk_property "precedent_ids" "array" (Some "string")
       "Precedent decision IDs"
       no_default;
     mk_property "confidence_score" "number" None
       "Confidence score 0-1"
       (decimal_default 8 1)]
    ["decision_type"; "category"; "reasoning"];
   mk_schema
    "detect_fraud_patterns"
    "Analyze accounts or transactions for potential fraud patterns using graph structure analysis."
    [mk_property "account_id" "string" None
       "The internal account ID"
       no_default;
     mk_property "neighbor_count" "integer" None
       "Number of examples to return"
       (int_default 5)]
    ["account_id"];
   mk_schema
    "find_decision_community"
    "Find decisions in the same community using Leiden community detection."
    [mk_property "decision_id" "string" None
       "Decision ID"
       no_default;
     mk_property "example_count" "integer" None
       "Number of examples"
       (int_default 5)]
    ["decision_id"];
   mk_schema
    "find_accounts_with_high_shared_transaction_volume"
    "Find accounts that share high transaction volumes with a given account."
    [mk_property "account_id" "string" None
       "The internal account ID"
       no_default]
    ["account_id"];
   mk_schema
    "get_policy"
    "Get the current policy rules for a specific category."
    [mk_property "category" "string" None
       "Policy category"
       no_default;
     mk_property "policy_name" "string" None
       "Policy name to search for"
       no_default]
    [];
   mk_schema
    "execute_cypher"
    "Execute a read-only Cypher query against the context graph for custom analysis."
    [mk_property "cypher" "string" None
       "Cypher query"
       no_default]
    ["cypher"];
   mk_schema
    "get_schema"
    "Get the graph database schema including node labels, relationship types, and property keys."
    []
    []].

(** [convert_mcp_tools_to_bedrock_format]: the argument is not used. *)
Definition convert_mcp_tools_to_bedrock_format (mcp_tools : list string)
  : list tool_schema :=
  tool_schemas.

(** What a name of [tool_objects] can be bound to. *)
Inductive tool_object : Type :=
| SdkMcpTool (handler : handler)
| function_object (f : handler)
| other_object (func : option handler).

(** The wrapper [__init__] stores for a tool object: its [handler]
    attribute, or the object itself when it is callable, or its [func]
    attribute, or else the object, which cannot be called. *)
Definition handler_of (o : tool_object) : handler :=
  match o with
  | SdkMcpTool h => h
  | function_object f => f
  | other_object (Some f) => f
  | other_object None => fun _ => Raise (Exception "object is not callable")
  end.

(** [self.tool_objects]: the ten tools of agent.py, decorated with
    [@tool], and two names the module imports from agent.py that
    agent.py does not define.  With agent.py as it is the import of
    the module fails ([AgentModule.import_from] below) and the table
    is never built; the two parameters stand for whatever an agent.py
    that defines the two names binds them to. *)
Definition tool_objects (cl : Tools.clients)
           (find_decision_community
              find_accounts_with_high_shared_transaction_volume : tool_object)
  : list (string * tool_object) :=
  [("search_customer", SdkMcpTool (Tools.search_customer cl));
   ("get_customer_decisions", SdkMcpTool (Tools.get_customer_decisions cl));
   ("find_similar_decisions", SdkMcpTool (Tools.find_similar_decisions cl));
   ("find_precedents", SdkMcpTool (Tools.find_precedents cl));
   ("get_causal_chain", SdkMcpTool (Tools.get_causal_chain cl));
   ("record_decision", SdkMcpTool (Tools.record_decision cl));
   ("detect_fraud_patterns", SdkMcpTool (Tools.detect_fraud_patterns cl));
   ("find_decision_community", find_decision_community);
   ("find_accounts_with_high_shared_transaction_volume",
    find_accounts_with_high_shared_transaction_volume);
   ("get_policy", SdkMcpTool (Tools.get_policy cl));
   ("execute_cypher", SdkMcpTool (Tools.execute_cypher cl));
   ("get_schema", SdkMcpTool (Tools.get_schema cl))].

(** [self.tool_handlers] *)
Definition handlers_of (objects : list (string * tool_object))
  : tool_handlers :=
  map (fun entry => (fst entry, handler_of (snd entry))) objects.

End BedrockTools.

(** agent.py: the tool names of the agent context and of the agent
    options. *)
Module AgentContext.

(** [AVAILABLE_TOOLS] *)
Definition AVAILABLE_TOOLS : list string :=
  ["search_customer"; "get_customer_decisions"; "find_similar_decisions";
   "find_precedents"; "get_causal_chain"; "record_decision";
   "detect_fraud_patterns"; "get_policy"; "execute_cypher"; "get_schema"].

(** [allowed_tools] of [get_agent_options] *)
Definition allowed_tools : list string :=
  ["mcp__graph__search_customer"; "mcp__graph__get_customer_decisions";
   "mcp__graph__find_similar_decisions"; "mcp__graph__find_precedents";
   "mcp__graph__get_causal_chain"; "mcp__graph__record_decision";
   "mcp__graph__detect_fraud_patterns"; "mcp__graph__get_policy";
   "mcp__graph__execute_cypher"; "mcp__graph__get_schema"].

End AgentContext.

(** agent.py as a module, and the import at the head of
    agent_bedrock.py. *)
Module AgentModule.

(** The names agent.py binds at module level, in the order of the
    source: a tool is what [@tool] returns, any other object is
    [None]. *)
Definition namespace (cl : Tools.clients)
  : list (string * option BedrockTools.tool_object) :=
  [("json", None); ("Any", None); ("ClaudeAgentOptions", None);
   ("ClaudeSDKClient", None); ("create_sdk_mcp_server", None);
   ("tool", None); ("context_graph_client", None); ("gds_client", None);
   ("vector_client", None); ("get_graph_data_for_entity", None);
   ("CONTEXT_GRAPH_SYSTEM_PROMPT", None);
   ("search_customer", Some (BedrockTools.SdkMcpTool (Tools.search_customer cl)));
   ("get_customer_decisions",
    Some (BedrockTools.SdkMcpTool (Tools.get_customer_decisions cl)));
   ("find_similar_decisions",
    Some (BedrockTools.SdkMcpTool (Tools.find_similar_decisions cl)));
   ("find_precedents", Some (BedrockTools.SdkMcpTool (Tools.find_precedents cl)));
   ("get_causal_chain", Some (BedrockTools.SdkMcpTool (Tools.get_causal_chain cl)));
   ("record_decision", Some (BedrockTools.SdkMcpTool (Tools.record_decision cl)));
   ("detect_fraud_patterns",
    Some (BedrockTools.SdkMcpTool (Tools.detect_fraud_patterns cl)));
   ("get_policy", Some (BedrockTools.SdkMcpTool (Tools.get_policy cl)));
   ("execute_cypher", Some (BedrockTools.SdkMcpTool (Tools.execute_cypher cl)));
   ("get_schema", Some (BedrockTools.SdkMcpTool (Tools.get_schema cl)));
   ("create_context_graph_server", None); ("get_agent_options", None);
   ("AVAILABLE_TOOLS", None); ("get_agent_context", None);
   ("ContextGraphAgent", None)].

Fixpoint attribute {A : Type} (name : string) (ns : list (string * A))
  : option A :=
  match ns with
  | [] => None
  | (k, v) :: rest => if String.eqb name k then Some v else attribute name rest
  end.

(** [from .agent import (...)]: the names are looked up one after the
    other and the first one the module does not bind raises
    [ImportError]; [origin] is the module as the message shows it, its
    quoted name and its path. *)
Fixpoint import_from {A : Type} (origin : string) (ns : list (string * A))
         (names : list string) : outcome (list (string * A)) :=
  match names with
  | [] => Ok []
  | name :: rest =>
      match attribute name ns with
      | Some v =>
          match import_from origin ns rest with
          | Ok bound => Ok ((name, v) :: bound)
          | Raise e => Raise e
          end
      | None =>
          Raise (Exception ("cannot import name " ++ PyValue.repr_key name
                              ++ " from " ++ origin))
      end
  end.

(** The names agent_bedrock.py imports from agent.py, in its order. *)
Definition imported_names : list string :=
  ["AVAILABLE_TOOLS"; "CONTEXT_GRAPH_SYSTEM_PROMPT"; "detect_fraud_patterns";
   "execute_cypher"; "find_accounts_with_high_shared_transaction_volume";
   "find_decision_community"; "find_precedents"; "find_similar_decisions";
   "get_causal_chain"; "get_customer_decisions"; "get_policy"; "get_schema";
   "record_decision"; "search_customer"].

(** The imported names agent.py does not bind. *)
Definition unbound_imports (cl : Tools.clients) : list string :=
  filter (fun name => match attribute name (namespace cl) with
                      | Some _ => false
                      | None => true
                      end)
         imported_names.

(** The tool a name of agent.py is bound to, if it is bound to one. *)
Definition tool_named (cl : Tools.clients) (name : string) : option handler :=
  match attribute name (namespace cl) with
  | Some (Some (BedrockTools.SdkMcpTool h)) => Some h
  | _ => None
  end.

End AgentModule.

(* ================================================================== *)
(** ** agent.py: ContextGraphAgent.query *)

Module ContextGraphAgentQuery.

Import ContextGraphAgent.

(** The body of [for block in msg.content]: a block with a [text]
    attribute adds to the text, a block with a [name] attribute is a
    tool call. *)
Definition scan_block (acc : string * list tool_call) (b : sdk_block)
  : string * list tool_call :=
  match b with
  | TextBlock text => (fst acc ++ text, snd acc)
  | ToolUseBlock _ name input =>
      (fst acc, (snd acc ++ [mk_call (Some name) input])%list)
  | _ => acc
  end.

(** The body of [async for msg in receive_response()]: every message
    that has [content] is scanned, whatever its class. *)
Definition scan_message (acc : string * list tool_call) (m : sdk_message)
  : string * list tool_call :=
  match m with
  | UserMessage content => fold_left scan_block content acc
  | AssistantMessage content => fold_left scan_block content acc
  | _ => acc
  end.

(** [ContextGraphAgent.query] *)
Definition query (client : option sdk_client) (message : string)
           (conversation_history : option (list chat_message))
  : outcome reply :=
  match client with
  | None =>
      Raise (Exception
               "Agent not connected. Use 'async with' context manager.")
  | Some c =>
      let prompt := full_message message conversation_history in
      let result := fold_left scan_message (c prompt) ("", []) in
      Ok (mk_reply (fst result) (snd result) [])
  end.

End ContextGraphAgentQuery.

(* ================================================================== *)
(** ** bedrock_client.py: BedrockEmbeddingsClient *)

Module BedrockEmbeddingsClient.

Import PyValue.
Local Open Scope outcome_scope.

(** A call of [bedrock_runtime.invoke_model]. *)
Record request : Type := mk_request {
  request_model : string;
  request_body : string
}.

(** The boto3 client as a deterministic stub: the decoded response
    body for a model id and a request body, or an exception. *)
Definition runtime : Type := string -> string -> outcome json.

(** Code of the client: it may raise, and it adds to the log of the
    requests sent. *)
Definition E (A : Type) : Type := list request -> outcome A * list request.

(** [try: response = invoke_model(...); body = json.loads(...);
    return pick(body) except Exception as e: logger.error(...); raise] *)
Definition send {A : Type} (rt : runtime) (model_id body : string)
           (pick : json -> outcome A) : E A :=
  fun log =>
    (reraise (decoded <~ rt model_id body ;; pick decoded),
     (log ++ [mk_request model_id body])%list).

(** [generate_embedding] *)
Definition generate_embedding (rt : runtime) (model_id : string)
           (text : string) : E json :=
  if contains "titan" (lower model_id) then
    send rt model_id (json_dumps (JObj [("inputText", JStr text)]))
         (fun decoded => subscript decoded "embedding")
  else if contains "cohere" (lower model_id) then
    send rt model_id
         (json_dumps (JObj [("texts", JArr [JStr text]);
                            ("input_type", JStr "search_document")]))
         (fun decoded => all <~ subscript decoded "embeddings" ;; first all)
  else
    fun log =>
      (Raise (Exception ("Unsupported embedding model: " ++ model_id)), log).

(** [[self.generate_embedding(text) for text in texts]] *)
Fixpoint embed_each (rt : runtime) (model_id : string) (texts : list string)
  : E (list json) :=
  match texts with
  | [] => fun log => (Ok [], log)
  | text :: rest =>
      fun log =>
        match generate_embedding rt model_id text log with
        | (Ok v, log1) =>
            match embed_each rt model_id rest log1 with
            | (Ok vs, log2) => (Ok (v :: vs), log2)
            | (Raise e, log2) => (Raise e, log2)
            end
        | (Raise e, log1) => (Raise e, log1)
        end
  end.

(** [generate_embeddings_batch] *)
Definition generate_embeddings_batch (rt : runtime) (model_id : string)
           (texts : list string) : E json :=
  if contains "cohere" (lower model_id) then
    send rt model_id
         (json_dumps (JObj [("texts", JArr (map JStr texts));
                            ("input_type", JStr "search_document")]))
         (fun decoded => subscript decoded "embeddings")
  else
    fun log =>
      match embed_each rt model_id texts log with
      | (Ok vs, log') => (Ok (JArr vs), log')
      | (Raise e, log') => (Raise e, log')
      end.

End BedrockEmbeddingsClient.

(* ================================================================== *)
(** ** More observations *)

(** Requests that only grow: the first extends [prev], each later one
    extends the one before it. *)
Fixpoint growing (prev : list turn) (reqs : list (list turn)) : Prop :=
  match reqs with
  | [] => True
  | r :: rest => (exists ext, r = (prev ++ ext)%list) /\ growing r rest
  end.

(** The chunks [query_stream] passes on: all but the deltas that are
    not text deltas. *)
Definition relayed (c : chunk) : bool :=
  match c with
  | content_block_delta (text_delta _) => true
  | content_block_delta _ => false
  | _ => true
  end.

(** The tool-use blocks a stream opens, as [query_stream] stores them. *)
Definition opened_tool_uses (cs : list chunk) : list block :=
  flat_map (fun c => match c with
                     | content_block_start (tool_use_block id name input) =>
                         [tool_use_block id name input]
                     | _ => []
                     end) cs.

(** Tool calls and text of a sequence of SDK events, in order. *)
Definition sdk_announced (evs : list ContextGraphAgent.sdk_event)
  : list tool_call :=
  flat_map (fun ev => match ev with
                      | ContextGraphAgent.sdk_tool_use name input =>
                          [mk_call (Some name) input]
                      | _ => []
                      end) evs.

Fixpoint sdk_text_of (evs : list ContextGraphAgent.sdk_event) : string :=
  match evs with
  | [] => ""
  | ContextGraphAgent.sdk_text t :: rest => t ++ sdk_text_of rest
  | _ :: rest => sdk_text_of rest
  end.

Definition is_sdk_done (ev : ContextGraphAgent.sdk_event) : bool :=
  match ev with
  | ContextGraphAgent.sdk_done _ _ => true
  | _ => false
  end.

(** A message whose scan by [ContextGraphAgent.query] adds what
    [query_stream] yields for it: any message but a [UserMessage] that
    carries a text or a tool-use block. *)
Definition plain_user_block (b : ContextGraphAgent.sdk_block) : bool :=
  match b with
  | ContextGraphAgent.TextBlock _ => false
  | ContextGraphAgent.ToolUseBlock _ _ _ => false
  | _ => true
  end.

Definition plain_message (m : ContextGraphAgent.sdk_message) : bool :=
  match m with
  | ContextGraphAgent.UserMessage content => forallb plain_user_block content
  | _ => true
  end.

(** The argument a handler of agent.py reads first by subscript, with
    the prefix of its error report; [None] for the tools that read
    every argument with [.get], and for any other name. *)
Definition first_argument (tool_name : string) : option (string * string) :=
  if String.eqb tool_name "search_customer"
  then Some ("Error searching customers", "query")
  else if String.eqb tool_name "get_customer_decisions"
  then Some ("Error getting decisions", "customer_id")
  else if String.eqb tool_name "find_similar_decisions"
  then Some ("Error finding similar decisions", "decision_id")
  else if String.eqb tool_name "find_precedents"
  then Some ("Error finding precedents", "scenario")
  else if String.eqb tool_name "get_causal_chain"
  then Some ("Error getting causal chain", "decision_id")
  else if String.eqb tool_name "record_decision"
  then Some ("Error recording decision", "decision_type")
  else if String.eqb tool_name "execute_cypher"
  then Some ("Error executing query", "cypher")
  else None.

(** The result a handler gives when that argument is missing. *)
Definition missing_argument_output (report : string * string) : tool_output :=
  error_output (fst report ++ ": " ++ PyValue.repr_key (snd report)).

(** What a run of the streaming loop shows of a tool call: the input
    it announces and the result it yields, which is the result of the
    call with the input [{}]. *)
Definition shows_empty_call (hs : tool_handlers) (ev : event) : Prop :=
  match ev with
  | tool_use_event _ input => input = empty_dict
  | tool_result_event name output => output = run_tool hs name empty_dict
  | _ => True
  end.

(** The request [generate_embedding] sends to a Titan model, and the
    one [generate_embeddings_batch] sends to a Cohere model. *)
Definition titan_request (model_id text : string)
  : BedrockEmbeddingsClient.request :=
  BedrockEmbeddingsClient.mk_request
    model_id (json_dumps (JObj [("inputText", JStr text)])).

Definition cohere_batch_request (model_id : string) (texts : list string)
  : BedrockEmbeddingsClient.request :=
  BedrockEmbeddingsClient.mk_request
    model_id
    (json_dumps (JObj [("texts", JArr (map JStr texts));
                       ("input_type", JStr "search_document")])).

(** Clients for the tool scenarios: a graph that is down, and a graph
    that holds one customer. *)
Module ToolScenario.

Definition down {A : Type} : outcome A := Raise (Exception "graph offline").

Definition offline : Tools.clients :=
  Tools.mk_clients
    (fun _ _ => down) (fun _ _ _ => down) (fun _ _ _ => down)
    (fun _ _ _ => down) (fun _ => down) (fun _ => down)
    (fun _ => Tools.cypher_failed (Exception "graph offline"))
    down (fun _ _ => down) (fun _ _ => down) (fun _ _ _ => down)
    (fun _ => down).

Definition customer : json :=
  JObj [("id", JStr "c1"); ("name", JStr "Ada")].

Definition one_customer : Tools.clients :=
  Tools.mk_clients
    (fun _ _ => Ok (JArr [customer]))
    (fun _ _ _ => Ok (JArr []))
    (fun _ _ _ => Ok (Tools.mk_graph [Tools.mk_node (JStr "c1")
                                                    (JArr [JStr "Customer"])
                                                    (JObj [])] []))
    (fun _ _ _ => Ok (JArr []))
    (fun _ => Ok "d1")
    (fun _ => Ok (JArr []))
    (fun _ => Tools.cypher_refused (Exception "Only read-only queries are allowed"))
    (Ok (JObj []))
    (fun _ _ => Ok (JArr [])) (fun _ _ => Ok (JArr []))
    (fun _ _ _ => Ok (JArr []))
    (fun _ => Ok (JArr [])).

(** A name of the wrapper's table bound to nothing callable. *)
Definition unbound : BedrockTools.tool_object :=
  BedrockTools.other_object None.

Definition handlers : tool_handlers :=
  BedrockTools.handlers_of (BedrockTools.tool_objects one_customer unbound unbound).

Definition wire_policy : json :=
  JObj [("name", JStr "Wire transfer limits")].

Definition kyc_policy : json :=
  JObj [("name", JStr "KYC refresh"); ("threshold", JNum 3)].

Definition unnamed_policy : json := JObj [("threshold", JNum 1)].

(** A graph that holds three policies and nothing else. *)
Definition with_policies : Tools.clients :=
  Tools.mk_clients
    (fun _ _ => down) (fun _ _ _ => down) (fun _ _ _ => down)
    (fun _ _ _ => down) (fun _ => down)
    (fun _ => Ok (JArr [unnamed_policy; wire_policy; kyc_policy]))
    (fun _ => Tools.cypher_failed (Exception "graph offline"))
    down (fun _ _ => down) (fun _ _ => down) (fun _ _ _ => down)
    (fun _ => down).

End ToolScenario.

(** A handler result that is one text item, tagged as an error or not
    tagged at all. *)
Definition one_text (r : tool_output) : Prop :=
  exists text, r = Tools.text_output text \/ r = error_output text.

(** A policy as [get_policy] can filter it: a dict whose "name", if it
    has one, is a string; and the name the filter sees. *)
Definition well_named (p : json) : bool :=
  match p with
  | JObj members =>
      match PyValue.lookup "name" members with
      | Some (JStr _) | None => true
      | _ => false
      end
  | _ => false
  end.

Definition policy_name_of (p : json) : string :=
  match p with
  | JObj members =>
      match PyValue.lookup "name" members with
      | Some (JStr s) => s
      | _ => ""
      end
  | _ => ""
  end.

(* ================================================================== *)
(** * Properties *)

(** ** Lists and strings *)






Lemma string_app_assoc (s1 s2 s3 : string) :
  (s1 ++ s2) ++ s3 = s1 ++ (s2 ++ s3).
Proof. induction s1 as [|c s1 IH]; simpl; [|rewrite IH]; reflexivity. Qed.

Lemma string_app_nil_r (s : string) : s ++ "" = s.
Proof. induction s as [|c s IH]; simpl; [|rewrite IH]; reflexivity. Qed.

Lemma text_of_events_app (e1 e2 : list event) :
  text_of_events (e1 ++ e2)%list = text_of_events e1 ++ text_of_events e2.
Proof.
  induction e1 as [|ev e1 IH]; simpl; [reflexivity|].
  destruct ev; simpl; rewrite IH; try reflexivity.
  now rewrite string_app_assoc.
Qed.

Lemma seed_fold (ms : list chat_message) (a : agent) :
  fold_left (fun a' msg => append_history (turn_of_chat msg) a') ms a
  = mk_agent (conversation_history a ++ map turn_of_chat ms)%list
             (requests a) (dispatched a).
Proof.
  revert a. induction ms as [|m ms IH]; intros a; simpl.
  - rewrite app_nil_r. now destruct a.
  - rewrite IH. simpl. now rewrite <- app_assoc.
Qed.

(** ** Tool dispatch *)

Lemma execute_tool_ok (hs : tool_handlers)
      (name : option string) (input : json) :
  exists r, execute_tool name input hs = Ok r.
Proof.
  unfold execute_tool.
  destruct (get_handler name hs) as [h|]; [|eauto].
  destruct (h input); simpl; eauto.
Qed.

(** C6. [execute_tool] returns a result for every tool name, input and
    handler table and never raises.  An unknown name gives the result
    tagged [is_error = True] whose text is "Tool <name> not found"; a
    handler that raises gives the result tagged [is_error = True] whose
    text ends with the exception's message; a handler that returns
    gives its own result.  As a consequence the block scan of the loop
    completes normally whatever the handlers do. *)
Theorem execute_tool_never_raises :
  forall (tool_name : option string) (tool_input : json) (hs : tool_handlers),
    (exists r, execute_tool tool_name tool_input hs = Ok r)
    /\ (get_handler tool_name hs = None ->
        execute_tool tool_name tool_input hs
        = Ok (mk_output
                (Some [text_item ("Tool " ++ str_opt tool_name ++ " not found")])
                (Some true)))
    /\ (forall h e,
           get_handler tool_name hs = Some h -> h tool_input = Raise e ->
           execute_tool tool_name tool_input hs
           = Ok (mk_output
                   (Some [text_item ("Error executing " ++ str_opt tool_name
                                       ++ ": " ++ str_exn e)])
                   (Some true)))
    /\ (forall h r,
           get_handler tool_name hs = Some h -> h tool_input = Ok r ->
           execute_tool tool_name tool_input hs = Ok r)
    /\ (forall bs l a, exists l' a', scan_blocks hs bs l a = (Ok l', a')).
Proof.
  intros tool_name tool_input hs.
  assert (T : forall n i, exists r, execute_tool n i hs = Ok r)
    by (intros n i; apply execute_tool_ok).
  split; [apply T|].
  split; [intros H; unfold execute_tool; now rewrite H|].
  split; [intros h e H1 H2; unfold execute_tool; now rewrite H1, H2|].
  split; [intros h r H1 H2; unfold execute_tool; now rewrite H1, H2|].
  induction bs as [|b bs IH]; intros l a; simpl.
  - unfold ret. eauto.
  - destruct b as [t|id name input| |]; simpl; unfold bind, ret, modify, lift;
      simpl; try apply IH.
    destruct (T name (or_default empty_dict input)) as [r Hr].
    rewrite Hr. apply IH.
Qed.

(** A handler that raises, reached through the table. *)
Lemma execute_tool_never_raises_witness :
  let boom : handler := fun _ => Raise (Exception "graph offline") in
  let hs := [("get_schema", boom)] in
  execute_tool (Some "get_schema") empty_dict hs
  = Ok (mk_output
          (Some [text_item "Error executing get_schema: graph offline"])
          (Some true))
  /\ execute_tool (Some "no_such_tool") empty_dict hs
     = Ok (mk_output (Some [text_item "Tool no_such_tool not found"])
                     (Some true)).
Proof.
  intros boom hs.
  destruct (execute_tool_never_raises (Some "get_schema") empty_dict hs)
    as (_ & _ & Hraise & _).
  destruct (execute_tool_never_raises (Some "no_such_tool") empty_dict hs)
    as (_ & Hunknown & _).
  split.
  - apply (Hraise boom (Exception "graph offline")); reflexivity.
  - apply Hunknown; reflexivity.
Defined.

(** ** The user turn and a failing transport *)

(** C10. [BedrockAgent.query] appends the user turn only after the
    transport call has returned: when the call raises, the exception
    propagates and the history is what it was; when it returns, the
    user turn (and the assistant turn, if the response has content) is
    appended.  [BedrockAgent.query_stream] appends the user turn before
    it opens the stream: when the stream raises, the history ends with
    that user turn and has no assistant turn after it. *)
Theorem user_turn_and_transport_failure :
  forall (rt : bedrock_runtime) (message : string) (a : agent) (e : exn),
    (invoke_model rt (conversation_history a ++ [user_turn message])%list
     = Raise e ->
     exists a', query rt message a = (Raise e, a')
                /\ conversation_history a' = conversation_history a)
    /\ (forall r,
           invoke_model rt (conversation_history a ++ [user_turn message])%list
           = Ok r ->
           exists a', query rt message a = (Ok r, a')
                      /\ conversation_history a'
                         = (conversation_history a ++ user_turn message
                              :: match or_default [] (response_content r) with
                                 | [] => []
                                 | bs => [mk_turn "assistant" (Blocks bs)]
                                 end)%list)
    /\ (ending (invoke_model_with_response_stream
                  rt (conversation_history a ++ [user_turn message])%list)
        = Some e ->
        exists ys a', query_stream rt message a = (ys, Raise e, a')
                      /\ conversation_history a'
                         = (conversation_history a ++ [user_turn message])%list).
Proof.
  intros rt message a e. repeat split.
  - intros H. unfold query, bind, get_history, modify, lift, invoke; simpl.
    rewrite H. simpl. eexists; split; reflexivity.
  - intros r H. unfold query, bind, get_history, modify, lift, invoke, ret; simpl.
    rewrite H. simpl.
    destruct (or_default [] (response_content r)) as [|b bs]; simpl;
      eexists; split; try reflexivity; simpl.
    now rewrite <- app_assoc.
  - intros H. unfold query_stream, query_stream_open, bind, get_history,
                modify, ret, invoke_stream; simpl.
    destruct (relay _ _) as [ys acc]. rewrite H.
    eexists; eexists; split; reflexivity.
Qed.

(** A runtime that fails on both entry points, the stream after a
    first text delta. *)
Lemma user_turn_and_transport_failure_witness :
  let e := Exception "connection reset" in
  let rt := mk_runtime
              (fun _ => Raise e)
              (fun _ => mk_stream
                          [content_block_delta (text_delta (Some "Based on polic"))]
                          (Some e)) in
  (exists a', query rt "hello" new_agent = (Raise e, a')
              /\ conversation_history a' = [])
  /\ (exists ys a', query_stream rt "hello" new_agent = (ys, Raise e, a')
                    /\ conversation_history a' = [user_turn "hello"]).
Proof.
  intros e rt.
  destruct (user_turn_and_transport_failure rt "hello" new_agent e)
    as (Hq & _ & Hs).
  split; [apply Hq | apply Hs]; reflexivity.
Defined.

(** ** The supplied conversation history *)


(** ** The block scan of the non-streaming loop *)

Lemma execute_tool_run (hs : tool_handlers) (name : option string)
      (input : json) :
  execute_tool name input hs = Ok (run_tool hs name input).
Proof.
  unfold run_tool.
  destruct (execute_tool_ok hs name input) as [r ->].
  reflexivity.
Qed.

Lemma scan_blocks_spec (hs : tool_handlers) (bs : list block) :
  forall (l : locals) (a : agent),
    scan_blocks hs bs l a
    = (Ok (mk_locals (response_text l ++ text_of_blocks bs)
                     (tool_calls l ++ calls_of_blocks bs)%list
                     (has_tool_use l || existsb is_tool_use bs)
                     (tool_results l ++ results_of_blocks hs bs)%list),
       mk_agent (conversation_history a) (requests a)
                (dispatched a ++ calls_of_blocks bs)%list).
Proof.
  induction bs as [|b bs IH]; intros l a.
  - simpl. unfold ret. rewrite string_app_nil_r, !app_nil_r, orb_false_r.
    now destruct l, a.
  - cbn [scan_blocks]. unfold bind at 1.
    destruct b as [t|id name input|id c e|ty]; cbn [scan_block].
    + unfold ret at 1. rewrite IH. cbn.
      rewrite string_app_assoc. reflexivity.
    + unfold bind, modify, lift, ret. rewrite execute_tool_run.
      rewrite IH. cbn. rewrite <- !app_assoc, orb_true_r. reflexivity.
    + unfold ret at 1. rewrite IH. reflexivity.
    + unfold ret at 1. rewrite IH. reflexivity.
Qed.

Lemma results_answer_blocks (hs : tool_handlers) (bs : list block) :
  tool_result_ids (results_of_blocks hs bs) = tool_use_ids bs
  /\ forallb is_tool_result (results_of_blocks hs bs) = true
  /\ truthy (results_of_blocks hs bs) = existsb is_tool_use bs.
Proof.
  induction bs as [|b bs (IH1 & IH2 & IH3)]; [now repeat split|].
  destruct b; try (repeat split; assumption).
  repeat split.
  - change (id :: tool_result_ids (results_of_blocks hs bs)
            = id :: tool_use_ids bs).
    now rewrite IH1.
  - exact IH2.
Qed.

(** ** One pass of the streaming loop over a framed turn *)

Lemma consume_app (hs : tool_handlers) (cs1 cs2 : list chunk)
      (fin : option exn) :
  forall (acc : list block) (l : stream_locals) (a : agent),
    consume hs (cs1 ++ cs2)%list fin acc l a
    = let p1 := consume hs cs1 None acc l a in
      match pass_end_of p1 with
      | Exhausted =>
          let p2 := consume hs cs2 fin (pass_accumulated p1)
                            (pass_locals p1) (pass_agent p1) in
          mk_pass (pass_events p1 ++ pass_events p2)%list (pass_end_of p2)
                  (pass_accumulated p2) (pass_locals p2) (pass_agent p2)
      | _ => p1
      end.
Proof.
  induction cs1 as [|c cs1 IH]; intros acc l a.
  - cbn. now destruct (consume hs cs2 fin acc l a).
  - cbn [app consume].
    destruct (accumulate c acc) as [acc' [c'|]]; [|apply IH].
    destruct (stream_chunk hs c' l a) as [[[[l' evs] [|]]|e] a']; try reflexivity.
    rewrite IH. cbn zeta.
    destruct (consume hs cs1 None acc' l' a') as [e1 [| |x] ac1 l1 a1]; cbn;
      try reflexivity.
    now rewrite app_assoc.
Qed.

Lemma consume_text_deltas (hs : tool_handlers) (fragments : list string) :
  forall (acc : list block) (l : stream_locals) (a : agent),
    consume hs (map (fun s => content_block_delta (text_delta (Some s)))
                    fragments) None acc l a
    = mk_pass (map text_event fragments) Exhausted
              (acc ++ map (fun s => text_block (Some s)) fragments)%list l a.
Proof.
  induction fragments as [|s fragments IH]; intros acc l a; cbn.
  - now rewrite app_nil_r.
  - rewrite IH. cbn. now rewrite <- app_assoc.
Qed.

Lemma consume_json_deltas (hs : tool_handlers) (fragments : list string) :
  forall (acc : list block) (l : stream_locals) (a : agent),
    consume hs (map (fun s => content_block_delta (input_json_delta (Some s)))
                    fragments) None acc l a
    = mk_pass [] Exhausted acc l a.
Proof.
  induction fragments as [|s fragments IH]; intros acc l a; cbn; auto.
Qed.

(** A frame leaves [current_tool_use] empty, as it found it. *)
Lemma consume_frame (hs : tool_handlers) (f : framed) (acc : list block)
      (rs : list block) (h : bool) (n : nat) (a : agent) :
  consume hs (frame_chunks f) None acc (mk_stream_locals None rs h n) a
  = mk_pass (frame_events hs f) Exhausted
            (acc ++ frame_accumulated f)%list
            (mk_stream_locals None (rs ++ frame_results hs f)%list
                              (h || is_tool_frame f) n)
            (mk_agent (conversation_history a) (requests a)
                      (dispatched a ++ frame_calls f)%list).
Proof.
  destruct f as [fragments|id name fragments]; unfold frame_chunks.
  - cbn [consume accumulate stream_chunk]. unfold ret.
    rewrite consume_app, consume_text_deltas. cbn.
    rewrite !app_nil_r, orb_false_r. now destruct a.
  - cbn [consume accumulate stream_chunk]. unfold ret.
    rewrite consume_app, consume_json_deltas. cbn.
    unfold bind, modify, lift, ret. rewrite execute_tool_run. cbn.
    now rewrite orb_true_r.
Qed.

Lemma consume_frames (hs : tool_handlers) (fs : list framed) :
  forall (acc rs : list block) (h : bool) (n : nat) (a : agent),
    consume hs (flat_map frame_chunks fs) None acc
            (mk_stream_locals None rs h n) a
    = mk_pass (flat_map (frame_events hs) fs) Exhausted
              (acc ++ flat_map frame_accumulated fs)%list
              (mk_stream_locals None (rs ++ flat_map (frame_results hs) fs)%list
                                (h || existsb is_tool_frame fs) n)
              (mk_agent (conversation_history a) (requests a)
                        (dispatched a ++ flat_map frame_calls fs)%list).
Proof.
  induction fs as [|f fs IH]; intros acc rs h n a.
  - cbn. rewrite !app_nil_r, orb_false_r. now destruct a.
  - cbn [flat_map]. rewrite consume_app, consume_frame. cbn.
    rewrite IH. cbn. now rewrite <- !app_assoc, orb_assoc.
Qed.

Lemma frame_results_truthy (hs : tool_handlers) (fs : list framed) :
  truthy (flat_map (frame_results hs) fs) = existsb is_tool_frame fs.
Proof.
  induction fs as [|[fragments|id name fragments] fs IH]; cbn; auto.
Qed.

Lemma frame_accumulated_truthy (fs : list framed) :
  existsb is_tool_frame fs = true ->
  truthy (flat_map frame_accumulated fs) = true.
Proof.
  induction fs as [|[fragments|id name fragments] fs IH]; cbn; auto.
  intros H. destruct (map _ fragments); cbn; auto.
Qed.

(** The pass over a whole framed turn. *)
Lemma consume_turn (hs : tool_handlers) (fs : list framed) (fin : option exn)
      (a : agent) :
  consume hs (turn_chunks fs) fin [] fresh_locals a
  = mk_pass (flat_map (frame_events hs) fs)
            (if existsb is_tool_frame fs
             then match fin with Some e => Raised e | None => Exhausted end
             else Returned)
            (flat_map frame_accumulated fs)
            (mk_stream_locals None (flat_map (frame_results hs) fs)
                              (existsb is_tool_frame fs)
                              (if existsb is_tool_frame fs then 1 else 0))
            (mk_agent (conversation_history a) (requests a)
                      (dispatched a ++ flat_map frame_calls fs)%list).
Proof.
  unfold turn_chunks, fresh_locals.
  cbn [consume accumulate stream_chunk]. unfold ret.
  rewrite consume_app, consume_frames. cbn -[existsb flat_map].
  rewrite frame_results_truthy, andb_diag.
  destruct (existsb is_tool_frame fs); cbn -[flat_map];
    rewrite ?app_nil_r; reflexivity.
Qed.

Lemma frames_answer_blocks (hs : tool_handlers) (fs : list framed) :
  tool_result_ids (flat_map (frame_results hs) fs)
  = tool_use_ids (map frame_block fs)
  /\ forallb is_tool_result (flat_map (frame_results hs) fs) = true
  /\ existsb is_tool_use (map frame_block fs) = existsb is_tool_frame fs.
Proof.
  induction fs as [|[fragments|id name fragments] fs (IH1 & IH2 & IH3)];
    [now repeat split| |]; repeat split; try assumption.
  change (Some id :: tool_result_ids (flat_map (frame_results hs) fs)
          = Some id :: tool_use_ids (map frame_block fs)).
  now rewrite IH1.
Qed.

Lemma frames_text (hs : tool_handlers) (fs : list framed) :
  text_of_events (flat_map (frame_events hs) fs)
  = text_of_blocks (map frame_block fs).
Proof.
  induction fs as [|[fragments|id name fragments] fs IH]; cbn [flat_map map].
  - reflexivity.
  - rewrite text_of_events_app, IH. cbn. f_equal.
    induction fragments as [|s fragments IHf]; cbn; [reflexivity|].
    now rewrite IHf.
  - exact IH.
Qed.

(** ** What one iteration does *)


Lemma loop_iteration_ok (rt : bedrock_runtime) (hs : tool_handlers)
      (message : string) (iteration : nat) (l : locals) (a : agent)
      (r : response) :
  invoke_model rt (conversation_history a
                     ++ [user_turn (turn_message message iteration)])%list
  = Ok r ->
  let bs := or_default [] (response_content r) in
  let l' := mk_locals (response_text l ++ text_of_blocks bs)
                      (tool_calls l ++ calls_of_blocks bs)%list
                      (existsb is_tool_use bs)
                      (results_of_blocks hs bs) in
  loop_iteration rt hs message iteration l a
  = (Ok (l', if existsb is_tool_use bs then Next
             else if opt_string_eqb (stop_reason r) "end_turn" then Break
                  else Next),
     mk_agent
       (conversation_history a
          ++ user_turn (turn_message message iteration)
          :: (if truthy bs then [mk_turn "assistant" (Blocks bs)] else [])
          ++ (if existsb is_tool_use bs
              then [mk_turn "user" (Blocks (results_of_blocks hs bs))]
              else []))%list
       (requests a ++ [conversation_history a
                         ++ [user_turn (turn_message message iteration)]])%list
       (dispatched a ++ calls_of_blocks bs)%list).
Proof.
  intros H bs l'. unfold loop_iteration, turn_message in *.
  unfold bind at 1. unfold query, bind, get_history, modify, lift, invoke, ret.
  cbn [fst snd log_request conversation_history]. rewrite H. cbn [reraise].
  fold bs.
  assert (E : forall a0,
             scan_blocks hs bs
               (mk_locals (response_text l) (tool_calls l) false []) a0
             = (Ok l', mk_agent (conversation_history a0) (requests a0)
                                (dispatched a0 ++ calls_of_blocks bs)%list)).
  { intros a0. rewrite scan_blocks_spec. reflexivity. }
  destruct (results_answer_blocks hs bs) as (_ & _ & T).
  destruct (truthy bs) eqn:Tb; cbn [append_history log_request
    conversation_history requests dispatched]; rewrite E;
    cbn [has_tool_use tool_results l']; rewrite T, andb_diag;
    destruct (existsb is_tool_use bs); cbn;
    unfold append_history; cbn;
    rewrite <- ?app_assoc; cbn; try reflexivity;
    destruct (opt_string_eqb (stop_reason r) "end_turn"); reflexivity.
Qed.

Lemma loop_iteration_raise (rt : bedrock_runtime) (hs : tool_handlers)
      (message : string) (iteration : nat) (l : locals) (a : agent)
      (e : exn) :
  invoke_model rt (conversation_history a
                     ++ [user_turn (turn_message message iteration)])%list
  = Raise e ->
  loop_iteration rt hs message iteration l a
  = (Raise e,
     mk_agent (conversation_history a)
              (requests a ++ [conversation_history a
                                ++ [user_turn (turn_message message iteration)]])%list
              (dispatched a)).
Proof.
  intros H. unfold loop_iteration, turn_message in *.
  unfold bind at 1. unfold query, bind, get_history, modify, lift, invoke, ret.
  cbn [fst snd log_request conversation_history]. rewrite H. reflexivity.
Qed.

Lemma stream_iteration_turn (rt : bedrock_runtime) (hs : tool_handlers)
      (message : string) (iteration : nat) (a : agent) (fs : list framed) :
  invoke_model_with_response_stream
    rt (conversation_history a
          ++ [user_turn (turn_message message iteration)])%list
  = mk_stream (turn_chunks fs) None ->
  stream_iteration rt hs message iteration a
  = (flat_map (frame_events hs) fs,
     if existsb is_tool_frame fs then Exhausted else Returned,
     mk_agent
       (conversation_history a
          ++ user_turn (turn_message message iteration)
          :: (if existsb is_tool_frame fs
              then [mk_turn "user" (Blocks (flat_map (frame_results hs) fs));
                    mk_turn "assistant"
                            (Blocks (flat_map frame_accumulated fs))]
              else []))%list
       (requests a ++ [conversation_history a
                         ++ [user_turn (turn_message message iteration)]])%list
       (dispatched a ++ flat_map frame_calls fs)%list).
Proof.
  intros H. unfold stream_iteration, turn_message in *.
  unfold query_stream_open, bind, get_history, modify, ret, invoke_stream.
  cbn [fst snd append_history log_request conversation_history requests
       dispatched].
  rewrite H. cbn [chunks ending]. rewrite consume_turn.
  cbn [pass_end_of pass_events pass_accumulated pass_locals pass_agent].
  pose proof (frame_accumulated_truthy fs) as T.
  destruct (existsb is_tool_frame fs).
  - unfold query_stream_close. rewrite (T eq_refl).
    unfold settle, modify, append_history. cbn.
    rewrite <- !app_assoc. reflexivity.
  - unfold settle. cbn. reflexivity.
Qed.

(** The pass over a stream touches neither the history nor the log of
    requests; the turns it appends wait in [appended]. *)
Lemma stream_chunk_frame (hs : tool_handlers) (c : chunk) (l : stream_locals)
      (a : agent) :
  conversation_history (snd (stream_chunk hs c l a)) = conversation_history a
  /\ requests (snd (stream_chunk hs c l a)) = requests a.
Proof.
  destruct c as [cb|d| | |ty]; cbn.
  - destruct cb; cbn; auto.
  - destruct d as [t|pj|ty]; cbn; auto.
    destruct (current_tool_use l); cbn; auto.
    destruct (nonempty _); cbn; auto.
    destruct (json_loads _); cbn; auto.
  - destruct (current_tool_use l); cbn; auto.
    unfold bind, modify, lift, ret. rewrite execute_tool_run. cbn. auto.
  - destruct (_ && _); cbn; auto.
  - auto.
Qed.

Lemma consume_frame_rule (hs : tool_handlers) (cs : list chunk)
      (fin : option exn) :
  forall (acc : list block) (l : stream_locals) (a : agent),
    conversation_history (pass_agent (consume hs cs fin acc l a))
    = conversation_history a
    /\ requests (pass_agent (consume hs cs fin acc l a)) = requests a.
Proof.
  induction cs as [|c cs IH]; intros acc l a; cbn [consume].
  - cbn. auto.
  - destruct (accumulate c acc) as [acc' [c'|]]; [|apply IH].
    pose proof (stream_chunk_frame hs c' l a) as F.
    destruct (stream_chunk hs c' l a) as [[[[l' evs] [|]]|e] a'];
      cbn in F |- *; auto.
    destruct (IH acc' l' a') as [I1 I2]. rewrite I1, I2. exact F.
Qed.

Lemma settle_requests (l : stream_locals) (a : agent) :
  requests (settle l a) = requests a.
Proof.
  unfold settle. induction (repeat _ _) as [|t ts IH]; cbn; auto.
Qed.


Lemma stream_iteration_request (rt : bedrock_runtime) (hs : tool_handlers)
      (message : string) (iteration : nat) (a : agent) :
  requests (snd (stream_iteration rt hs message iteration a))
  = (requests a ++ [conversation_history a
                      ++ [user_turn (turn_message message iteration)]])%list.
Proof.
  unfold stream_iteration, turn_message.
  unfold query_stream_open, bind, get_history, modify, ret.
  cbn [fst snd append_history log_request conversation_history requests
       dispatched].
  match goal with
  | |- context [consume ?h ?cs ?f ?ac ?l ?ag] =>
      destruct (consume_frame_rule h cs f ac l ag) as [_ R];
      destruct (consume h cs f ac l ag) as [evs [| |e] acc l' a']
  end; cbn in R |- *; rewrite ?settle_requests; try exact R.
  unfold query_stream_close. destruct (truthy acc); cbn;
    rewrite settle_requests; exact R.
Qed.

(** ** Tool-use and tool-result pairing *)




(** ** Streamed text against the non-streaming text *)

(** C8. For one model turn served to both loops by the same scripted
    transport (the blocks of the response on one side, the same blocks
    framed as a stream on the other, text cut into any fragments), the
    concatenation of the [text] events the streaming loop yields, in
    order, is the text the non-streaming loop adds to [response_text]
    for that turn. *)
Theorem streamed_text_matches_response_text :
  forall (rt : bedrock_runtime) (hs : tool_handlers) (message : string)
         (iteration : nat) (fs : list framed) (stop : option string)
         (l : locals) (a a_s : agent),
    invoke_model rt (conversation_history a
                       ++ [user_turn (turn_message message iteration)])%list
    = Ok (mk_response (Some (map frame_block fs)) stop) ->
    invoke_model_with_response_stream
      rt (conversation_history a_s
            ++ [user_turn (turn_message message iteration)])%list
    = mk_stream (turn_chunks fs) None ->
    exists l' fl a' evs fin a_s',
      loop_iteration rt hs message iteration l a = (Ok (l', fl), a')
      /\ stream_iteration rt hs message iteration a_s = (evs, fin, a_s')
      /\ response_text l' = response_text l ++ text_of_events evs
      /\ text_of_events evs = text_of_blocks (map frame_block fs).
Proof.
  intros rt hs message iteration fs stop l a a_s Hn Hs.
  pose proof (@loop_iteration_ok rt hs message iteration l a _ Hn) as En.
  pose proof (@stream_iteration_turn rt hs message iteration a_s fs Hs) as Es.
  cbv zeta in En. cbn [response_content or_default] in En.
  do 6 eexists. split; [exact En|]. split; [exact Es|].
  cbn [response_text]. rewrite frames_text. split; reflexivity.
Qed.

(** Text cut into three fragments around a tool call. *)
Lemma streamed_text_matches_response_text_witness :
  let frames := [framed_text ["Based on "; "polic"; "y 7, "];
                 framed_tool_use "t1" "get_policy" ["{}"];
                 framed_text ["approve."]] in
  let rt := mk_runtime
              (fun _ => Ok (mk_response (Some (map frame_block frames))
                                        (Some "tool_use")))
              (fun _ => mk_stream (turn_chunks frames) None) in
  exists l' fl a' evs fin a_s',
    loop_iteration rt [] "q" 0 (mk_locals "" [] false []) new_agent
    = (Ok (l', fl), a')
    /\ stream_iteration rt [] "q" 0 new_agent = (evs, fin, a_s')
    /\ response_text l' = "" ++ text_of_events evs
    /\ text_of_events evs = "Based on policy 7, approve.".
Proof.
  intros frames rt.
  exact (@streamed_text_matches_response_text
           rt [] "q" 0 frames (Some "tool_use") (mk_locals "" [] false [])
           new_agent new_agent eq_refl eq_refl).
Defined.

(** ** The iteration budget *)

Section Budget.

Variable rt : bedrock_runtime.
Variable hs : tool_handlers.
Variable message : string.

(** The requests a run adds to the log, their number, and the text it
    returns. *)
Lemma loop_from_spec (remaining : nat) :
  forall (iteration : nat) (l : locals) (a : agent),
  exists new : list (list turn),
    requests (snd (loop_from rt hs message remaining iteration l a))
    = (requests a ++ new)%list
    /\ (List.length new <= remaining)%nat
    /\ (forall res,
           fst (loop_from rt hs message remaining iteration l a) = Ok res ->
           result_response res = response_text l ++ response_texts rt new)
    /\ (forall e,
           fst (loop_from rt hs message remaining iteration l a) = Raise e ->
           exists msgs, In msgs new /\ invoke_model rt msgs = Raise e)
    /\ ((forall msgs, exists bs stop,
            invoke_model rt msgs = Ok (mk_response (Some bs) stop)
            /\ existsb is_tool_use bs = true) ->
        List.length new = remaining).
Proof.
  induction remaining as [|n IH]; intros iteration l a.
  - exists []. cbn. rewrite app_nil_r, string_app_nil_r.
    repeat split; auto.
    + intros res H. now inversion H.
    + intros e H. discriminate H.
  - cbn [loop_from]. unfold bind.
    set (msgs := (conversation_history a
                    ++ [user_turn (turn_message message iteration)])%list).
    destruct (invoke_model rt msgs) as [r|e] eqn:E.
    + rewrite (@loop_iteration_ok rt hs message iteration l a r E).
      cbn [fst snd].
      set (bs := or_default [] (response_content r)).
      set (l' := mk_locals _ _ _ _). set (a' := mk_agent _ _ _).
      assert (Tx : forall rest,
                 response_text l ++ response_texts rt (msgs :: rest)
                 = response_text l' ++ response_texts rt rest).
      { intros rest. unfold response_texts. cbn. rewrite E. cbn.
        fold bs. now rewrite string_app_assoc. }
      assert (Stop : exists new : list (list turn),
                 requests a' = (requests a ++ new)%list
                 /\ (List.length new <= S n)%nat
                 /\ response_text l'
                    = response_text l ++ response_texts rt new).
      { exists [msgs]. repeat split; [cbn; lia|].
        rewrite Tx. unfold response_texts. cbn.
        now rewrite string_app_nil_r. }
      destruct (IH (S iteration) l' a')
        as (new & R & Len & Tok & Traise & Tall).
      assert (Go : exists new0 : list (list turn),
                 requests (snd (loop_from rt hs message n (S iteration) l' a'))
                 = (requests a ++ new0)%list
                 /\ (List.length new0 <= S n)%nat
                 /\ (forall res,
                        fst (loop_from rt hs message n (S iteration) l' a')
                        = Ok res ->
                        result_response res
                        = response_text l ++ response_texts rt new0)
                 /\ (forall e,
                        fst (loop_from rt hs message n (S iteration) l' a')
                        = Raise e ->
                        exists m, In m new0 /\ invoke_model rt m = Raise e)
                 /\ ((forall m, exists bs0 stop,
                         invoke_model rt m = Ok (mk_response (Some bs0) stop)
                         /\ existsb is_tool_use bs0 = true) ->
                     List.length new0 = S n)).
      { exists (msgs :: new). rewrite R. cbn [requests a'].
        rewrite <- app_assoc. cbn [app List.length].
        repeat split; [lia| | |].
        - intros res H. rewrite Tx. now apply Tok.
        - intros e H. destruct (Traise e H) as (m & I & F).
          exists m. split; [now right|exact F].
        - intros A. now rewrite (Tall A). }
      destruct (existsb is_tool_use bs) eqn:U;
        [|destruct (opt_string_eqb (stop_reason r) "end_turn")];
        try exact Go.
      destruct Stop as (new0 & S1 & S2 & S3).
      exists new0. cbn [fst snd ret].
      repeat split; try assumption.
      * intros res H. inversion H. cbn. exact S3.
      * intros e0 H. discriminate H.
      * intros A. exfalso. destruct (A msgs) as (bs0 & stop & A1 & A2).
        rewrite E in A1. inversion A1 as [A3]. unfold bs in U.
        rewrite A3 in U. cbn in U. congruence.
    + rewrite (@loop_iteration_raise rt hs message iteration l a e E).
      exists [msgs]. cbn [fst snd requests].
      repeat split; [cbn; lia| | |].
      * intros res H. discriminate H.
      * intros e0 H. inversion H; subst e0.
        exists msgs. split; [now left|exact E].
      * intros A. exfalso. destruct (A msgs) as (bs0 & stop & A1 & _).
        rewrite E in A1. discriminate A1.
Qed.

End Budget.

Lemma seed_history_requests (h : option (list chat_message)) (a : agent) :
  requests (seed_history h a) = requests a.
Proof.
  unfold seed_history. destruct h as [h|]; [|reflexivity].
  destruct (truthy h); [|reflexivity]. now rewrite seed_fold.
Qed.


(** ** A stream that fails *)

Lemma stream_chunk_ok (hs : tool_handlers) (c : chunk) (l : stream_locals)
      (a : agent) :
  exists l' evs fl a',
    stream_chunk hs c l a = (Ok (l', evs, fl), a')
    /\ forallb is_loop_event evs = true
    /\ (fl = Break -> c = message_stop)
    /\ text_of_events evs = text_of_chunks [c]
    /\ (c <> message_stop -> appended l' = appended l).
Proof.
  destruct c as [cb|d| | |ty]; cbn.
  - destruct cb; cbn; unfold ret; do 4 eexists; repeat split; try discriminate.
  - destruct d as [t|pj|ty]; cbn.
    + unfold ret; do 4 eexists; repeat split; try discriminate.
    + destruct (current_tool_use l); cbn;
        [destruct (nonempty _); cbn; [destruct (json_loads _); cbn|]|];
        unfold ret; do 4 eexists; repeat split; try discriminate.
    + unfold ret; do 4 eexists; repeat split; try discriminate.
  - destruct (current_tool_use l); cbn.
    + unfold bind, modify, lift, ret. rewrite execute_tool_run.
      do 4 eexists; repeat split; try discriminate.
    + unfold ret; do 4 eexists; repeat split; try discriminate.
  - destruct (_ && _); unfold ret; do 4 eexists; repeat split;
      try discriminate; congruence.
  - unfold ret; do 4 eexists; repeat split; try discriminate.
Qed.

Lemma accumulate_yields (c : chunk) (acc : list block) :
  match snd (accumulate c acc) with
  | Some c' => c' = c
  | None => text_of_chunks [c] = "" /\ c <> message_stop
  end.
Proof.
  destruct c as [cb|d| | |ty]; cbn; auto.
  - destruct cb; cbn; auto.
  - destruct d; cbn; auto; split; auto; discriminate.
Qed.

Lemma text_of_chunks_cons (c : chunk) (cs : list chunk) :
  text_of_chunks (c :: cs) = text_of_chunks [c] ++ text_of_chunks cs.
Proof.
  destruct c as [cb|d| | |ty]; cbn; auto.
  destruct d; cbn; auto. now rewrite string_app_nil_r.
Qed.

(** What a pass that was not cut short by [return] has done: it raised
    only because the stream did, it yielded loop events only, and it
    yielded every text delta of the stream. *)
Lemma consume_spec (hs : tool_handlers) (cs : list chunk) (fin : option exn) :
  forall (acc : list block) (l : stream_locals) (a : agent),
    let p := consume hs cs fin acc l a in
    forallb is_loop_event (pass_events p) = true
    /\ (forall e, pass_end_of p = Raised e -> fin = Some e)
    /\ (pass_end_of p <> Returned ->
        text_of_events (pass_events p) = text_of_chunks cs)
    /\ (forallb (fun c => negb (is_message_stop c)) cs = true ->
        pass_end_of p = match fin with
                        | Some e => Raised e
                        | None => Exhausted
                        end
        /\ appended (pass_locals p) = appended l).
Proof.
  induction cs as [|c cs IH]; intros acc l a; cbn zeta; cbn [consume].
  - cbn. repeat split; auto. destruct fin; congruence.
  - rewrite (text_of_chunks_cons c cs).
    pose proof (accumulate_yields c acc) as Y.
    destruct (accumulate c acc) as [acc' [c'|]]; cbn [snd] in Y.
    + subst c'.
      destruct (stream_chunk_ok hs c l a)
        as (l' & evs & fl & a' & E & Ev & Br & Tx & Ap).
      rewrite E.
      destruct (IH acc' l' a') as (I1 & I2 & I3 & I4).
      destruct fl; cbn.
      * rewrite forallb_app, Ev, I1.
        split; [reflexivity|split; [exact I2|split]].
        -- intros N. now rewrite text_of_events_app, Tx, I3.
        -- intros S. apply andb_prop in S. destruct S as [S1 S2].
           destruct (I4 S2) as [I5 I6].
           split; [exact I5|]. rewrite I6. apply Ap.
           intros ->. discriminate S1.
      * rewrite (Br eq_refl) in *.
        split; [exact Ev|split; [discriminate|split]].
        -- intros N. now contradiction N.
        -- intros S. discriminate S.
    + destruct Y as [Y1 Y2]. rewrite Y1.
      destruct (IH acc' l a) as (I1 & I2 & I3 & I4).
      split; [exact I1|split; [exact I2|split; [exact I3|]]].
      intros S. apply andb_prop in S. now apply I4.
Qed.

Section FailingStream.

Variable rt : bedrock_runtime.
Variable hs : tool_handlers.
Variable message : string.

Let body (a : agent) (iteration : nat) : stream :=
  invoke_model_with_response_stream
    rt (conversation_history a
          ++ [user_turn (turn_message message iteration)])%list.

Lemma stream_iteration_spec (iteration : nat) (a : agent) :
  forall evs fin a',
    stream_iteration rt hs message iteration a = (evs, fin, a') ->
    requests a'
    = (requests a ++ [conversation_history a
                        ++ [user_turn (turn_message message iteration)]])%list
    /\ forallb is_loop_event evs = true
    /\ (forall e, fin = Raised e -> ending (body a iteration) = Some e)
    /\ (fin <> Returned ->
        text_of_events evs = text_of_chunks (chunks (body a iteration)))
    /\ (forallb (fun c => negb (is_message_stop c))
                (chunks (body a iteration)) = true ->
        forall e, ending (body a iteration) = Some e ->
                  fin = Raised e
                  /\ conversation_history a'
                     = (conversation_history a
                          ++ [user_turn (turn_message message iteration)])%list).
Proof.
  intros evs fin a' E.
  pose proof (stream_iteration_request rt hs message iteration a) as R.
  rewrite E in R. cbn [snd] in R. split; [exact R|]. clear R.
  unfold stream_iteration, turn_message in E.
  unfold query_stream_open, bind, get_history, modify, ret, invoke_stream in E.
  cbn [fst snd append_history log_request conversation_history requests
       dispatched chunks ending] in E.
  fold (turn_message message iteration) in E. fold (body a iteration) in E.
  match type of E with
  | context [consume ?h ?cs ?f ?ac ?l ?ag] =>
      pose proof (consume_spec h cs f ac l ag) as (S1 & S2 & S3 & S4);
      pose proof (consume_frame_rule h cs f ac l ag) as (F1 & _);
      destruct (consume h cs f ac l ag) as [pe pf pacc pl pa]
  end.
  cbn [pass_events pass_end_of pass_accumulated pass_locals pass_agent] in *.
  assert (Ev : evs = pe /\ fin = pf) by (destruct pf; now inversion E).
  destruct Ev as [-> ->].
  split; [exact S1|split; [exact S2|split; [exact S3|]]].
  intros NoStop e Fin. destruct (S4 NoStop) as [S5 S6].
  rewrite Fin in S5. subst pf. split; [reflexivity|].
  inversion E. unfold settle. rewrite S6. cbn. exact F1.
Qed.

(** A run that ends by raising: the failing request is the last one
    sent, and every text delta of every stream received, the failing
    one included, was yielded as a [text] event. *)
Lemma stream_loop_spec (remaining : nat) :
  forall (iteration : nat) (a : agent) evs out a',
    stream_loop_from rt hs message remaining iteration a = (evs, out, a') ->
    forallb is_loop_event evs = true
    /\ exists new : list (list turn),
        requests a' = (requests a ++ new)%list
        /\ (List.length new <= remaining)%nat
        /\ forall e, out = Raise e ->
                     text_of_events evs = streamed_text rt new
                     /\ exists earlier failing,
                         new = (earlier ++ [failing])%list
                         /\ ending (invoke_model_with_response_stream rt failing)
                            = Some e.
Proof.
  induction remaining as [|n IH]; intros iteration a evs out a' E.
  - inversion E. split; [reflexivity|]. exists []. rewrite app_nil_r.
    repeat split; auto. discriminate.
  - cbn [stream_loop_from] in E.
    destruct (stream_iteration rt hs message iteration a)
      as [[evs1 fin] a1] eqn:E1.
    destruct (stream_iteration_spec iteration a E1)
      as (R1 & L1 & Rs1 & T1 & _).
    destruct fin as [| |e1].
    + destruct (stream_loop_from rt hs message n (S iteration) a1)
        as [[evs2 out2] a2] eqn:E2.
      inversion E; subst evs out a'.
      destruct (IH (S iteration) a1 evs2 out2 a2 E2)
        as (L2 & new & R2 & Len & Rs2).
      split; [now rewrite forallb_app, L1, L2|].
      exists ((conversation_history a
                 ++ [user_turn (turn_message message iteration)]) :: new)%list.
      rewrite R2, R1, <- app_assoc. cbn [app List.length].
      split; [reflexivity|split; [lia|]].
      intros e He. destruct (Rs2 e He) as (Tx & earlier & failing & N & F).
      split.
      * rewrite text_of_events_app, Tx, T1 by discriminate.
        reflexivity.
      * exists ((conversation_history a
                   ++ [user_turn (turn_message message iteration)])
                  :: earlier)%list, failing.
        rewrite N. split; [reflexivity|exact F].
    + inversion E; subst evs out a'. split; [exact L1|].
      eexists. split; [exact R1|]. split; [cbn; lia|]. discriminate.
    + inversion E; subst evs out a'. split; [exact L1|].
      eexists. split; [exact R1|]. split; [cbn; lia|].
      intros e He. inversion He; subst e. split.
      * rewrite T1 by discriminate. unfold streamed_text. cbn.
        now rewrite string_app_nil_r.
      * exists [], (conversation_history a
                      ++ [user_turn (turn_message message iteration)])%list.
        split; [reflexivity|]. now apply Rs1.
Qed.

End FailingStream.

(** C5. Whatever the message, the handlers and the transport do,
    [run_agentic_loop] sends at most [max_iterations] requests and then
    returns; the wrapper [ContextGraphAgentBedrock.query] runs it with
    a budget of 10; [run_agentic_loop_stream] keeps to the same
    budget.  When the transport does not fail the run ends
    normally, also when the budget is used up: with a model that asks
    for a tool on every turn it sends exactly [max_iterations] requests
    and returns.  The response returned is the text of the responses
    received so far, in order; it is a string in every case, the empty
    string when no text was produced. *)
Theorem loop_respects_iteration_budget :
  forall (rt : bedrock_runtime) (hs : tool_handlers) (message : string)
         (max_iterations : nat) (a : agent),
    (exists new : list (list turn),
        requests (snd (run_agentic_loop rt hs message max_iterations a))
        = (requests a ++ new)%list
        /\ (List.length new <= max_iterations)%nat
        /\ (forall res,
               fst (run_agentic_loop rt hs message max_iterations a) = Ok res ->
               result_response res = response_texts rt new)
        /\ ((forall msgs, exists r, invoke_model rt msgs = Ok r) ->
            exists res,
              fst (run_agentic_loop rt hs message max_iterations a) = Ok res)
        /\ ((forall msgs, exists bs stop,
                invoke_model rt msgs = Ok (mk_response (Some bs) stop)
                /\ existsb is_tool_use bs = true) ->
            List.length new = max_iterations))
    /\ (forall h, exists new : list (list turn),
           requests (snd (ContextGraphAgentBedrock.query rt hs message h a))
           = (requests a ++ new)%list
           /\ (List.length new <= 10)%nat
           /\ ((forall msgs, exists r, invoke_model rt msgs = Ok r) ->
               exists rep,
                 fst (ContextGraphAgentBedrock.query rt hs message h a) = Ok rep
                 /\ reply_response rep = response_texts rt new))
    /\ (exists new : list (list turn),
           requests (snd (run_agentic_loop_stream rt hs message max_iterations a))
           = (requests a ++ new)%list
           /\ (List.length new <= max_iterations)%nat)
    /\ run_agentic_loop rt hs message 0 a = (Ok (mk_result "" []), a).
Proof.
  intros rt hs message max_iterations a.
  assert (NoRaise :
            forall n l0 a0 new,
              (forall e, fst (loop_from rt hs message n 0 l0 a0) = Raise e ->
                         exists msgs, In msgs new /\ invoke_model rt msgs = Raise e) ->
              (forall msgs, exists r, invoke_model rt msgs = Ok r) ->
              exists res, fst (loop_from rt hs message n 0 l0 a0) = Ok res).
  { intros n l0 a0 new Traise A.
    destruct (fst (loop_from rt hs message n 0 l0 a0)) as [res|e] eqn:F;
      [eauto|].
    destruct (Traise e eq_refl) as (msgs & _ & R).
    destruct (A msgs) as [r Hr]. congruence. }
  split; [|split; [|split; [|reflexivity]]].
  - unfold run_agentic_loop.
    destruct (loop_from_spec rt hs message max_iterations 0
                             (mk_locals "" [] false []) a)
      as (new & R & Len & Tok & Traise & Tall).
    exists new. repeat split; try assumption.
    now apply (NoRaise _ _ _ new).
  - intros h.
    cbv [ContextGraphAgentBedrock.query run_agentic_loop bind modify ret].
    destruct (loop_from_spec rt hs message 10 0 (mk_locals "" [] false [])
                             (seed_history h a))
      as (new & R & Len & Tok & Traise & _).
    rewrite seed_history_requests in R.
    exists new.
    pose proof (NoRaise 10 (mk_locals "" [] false []) (seed_history h a) new
                        Traise) as NR.
    destruct (loop_from rt hs message 10 0 (mk_locals "" [] false [])
                        (seed_history h a)) as [[res|e] a'];
      cbn [fst snd] in *; (split; [exact R|split; [exact Len|]]).
    + intros _. eexists. split; [reflexivity|]. cbn. now apply Tok.
    + intros A. destruct (NR A) as [res F]. discriminate F.
  - unfold run_agentic_loop_stream.
    destruct (stream_loop_from rt hs message max_iterations 0 a)
      as [[evs out] a'] eqn:E.
    destruct (stream_loop_spec rt hs message max_iterations 0 a E)
      as (_ & new & R & Len & _).
    exists new. now split.
Qed.

(** A model that asks for the same tool on every turn, with a budget of
    three: the run ends after three requests. *)
Lemma loop_respects_iteration_budget_witness :
  let again := mk_response
                 (Some [text_block (Some "more. ");
                        tool_use_block (Some "t") (Some "get_schema") None])
                 (Some "tool_use") in
  let rt := scripted_response (fun _ => Ok again) in
  exists res a',
    run_agentic_loop rt [] "loop" 3 new_agent = (Ok res, a')
    /\ List.length (requests a') = 3%nat
    /\ result_response res = "more. more. more. ".
Proof.
  intros again rt.
  destruct (loop_respects_iteration_budget rt [] "loop" 3 new_agent)
    as ((new & R & _ & Tok & Tnoraise & Tall) & _).
  assert (A : forall msgs : list turn, exists bs stop,
             invoke_model rt msgs = Ok (mk_response (Some bs) stop)
             /\ existsb is_tool_use bs = true)
    by (intros msgs; do 2 eexists; split; reflexivity).
  assert (B : forall msgs : list turn, exists r, invoke_model rt msgs = Ok r)
    by (intros msgs; eexists; reflexivity).
  destruct (Tnoraise B) as [res F].
  exists res, (snd (run_agentic_loop rt [] "loop" 3 new_agent)).
  split; [|split].
  - rewrite <- F. now destruct (run_agentic_loop rt [] "loop" 3 new_agent).
  - rewrite R. cbn. exact (Tall A).
  - rewrite (Tok res F).
    pose proof (Tall A) as L3.
    destruct new as [|m1 [|m2 [|m3 [|m4 new]]]]; try discriminate L3.
    reflexivity.
Defined.

Lemma loop_events_not_done (evs : list event) :
  forallb is_loop_event evs = true -> existsb is_done evs = false.
Proof.
  induction evs as [|ev evs IH]; [reflexivity|]. cbn.
  intros H. apply andb_prop in H. destruct H as [H1 H2].
  rewrite (IH H2). now destruct ev.
Qed.




(** ** The input of a streamed tool call *)

(** Appending anything to the dump of [{}] gives text that does not
    parse, or parses to [{}] again (when only whitespace was added). *)
Lemma loads_after_empty_dict (partial_json : string) (v : json) :
  json_loads (json_dumps empty_dict ++ partial_json) = Some v ->
  v = empty_dict.
Proof.
  unfold json_loads. cbn.
  destruct (skip_ws partial_json); intros H; now inversion H.
Qed.


(** A case of [stream_chunk] in which nothing is dispatched: what is
    left to show is that the input is still empty. *)
Ltac quiet_chunk Same :=
  unfold ret; do 3 eexists; exists []; rewrite <- Same;
  split; [reflexivity|split; [cbn|constructor]].

Lemma stream_chunk_input (hs : tool_handlers) (c : chunk) (l : stream_locals)
      (a : agent) :
  input_still_empty l ->
  exists l' evs fl calls,
    stream_chunk hs c l a
    = (Ok (l', evs, fl),
       mk_agent (conversation_history a) (requests a)
                (dispatched a ++ calls)%list)
    /\ input_still_empty l'
    /\ Forall empty_input calls.
Proof.
  unfold input_still_empty. intros I.
  assert (Same : a = mk_agent (conversation_history a) (requests a)
                              (dispatched a ++ [])%list)
    by (rewrite app_nil_r; now destruct a).
  destruct c as [cb|d| | |ty]; cbn.
  - destruct cb; quiet_chunk Same; auto.
  - destruct d as [t|pj|ty]; cbn; try (quiet_chunk Same; exact I).
    destruct (current_tool_use l) as [cur|] eqn:C; cbn;
      [|quiet_chunk Same; now rewrite C].
    destruct (nonempty _); cbn; [|quiet_chunk Same; now rewrite C].
    rewrite I.
    destruct (json_loads _) as [v|] eqn:J;
      quiet_chunk Same; [|now rewrite C].
    now apply loads_after_empty_dict in J.
  - destruct (current_tool_use l) as [cur|] eqn:C; cbn;
      [|quiet_chunk Same; now rewrite C].
    unfold bind, modify, lift, ret. rewrite execute_tool_run. cbn.
    do 3 eexists. exists [mk_call (cur_name cur) (cur_input cur)].
    split; [reflexivity|split; [exact Logic.I|]].
    constructor; [exact I|constructor].
  - destruct (_ && _); quiet_chunk Same; exact I.
  - quiet_chunk Same; exact I.
Qed.

Lemma consume_input (hs : tool_handlers) (cs : list chunk) (fin : option exn) :
  forall (acc : list block) (l : stream_locals) (a : agent),
    input_still_empty l ->
    exists calls,
      dispatched (pass_agent (consume hs cs fin acc l a))
      = (dispatched a ++ calls)%list
      /\ Forall empty_input calls.
Proof.
  induction cs as [|c cs IH]; intros acc l a I; cbn [consume].
  - exists []. cbn. now rewrite app_nil_r.
  - destruct (accumulate c acc) as [acc' [c'|]]; [|now apply IH].
    destruct (@stream_chunk_input hs c' l a I)
      as (l' & evs & fl & calls & E & I' & F).
    rewrite E. destruct fl; cbn [pass_agent].
    + destruct (IH acc' l' (mk_agent (conversation_history a) (requests a)
                                     (dispatched a ++ calls)%list) I')
        as (calls' & D & F').
      exists (calls ++ calls')%list. rewrite D. cbn [dispatched].
      rewrite <- app_assoc. split; [reflexivity|].
      apply Forall_app. now split.
    + exists calls. now split.
Qed.

Lemma settle_dispatched (l : stream_locals) (a : agent) :
  dispatched (settle l a) = dispatched a.
Proof.
  unfold settle. induction (repeat _ _) as [|t ts IH]; cbn; auto.
Qed.

Lemma stream_iteration_input (rt : bedrock_runtime) (hs : tool_handlers)
      (message : string) (iteration : nat) (a : agent) :
  exists calls,
    dispatched (snd (stream_iteration rt hs message iteration a))
    = (dispatched a ++ calls)%list
    /\ Forall empty_input calls.
Proof.
  unfold stream_iteration.
  unfold query_stream_open, bind, get_history, modify, ret.
  cbn [fst snd append_history log_request conversation_history requests
       dispatched].
  match goal with
  | |- context [consume ?h ?cs ?f ?ac ?l ?ag] =>
      destruct (@consume_input h cs f ac l ag Logic.I) as (calls & D & F);
      destruct (consume h cs f ac l ag) as [evs [| |e] acc l' a']
  end; cbn in D |- *; exists calls; (split; [|exact F]);
    rewrite ?settle_dispatched; try exact D.
  unfold query_stream_close. destruct (truthy acc); cbn;
    rewrite settle_dispatched; exact D.
Qed.

(** X20. Whatever the stream carries, the streaming loop calls
    [execute_tool] with the input [{}]. *)
Lemma streaming_dispatch_input_is_empty (rt : bedrock_runtime)
      (hs : tool_handlers) (message : string) (max_iterations : nat)
      (a : agent) :
  exists calls,
    dispatched (snd (run_agentic_loop_stream rt hs message max_iterations a))
    = (dispatched a ++ calls)%list
    /\ Forall empty_input calls.
Proof.
  unfold run_agentic_loop_stream. generalize 0%nat as iteration.
  revert a. induction max_iterations as [|n IH]; intros a iteration.
  - exists []. cbn. now rewrite app_nil_r.
  - cbn [stream_loop_from].
    destruct (stream_iteration_input rt hs message iteration a)
      as (calls & D & F).
    destruct (stream_iteration rt hs message iteration a)
      as [[evs [| |e]] a1]; cbn [snd] in D |- *;
      try (exists calls; now split).
    destruct (IH a1 (S iteration)) as (calls' & D' & F').
    destruct (stream_loop_from rt hs message n (S iteration) a1)
      as [[evs2 out2] a2]. cbn [snd] in D' |- *.
    exists (calls ++ calls')%list. rewrite D', D, <- app_assoc.
    split; [reflexivity|]. apply Forall_app. now split.
Qed.

(** C1.  The specification asks that the input handed to tool dispatch be the
    JSON value of the concatenated [input_json_delta] fragments.  On
    the scenario's first turn the fragments parse to an object with the
    keys "scenario" and "limit", yet the streaming loop announces and
    dispatches [find_precedents] with [{}], and the tool answers with
    an error; the non-streaming loop dispatches the full input.  The
    deltas never reach the loop ([query_stream] yields text deltas
    only), and a delta handed to the loop body directly is appended to
    the dump of [{}], which does not parse, so the input stays [{}]. *)
Theorem streamed_tool_input_is_lost :
  json_loads (concat_all Scenario.call_input_fragments)
  = Some (JObj [("scenario", JStr "wire"); ("limit", JNum 5)])
  /\ dispatched (snd (run_agentic_loop_stream
                        Scenario.streaming Scenario.handlers
                        Scenario.question 10 new_agent))
     = [mk_call (Some "find_precedents") (JObj [])]
  /\ fst (fst (run_agentic_loop_stream
                 Scenario.streaming Scenario.handlers
                 Scenario.question 10 new_agent))
     = [tool_use_event (Some "find_precedents") (JObj []);
        tool_result_event
          (Some "find_precedents")
          (mk_output (Some [text_item "Error finding precedents: 'scenario'"])
                     (Some true));
        text_event "No precedent "; text_event "found."]
  /\ dispatched (snd (run_agentic_loop
                        Scenario.plain Scenario.handlers
                        Scenario.question 10 new_agent))
     = [mk_call (Some "find_precedents")
                (JObj [("scenario", JStr "wire"); ("limit", JNum 5)])]
  /\ relay (frame_chunks (framed_tool_use "toolu_01" "find_precedents"
                                          Scenario.call_input_fragments)) []
     = ([content_block_start
           (tool_use_block (Some "toolu_01") (Some "find_precedents")
                           (Some (JObj [])));
         content_block_stop],
        [tool_use_block (Some "toolu_01") (Some "find_precedents")
                        (Some (JObj []))])
  /\ (let open := mk_stream_locals
                    (Some (mk_current (Some "toolu_01")
                                      (Some "find_precedents") (JObj [])))
                    [] true 0 in
      stream_chunk Scenario.handlers
                   (content_block_delta
                      (input_json_delta
                         (Some (concat_all Scenario.call_input_fragments))))
                   open new_agent
      = (Ok (open, [], Next), new_agent)).
Proof. repeat split; vm_compute; reflexivity. Qed.

(** ** A turn without tool use and without [end_turn] *)

(** X22. The streaming loop is done with a turn that asked for no
    tool, whatever the stop reason was. *)
Lemma streaming_turn_without_tools_returns (rt : bedrock_runtime)
      (hs : tool_handlers) (message : string) (n : nat) (a : agent)
      (fs : list framed) :
  invoke_model_with_response_stream
    rt (conversation_history a ++ [user_turn message])%list
  = mk_stream (turn_chunks fs) None ->
  existsb is_tool_frame fs = false ->
  exists evs a',
    run_agentic_loop_stream rt hs message (S n) a = (evs, Ok tt, a')
    /\ requests a'
       = (requests a ++ [conversation_history a ++ [user_turn message]])%list.
Proof.
  intros B U. unfold run_agentic_loop_stream. cbn [stream_loop_from].
  rewrite (@stream_iteration_turn rt hs message 0 a fs B), U.
  do 2 eexists. split; reflexivity.
Qed.

(** C4.  The specification asks that a turn without tool-use blocks end the run
    also when its stop reason is not [end_turn].  With a model that is
    cut off by the token limit (text only, stop reason [max_tokens])
    the streaming loop does stop after that turn, but
    [run_agentic_loop] breaks on [end_turn] only: it sends the empty
    message again and again until the budget of 10 is used up, and
    returns the ten texts glued together. *)
Theorem cut_off_turn_is_asked_again :
  (exists res a',
      run_agentic_loop Scenario.cut_off Scenario.handlers
                       Scenario.question 10 new_agent
      = (Ok res, a')
      /\ List.length (requests a') = 10%nat
      /\ nth_error (requests a') 1
         = Some [user_turn Scenario.question;
                 mk_turn "assistant" (Blocks [text_block (Some "Based on polic")]);
                 user_turn ""]
      /\ result_response res
         = concat_all (repeat "Based on polic" 10))
  /\ (exists evs a',
         run_agentic_loop_stream Scenario.cut_off Scenario.handlers
                                 Scenario.question 10 new_agent
         = (evs, Ok tt, a')
         /\ List.length (requests a') = 1%nat
         /\ text_of_events evs = "Based on polic").
Proof.
  split.
  - do 2 eexists. split; [vm_compute; reflexivity|].
    repeat split; vm_compute; reflexivity.
  - do 2 eexists. split; [vm_compute; reflexivity|].
    repeat split; vm_compute; reflexivity.
Qed.

(** ** The [done] event *)

(** X21. A run of the Bedrock wrapper that ends normally yields the
    context first and [done] last and only once; its [done] event never
    names a tool call. *)
Lemma bedrock_done_is_last_and_empty (rt : bedrock_runtime)
      (hs : tool_handlers) (message : string)
      (h : option (list chat_message)) (a : agent) :
  forall evs a',
    ContextGraphAgentBedrock.query_stream rt hs message h a = (evs, Ok tt, a') ->
    exists inner,
      evs = (agent_context_event :: inner ++ [done_event [] []])%list
      /\ existsb is_done inner = false.
Proof.
  intros evs a' E.
  unfold ContextGraphAgentBedrock.query_stream, run_agentic_loop_stream in E.
  destruct (stream_loop_from rt hs message 10 0 (seed_history h a))
    as [[evs1 out] a1] eqn:E1.
  destruct (stream_loop_spec rt hs message 10 0 (seed_history h a) E1)
    as (L & _).
  destruct out as [[]|e1]; inversion E; subst.
  exists evs1. split; [reflexivity|]. now apply loop_events_not_done.
Qed.

(** The tool calls the SDK agent has seen when its stream ends: one
    per [ToolUseBlock] of a message that is not a [UserMessage]. *)
Lemma sdk_receive_calls (msgs : list ContextGraphAgent.sdk_message) :
  forall l,
    ContextGraphAgent.sdk_tool_calls (fst (ContextGraphAgent.receive l msgs))
    = (ContextGraphAgent.sdk_tool_calls l
         ++ flat_map
              (fun m =>
                 match m with
                 | ContextGraphAgent.AssistantMessage content =>
                     flat_map
                       (fun b =>
                          match b with
                          | ContextGraphAgent.ToolUseBlock _ name input =>
                              [mk_call (Some name) input]
                          | _ => []
                          end) content
                 | _ => []
                 end) msgs)%list.
Proof.
  assert (B : forall bs l,
             ContextGraphAgent.sdk_tool_calls
               (fst (ContextGraphAgent.assistant_blocks l bs))
             = (ContextGraphAgent.sdk_tool_calls l
                  ++ flat_map
                       (fun b =>
                          match b with
                          | ContextGraphAgent.ToolUseBlock _ name input =>
                              [mk_call (Some name) input]
                          | _ => []
                          end) bs)%list).
  { induction bs as [|b bs IH]; intros l; cbn.
    - now rewrite app_nil_r.
    - destruct (ContextGraphAgent.assistant_block l b) as [l1 e1] eqn:E1.
      specialize (IH l1).
      destruct (ContextGraphAgent.assistant_blocks l1 bs) as [l2 e2].
      cbn in IH |- *. rewrite IH.
      destruct b; cbn in E1; inversion E1; subst; cbn;
        rewrite <- ?app_assoc; reflexivity. }
  induction msgs as [|m msgs IH]; intros l; cbn.
  - now rewrite app_nil_r.
  - destruct m as [content|content| |]; cbn.
    + specialize (IH l).
      destruct (ContextGraphAgent.receive l msgs) as [l' evs]. exact IH.
    + specialize (B content l).
      destruct (ContextGraphAgent.assistant_blocks l content) as [l1 e1].
      specialize (IH l1).
      destruct (ContextGraphAgent.receive l1 msgs) as [l2 e2].
      cbn in B, IH |- *. now rewrite IH, B, <- app_assoc.
    + apply IH.
    + apply IH.
Qed.

(** C7.  The specification asks that the [done] event carry the tool
    calls of the run.  In the scenario the Bedrock wrapper announces and
    dispatches one call to [find_precedents], ends normally with one
    [done] event in last position, and that event names no tool call;
    the SDK agent, given the same exchange, ends with a [done] event
    that names the call. *)
Theorem bedrock_done_event_names_no_tool_call :
  (exists evs a',
      ContextGraphAgentBedrock.query_stream
        Scenario.streaming Scenario.handlers Scenario.question None new_agent
      = (evs, Ok tt, a')
      /\ announced_calls evs = [Some "find_precedents"]
      /\ dispatched a' = [mk_call (Some "find_precedents") (JObj [])]
      /\ List.length (filter is_done evs) = 1%nat
      /\ last evs agent_context_event = done_event [] [])
  /\ (exists evs,
         ContextGraphAgent.query_stream (Some Scenario.sdk) Scenario.question None
         = (evs, Ok tt)
         /\ last evs ContextGraphAgent.sdk_agent_context
            = ContextGraphAgent.sdk_done
                [mk_call (Some "mcp__graph__find_precedents") Scenario.sdk_input]
                []).
Proof.
  split.
  - do 2 eexists. split; [vm_compute; reflexivity|].
    repeat split; vm_compute; reflexivity.
  - eexists. split; vm_compute; reflexivity.
Qed.

(* ================================================================== *)
(** * Further properties of the code *)

(** ** The transcript only grows *)

Lemma growing_weaken (p q : list turn) (reqs : list (list turn)) :
  growing (p ++ q)%list reqs -> growing p reqs.
Proof.
  destruct reqs as [|r rest]; [trivial|].
  intros [[ext E] G]. split; [|exact G].
  exists (q ++ ext)%list. now rewrite E, app_assoc.
Qed.

Lemma loop_from_grows (rt : bedrock_runtime) (hs : tool_handlers)
      (message : string) (remaining : nat) :
  forall (iteration : nat) (l : locals) (a : agent),
  exists (new : list (list turn)) (suffix : list turn),
    requests (snd (loop_from rt hs message remaining iteration l a))
    = (requests a ++ new)%list
    /\ growing (conversation_history a) new
    /\ conversation_history (snd (loop_from rt hs message remaining iteration l a))
       = (conversation_history a ++ suffix)%list
    /\ match new with
       | [] => remaining = 0%nat
       | r :: _ =>
           r = (conversation_history a
                  ++ [user_turn (turn_message message iteration)])%list
       end.
Proof.
  induction remaining as [|n IH]; intros iteration l a.
  - exists [], []. cbn. now rewrite !app_nil_r.
  - cbn [loop_from]. unfold bind.
    set (u := user_turn (turn_message message iteration)).
    set (msgs := (conversation_history a ++ [u])%list).
    assert (First : exists ext, msgs = (conversation_history a ++ ext)%list)
      by (now exists [u]).
    destruct (invoke_model rt msgs) as [r|e] eqn:E.
    + rewrite (@loop_iteration_ok rt hs message iteration l a r E).
      cbn [fst snd]. fold u. fold msgs.
      set (l' := mk_locals _ _ _ _).
      match goal with
      | |- context [mk_agent (conversation_history a ++ u :: ?m)%list ?rq ?d] =>
          set (more := m);
          set (a' := mk_agent (conversation_history a ++ u :: more)%list rq d)
      end.
      assert (H' : conversation_history a' = (msgs ++ more)%list)
        by (unfold a', msgs; cbn [conversation_history];
            now rewrite <- app_assoc).
      assert (R' : requests a' = (requests a ++ [msgs])%list) by reflexivity.
      assert (Stop : exists (new : list (list turn)) (suffix : list turn),
                 requests a' = (requests a ++ new)%list
                 /\ growing (conversation_history a) new
                 /\ conversation_history a'
                    = (conversation_history a ++ suffix)%list
                 /\ match new with
                    | [] => S n = 0%nat
                    | r0 :: _ => r0 = msgs
                    end).
      { exists [msgs], (u :: more).
        split; [exact R'|]. split; [split; [exact First|exact I]|].
        split; [reflexivity|reflexivity]. }
      destruct (IH (S iteration) l' a') as (new & suffix & R & G & Hh & _).
      assert (Go : exists (new0 : list (list turn)) (suffix0 : list turn),
                 requests (snd (loop_from rt hs message n (S iteration) l' a'))
                 = (requests a ++ new0)%list
                 /\ growing (conversation_history a) new0
                 /\ conversation_history
                      (snd (loop_from rt hs message n (S iteration) l' a'))
                    = (conversation_history a ++ suffix0)%list
                 /\ match new0 with
                    | [] => S n = 0%nat
                    | r0 :: _ => r0 = msgs
                    end).
      { exists (msgs :: new), ((u :: more) ++ suffix)%list.
        split; [rewrite R, R'; now rewrite <- app_assoc|].
        split; [split; [exact First|]|].
        - rewrite H' in G. now apply growing_weaken in G.
        - split; [|reflexivity].
          rewrite Hh. unfold a'. cbn [conversation_history].
          now rewrite <- app_assoc. }
      destruct (existsb is_tool_use (or_default [] (response_content r)));
        [|destruct (opt_string_eqb (stop_reason r) "end_turn")];
        try exact Go.
      exact Stop.
    + rewrite (@loop_iteration_raise rt hs message iteration l a e E).
      exists [msgs], []. cbn [fst snd requests conversation_history].
      rewrite app_nil_r.
      split; [reflexivity|]. split; [split; [exact First|exact I]|].
      split; reflexivity.
Qed.

(** X1. [run_agentic_loop] never rewrites the transcript: whatever the
    transport and the tools do, the history at the end is the history
    at the start with turns appended, the first request is that history
    followed by the user's message, and every later request repeats the
    request before it in full. *)
Theorem run_agentic_loop_only_appends :
  forall (rt : bedrock_runtime) (hs : tool_handlers) (message : string)
         (max_iterations : nat) (a : agent),
  exists (new : list (list turn)) (suffix : list turn),
    requests (snd (run_agentic_loop rt hs message max_iterations a))
    = (requests a ++ new)%list
    /\ growing (conversation_history a) new
    /\ conversation_history (snd (run_agentic_loop rt hs message max_iterations a))
       = (conversation_history a ++ suffix)%list
    /\ match new with
       | [] => max_iterations = 0%nat
       | r :: _ => r = (conversation_history a ++ [user_turn message])%list
       end.
Proof.
  intros. unfold run_agentic_loop.
  exact (loop_from_grows rt hs message max_iterations 0
                         (mk_locals "" [] false []) a).
Qed.

Lemma settle_history (l : stream_locals) (a : agent) :
  exists ext,
    conversation_history (settle l a) = (conversation_history a ++ ext)%list.
Proof.
  unfold settle. induction (repeat _ _) as [|t ts [ext IH]]; cbn.
  - exists []. now rewrite app_nil_r.
  - exists (ext ++ [t])%list. now rewrite IH, app_assoc.
Qed.

Lemma stream_iteration_history (rt : bedrock_runtime) (hs : tool_handlers)
      (message : string) (iteration : nat) (a : agent) :
  exists ext,
    conversation_history (snd (stream_iteration rt hs message iteration a))
    = ((conversation_history a
          ++ [user_turn (turn_message message iteration)]) ++ ext)%list.
Proof.
  unfold stream_iteration, turn_message.
  unfold query_stream_open, bind, get_history, modify, ret.
  cbn [fst snd append_history log_request conversation_history requests
       dispatched].
  match goal with
  | |- context [consume ?h ?cs ?f ?ac ?l ?ag] =>
      destruct (consume_frame_rule h cs f ac l ag) as [H _];
      destruct (consume h cs f ac l ag) as [evs fin acc l' a']
  end.
  cbn [pass_events pass_end_of pass_accumulated pass_locals pass_agent] in *.
  cbn [conversation_history] in H.
  destruct (settle_history l' a') as [ext S]. rewrite H in S.
  destruct fin as [| |e]; cbn [snd]; try (exists ext; exact S).
  unfold query_stream_close. destruct (truthy acc); cbn.
  - eexists. rewrite S, <- app_assoc. reflexivity.
  - exists ext. exact S.
Qed.

Lemma stream_loop_grows (rt : bedrock_runtime) (hs : tool_handlers)
      (message : string) (remaining : nat) :
  forall (iteration : nat) (a : agent),
  exists (new : list (list turn)) (suffix : list turn),
    requests (snd (stream_loop_from rt hs message remaining iteration a))
    = (requests a ++ new)%list
    /\ growing (conversation_history a) new
    /\ conversation_history
         (snd (stream_loop_from rt hs message remaining iteration a))
       = (conversation_history a ++ suffix)%list
    /\ match new with
       | [] => remaining = 0%nat
       | r :: _ =>
           r = (conversation_history a
                  ++ [user_turn (turn_message message iteration)])%list
       end.
Proof.
  induction remaining as [|n IH]; intros iteration a.
  - exists [], []. cbn. now rewrite !app_nil_r.
  - cbn [stream_loop_from].
    set (u := user_turn (turn_message message iteration)).
    set (msgs := (conversation_history a ++ [u])%list).
    assert (First : exists ext, msgs = (conversation_history a ++ ext)%list)
      by (now exists [u]).
    pose proof (stream_iteration_request rt hs message iteration a) as R1.
    destruct (stream_iteration_history rt hs message iteration a) as [ext H1].
    fold u in R1, H1. fold msgs in R1, H1.
    destruct (stream_iteration rt hs message iteration a) as [[evs fin] a1].
    cbn [snd] in R1, H1.
    assert (H2 : conversation_history a1
                 = (conversation_history a ++ (u :: ext))%list)
      by (rewrite H1; unfold msgs; now rewrite <- app_assoc).
    assert (Stop : exists (new : list (list turn)) (suffix : list turn),
               requests a1 = (requests a ++ new)%list
               /\ growing (conversation_history a) new
               /\ conversation_history a1
                  = (conversation_history a ++ suffix)%list
               /\ match new with
                  | [] => S n = 0%nat
                  | r0 :: _ => r0 = msgs
                  end).
    { exists [msgs], (u :: ext).
      split; [exact R1|]. split; [split; [exact First|exact I]|].
      split; [exact H2|reflexivity]. }
    destruct fin as [| |e]; cbn [snd]; try exact Stop.
    destruct (IH (S iteration) a1) as (new & suffix & R & G & Hh & _).
    destruct (stream_loop_from rt hs message n (S iteration) a1)
      as [[evs2 out2] a2]. cbn [snd] in *.
    exists (msgs :: new), ((u :: ext) ++ suffix)%list.
    split; [rewrite R, R1; now rewrite <- app_assoc|].
    split; [split; [exact First|]|].
    + rewrite H1 in G. now apply growing_weaken in G.
    + split; [|reflexivity]. rewrite Hh, H2. now rewrite <- app_assoc.
Qed.

(** X2. [run_agentic_loop_stream] never rewrites the transcript either:
    the history at the end is the history at the start with turns
    appended, also when a stream raises, and every request repeats the
    one before it in full. *)
Theorem run_agentic_loop_stream_only_appends :
  forall (rt : bedrock_runtime) (hs : tool_handlers) (message : string)
         (max_iterations : nat) (a : agent),
  exists (new : list (list turn)) (suffix : list turn),
    requests (snd (run_agentic_loop_stream rt hs message max_iterations a))
    = (requests a ++ new)%list
    /\ growing (conversation_history a) new
    /\ conversation_history
         (snd (run_agentic_loop_stream rt hs message max_iterations a))
       = (conversation_history a ++ suffix)%list
    /\ match new with
       | [] => max_iterations = 0%nat
       | r :: _ => r = (conversation_history a ++ [user_turn message])%list
       end.
Proof.
  intros. unfold run_agentic_loop_stream.
  exact (stream_loop_grows rt hs message max_iterations 0 a).
Qed.

(** ** What [query_stream] passes on and what it stores *)

Lemma text_of_blocks_app (b1 b2 : list block) :
  text_of_blocks (b1 ++ b2)%list = text_of_blocks b1 ++ text_of_blocks b2.
Proof.
  induction b1 as [|b b1 IH]; cbn; [reflexivity|].
  destruct b; cbn; rewrite IH; try reflexivity.
  now rewrite string_app_assoc.
Qed.

(** One case of [relay]: the recursive call is replaced by what the
    induction hypothesis says of it. *)
Ltac relay_case IH :=
  match goal with
  | |- context [relay ?cs ?A] =>
      let I1 := fresh "I" in
      let I2 := fresh "I" in
      let I3 := fresh "I" in
      destruct (IH A) as (I1 & I2 & I3);
      destruct (relay cs A); cbn [fst snd] in *;
      rewrite ?I1, ?I2, ?I3
  end.

Lemma relay_spec (cs : list chunk) :
  forall acc : list block,
    fst (relay cs acc) = filter relayed cs
    /\ text_of_blocks (snd (relay cs acc))
       = text_of_blocks acc ++ text_of_chunks cs
    /\ filter is_tool_use (snd (relay cs acc))
       = (filter is_tool_use acc ++ opened_tool_uses cs)%list.
Proof.
  induction cs as [|c cs IH]; intros acc.
  - cbn. now rewrite string_app_nil_r, app_nil_r.
  - cbn [relay]. rewrite (text_of_chunks_cons c cs).
    destruct c as [cb|d| | |ty]; cbn [accumulate].
    + destruct cb as [t|id name input|id ct e|ty]; relay_case IH;
        rewrite ?filter_app, ?text_of_blocks_app; cbn;
        rewrite ?string_app_nil_r, ?app_nil_r, <- ?app_assoc; auto.
    + destruct d as [t|pj|ty]; relay_case IH;
        rewrite ?filter_app, ?text_of_blocks_app; cbn;
        rewrite ?string_app_nil_r, ?app_nil_r, ?string_app_assoc; auto.
    + relay_case IH. cbn. auto.
    + relay_case IH. cbn. auto.
    + relay_case IH. cbn. auto.
Qed.

(** X3. [BedrockAgent.query_stream] passes on every chunk of the
    stream, in order, except the [content_block_delta] chunks that are
    not text deltas: an [input_json_delta] is never yielded.  This
    holds for every stream, whether it ends or raises. *)
Theorem query_stream_yields_all_but_json_deltas :
  forall (rt : bedrock_runtime) (message : string) (a : agent),
    fst (fst (query_stream rt message a))
    = filter relayed
             (chunks (invoke_model_with_response_stream
                        rt (conversation_history a ++ [user_turn message])%list))
    /\ forall partial_json,
        ~ In (content_block_delta (input_json_delta partial_json))
             (fst (fst (query_stream rt message a))).
Proof.
  intros rt message a.
  assert (Y : fst (fst (query_stream rt message a))
              = filter relayed
                  (chunks (invoke_model_with_response_stream
                             rt (conversation_history a
                                   ++ [user_turn message])%list))).
  { unfold query_stream, query_stream_open, bind, get_history, modify, ret,
      invoke_stream.
    cbn [fst snd append_history log_request conversation_history chunks ending].
    match goal with
    | |- context [relay ?cs ?ac] =>
        destruct (relay_spec cs ac) as (R & _);
        destruct (relay cs ac) as [ys acc]
    end.
    cbn [fst] in R.
    destruct (ending _); [exact R|].
    destruct (query_stream_close acc _). exact R. }
  split; [exact Y|].
  intros pj H. rewrite Y in H. apply filter_In in H. destruct H as [_ H].
  discriminate H.
Qed.

(** X4. When the stream ends, [query_stream] has appended the user turn
    and, if the stream carried a text delta or opened a tool-use
    block, one assistant turn: its text is the text of the deltas in
    order and its tool-use blocks are the blocks as the stream opened
    them, so their input is the one of [content_block_start], never
    the streamed one.  A stream that raises leaves the user turn
    alone. *)
Theorem query_stream_stores_what_it_saw :
  forall (rt : bedrock_runtime) (message : string) (a : agent),
    let body := invoke_model_with_response_stream
                  rt (conversation_history a ++ [user_turn message])%list in
    let stored := snd (relay (chunks body) []) in
    text_of_blocks stored = text_of_chunks (chunks body)
    /\ filter is_tool_use stored = opened_tool_uses (chunks body)
    /\ conversation_history (snd (query_stream rt message a))
       = (conversation_history a
            ++ user_turn message
            :: match ending body, stored with
               | None, _ :: _ => [mk_turn "assistant" (Blocks stored)]
               | _, _ => []
               end)%list.
Proof.
  intros rt message a body stored.
  destruct (relay_spec (chunks body) []) as (_ & T & U).
  fold stored in T, U. cbn in T, U.
  split; [exact T|]. split; [exact U|].
  unfold query_stream, query_stream_open, bind, get_history, modify, ret,
    invoke_stream.
  cbn [fst snd append_history log_request conversation_history chunks ending].
  fold body. unfold stored.
  destruct (relay (chunks body) []) as [ys acc]. cbn [snd].
  destruct (ending body); cbn [snd conversation_history]; [reflexivity|].
  unfold query_stream_close.
  destruct acc as [|b acc]; cbn; [reflexivity|].
  now rewrite <- app_assoc.
Qed.

(** ** Where the final answer and the tool results are stored *)

(** X5. After a turn that asks for no tool, the two loops leave
    different transcripts: [run_agentic_loop] has stored the assistant
    turn, [run_agentic_loop_stream] has returned at [message_stop]
    before [query_stream] could store it, so its history ends with the
    user turn and the answer is in no later request. *)
Theorem streamed_answer_is_not_stored :
  forall (rt : bedrock_runtime) (hs : tool_handlers) (message : string)
         (iteration : nat) (f : framed) (fs : list framed)
         (stop : option string) (l : locals) (a : agent),
    existsb is_tool_frame (f :: fs) = false ->
    invoke_model rt (conversation_history a
                       ++ [user_turn (turn_message message iteration)])%list
    = Ok (mk_response (Some (map frame_block (f :: fs))) stop) ->
    invoke_model_with_response_stream
      rt (conversation_history a
            ++ [user_turn (turn_message message iteration)])%list
    = mk_stream (turn_chunks (f :: fs)) None ->
    conversation_history (snd (loop_iteration rt hs message iteration l a))
    = (conversation_history a
         ++ [user_turn (turn_message message iteration);
             mk_turn "assistant" (Blocks (map frame_block (f :: fs)))])%list
    /\ stream_iteration rt hs message iteration a
       = (flat_map (frame_events hs) (f :: fs), Returned,
          mk_agent
            (conversation_history a
               ++ [user_turn (turn_message message iteration)])%list
            (requests a
               ++ [conversation_history a
                     ++ [user_turn (turn_message message iteration)]])%list
            (dispatched a)).
Proof.
  intros rt hs message iteration f fs stop l a U Hn Hs.
  rewrite (@loop_iteration_ok rt hs message iteration l a _ Hn).
  rewrite (@stream_iteration_turn rt hs message iteration a (f :: fs) Hs).
  destruct (frames_answer_blocks hs (f :: fs)) as (_ & _ & T).
  cbn [response_content or_default snd conversation_history].
  rewrite T, U. split; [reflexivity|].
  assert (C : flat_map frame_calls (f :: fs) = []).
  { clear - U. induction (f :: fs) as [|[fr|id n fr] rest IH]; cbn in *;
      [reflexivity|now apply IH|discriminate]. }
  now rewrite C, app_nil_r.
Qed.

(** A one-fragment answer served to both loops. *)
Lemma streamed_answer_is_not_stored_witness :
  let answer := framed_text ["Approved."] in
  let rt := mk_runtime
              (fun _ => Ok (mk_response (Some (map frame_block [answer]))
                                        (Some "end_turn")))
              (fun _ => mk_stream (turn_chunks [answer]) None) in
  conversation_history
    (snd (loop_iteration rt [] "ok?" 0 (mk_locals "" [] false []) new_agent))
  = [user_turn "ok?";
     mk_turn "assistant" (Blocks [text_block (Some "Approved.")])]
  /\ conversation_history (snd (stream_iteration rt [] "ok?" 0 new_agent))
     = [user_turn "ok?"].
Proof.
  intros answer rt.
  destruct (@streamed_answer_is_not_stored
              rt [] "ok?" 0 answer [] (Some "end_turn")
              (mk_locals "" [] false []) new_agent eq_refl eq_refl eq_refl)
    as [N S].
  split; [exact N|]. now rewrite S.
Defined.

Lemma consume_accumulated (hs : tool_handlers) (cs : list chunk)
      (fin : option exn) :
  forall (acc : list block) (l : stream_locals) (a : agent),
    pass_end_of (consume hs cs fin acc l a) <> Returned ->
    pass_accumulated (consume hs cs fin acc l a) = snd (relay cs acc).
Proof.
  induction cs as [|c cs IH]; intros acc l a N; cbn [consume relay] in *.
  - reflexivity.
  - destruct (accumulate c acc) as [acc' y].
    specialize (IH acc').
    destruct y as [c'|].
    + destruct (stream_chunk_ok hs c' l a)
        as (l' & evs & fl & a' & E & _).
      rewrite E in N |- *.
      destruct fl; cbn in N |- *; [|now contradiction N].
      rewrite (IH l' a' N). now destruct (relay cs acc').
    + rewrite (IH l a N). now destruct (relay cs acc').
Qed.

(** X6. The streaming loop stores tool results on [message_stop]
    only.  When a stream ends without that chunk, the iteration stores
    the user turn and the assistant turn and nothing else, whatever
    tools it has run, and the loop goes on to its next request. *)
Theorem tool_results_need_message_stop :
  forall (rt : bedrock_runtime) (hs : tool_handlers) (message : string)
         (iteration : nat) (a : agent),
    let body := invoke_model_with_response_stream
                  rt (conversation_history a
                        ++ [user_turn (turn_message message iteration)])%list in
    forallb (fun c => negb (is_message_stop c)) (chunks body) = true ->
    ending body = None ->
    exists evs a',
      stream_iteration rt hs message iteration a = (evs, Exhausted, a')
      /\ conversation_history a'
         = (conversation_history a
              ++ user_turn (turn_message message iteration)
              :: match snd (relay (chunks body) []) with
                 | [] => []
                 | stored => [mk_turn "assistant" (Blocks stored)]
                 end)%list.
Proof.
  intros rt hs message iteration a body NoStop End.
  unfold stream_iteration, turn_message in *.
  unfold query_stream_open, bind, get_history, modify, ret, invoke_stream.
  cbn [fst snd append_history log_request conversation_history requests
       dispatched chunks ending].
  fold body. rewrite End.
  match goal with
  | |- context [consume ?h ?cs ?f ?ac ?l ?ag] =>
      pose proof (consume_spec h cs f ac l ag) as (_ & _ & _ & S4);
      pose proof (consume_frame_rule h cs f ac l ag) as (F1 & _);
      pose proof (@consume_accumulated h cs f ac l ag) as A1;
      destruct (consume h cs f ac l ag) as [pe pf pacc pl pa]
  end.
  cbn [pass_events pass_end_of pass_accumulated pass_locals pass_agent] in *.
  destruct (S4 NoStop) as [S5 S6]. subst pf.
  rewrite (A1 ltac:(discriminate)).
  exists pe. eexists. split; [reflexivity|].
  unfold settle. rewrite S6. cbn [fresh_locals appended repeat fold_right].
  unfold query_stream_close.
  destruct (snd (relay (chunks body) [])) as [|b stored]; cbn.
  - exact F1.
  - rewrite F1. cbn. now rewrite <- app_assoc.
Qed.

(** A stream cut after the tool block: the tool runs, no result turn
    is stored. *)
Lemma tool_results_need_message_stop_witness :
  let cs := frame_chunks (framed_tool_use "t1" "get_schema" []) in
  let rt := scripted_stream (fun _ => mk_stream cs None) in
  exists evs a',
    stream_iteration rt [] "schema?" 0 new_agent = (evs, Exhausted, a')
    /\ conversation_history a'
       = [user_turn "schema?";
          mk_turn "assistant"
                  (Blocks [tool_use_block (Some "t1") (Some "get_schema")
                                          (Some (JObj []))])].
Proof.
  intros cs rt.
  exact (@tool_results_need_message_stop rt [] "schema?" 0 new_agent
                                         eq_refl eq_refl).
Defined.

(** ** Tool calls reported and tool calls made *)

Lemma loop_from_calls (rt : bedrock_runtime) (hs : tool_handlers)
      (message : string) (remaining : nat) :
  forall (iteration : nat) (l : locals) (a : agent),
  exists added : list tool_call,
    dispatched (snd (loop_from rt hs message remaining iteration l a))
    = (dispatched a ++ added)%list
    /\ match fst (loop_from rt hs message remaining iteration l a) with
       | Ok res => result_tool_calls res = (tool_calls l ++ added)%list
       | Raise _ => True
       end.
Proof.
  induction remaining as [|n IH]; intros iteration l a.
  - exists []. cbn. now rewrite !app_nil_r.
  - cbn [loop_from]. unfold bind.
    destruct (invoke_model rt (conversation_history a
                ++ [user_turn (turn_message message iteration)])%list)
      as [r|e] eqn:E.
    + rewrite (@loop_iteration_ok rt hs message iteration l a r E).
      cbn [fst snd].
      set (bs := or_default [] (response_content r)).
      set (l' := mk_locals _ _ _ _). set (a' := mk_agent _ _ _).
      destruct (IH (S iteration) l' a') as (added & D & T).
      assert (Go : exists added0 : list tool_call,
                 dispatched (snd (loop_from rt hs message n (S iteration) l' a'))
                 = (dispatched a ++ added0)%list
                 /\ match fst (loop_from rt hs message n (S iteration) l' a') with
                    | Ok res => result_tool_calls res
                                = (tool_calls l ++ added0)%list
                    | Raise _ => True
                    end).
      { exists (calls_of_blocks bs ++ added)%list.
        rewrite D. cbn [dispatched a']. split; [now rewrite <- app_assoc|].
        destruct (fst (loop_from rt hs message n (S iteration) l' a'));
          [|exact I].
        rewrite T. cbn [tool_calls l']. now rewrite <- app_assoc. }
      destruct (existsb is_tool_use bs);
        [|destruct (opt_string_eqb (stop_reason r) "end_turn")];
        try exact Go.
      exists (calls_of_blocks bs). cbn. split; reflexivity.
    + rewrite (@loop_iteration_raise rt hs message iteration l a e E).
      exists []. cbn. now rewrite app_nil_r.
Qed.

(** X7. The [tool_calls] that [run_agentic_loop] returns are exactly
    the calls it made to [execute_tool] during the run, in the order
    it made them, each with the input it passed. *)
Theorem reported_tool_calls_are_the_calls_made :
  forall (rt : bedrock_runtime) (hs : tool_handlers) (message : string)
         (max_iterations : nat) (a : agent),
  exists added : list tool_call,
    dispatched (snd (run_agentic_loop rt hs message max_iterations a))
    = (dispatched a ++ added)%list
    /\ match fst (run_agentic_loop rt hs message max_iterations a) with
       | Ok res => result_tool_calls res = added
       | Raise _ => True
       end.
Proof.
  intros. unfold run_agentic_loop.
  exact (loop_from_calls rt hs message max_iterations 0
                         (mk_locals "" [] false []) a).
Qed.

(** ** The budget of the streaming loop *)

(** X8. With a model that asks for a tool on every turn, the streaming
    loop sends exactly [max_iterations] requests and then finishes
    normally, without raising. *)
Theorem streaming_loop_stops_at_budget :
  forall (rt : bedrock_runtime) (hs : tool_handlers) (message : string)
         (max_iterations : nat) (a : agent),
    (forall msgs, exists fs,
        invoke_model_with_response_stream rt msgs
        = mk_stream (turn_chunks fs) None
        /\ existsb is_tool_frame fs = true) ->
    exists evs a',
      run_agentic_loop_stream rt hs message max_iterations a = (evs, Ok tt, a')
      /\ List.length (requests a')
         = (List.length (requests a) + max_iterations)%nat.
Proof.
  intros rt hs message max_iterations a Always.
  unfold run_agentic_loop_stream. generalize 0%nat as iteration. revert a.
  induction max_iterations as [|n IH]; intros a iteration.
  - exists [], a. cbn. split; [reflexivity|lia].
  - cbn [stream_loop_from].
    destruct (Always (conversation_history a
                        ++ [user_turn (turn_message message iteration)])%list)
      as (fs & B & U).
    rewrite (@stream_iteration_turn rt hs message iteration a fs B), U.
    match goal with
    | |- context [stream_loop_from rt hs message n (S iteration) ?a1] =>
        destruct (IH a1 (S iteration)) as (evs & a' & E & L); rewrite E
    end.
    do 2 eexists. split; [reflexivity|].
    rewrite L. cbn [requests]. rewrite length_app. cbn. lia.
Qed.

(** A model that calls [get_schema] on every turn, with a budget of
    four. *)
Lemma streaming_loop_stops_at_budget_witness :
  let rt := scripted_stream
              (fun _ => mk_stream
                          (turn_chunks [framed_tool_use "t" "get_schema" []])
                          None) in
  exists evs a',
    run_agentic_loop_stream rt [] "again" 4 new_agent = (evs, Ok tt, a')
    /\ List.length (requests a') = 4%nat.
Proof.
  intros rt.
  apply (@streaming_loop_stops_at_budget rt [] "again" 4 new_agent).
  intros msgs. eexists. split; reflexivity.
Defined.

(** ** The SDK agent *)

Section SdkAgent.

Import ContextGraphAgent.

Lemma sdk_text_of_app (e1 e2 : list sdk_event) :
  sdk_text_of (e1 ++ e2)%list = sdk_text_of e1 ++ sdk_text_of e2.
Proof.
  induction e1 as [|ev e1 IH]; cbn; [reflexivity|].
  destruct ev; cbn; rewrite IH; try reflexivity.
  now rewrite string_app_assoc.
Qed.

Lemma sdk_announced_app (e1 e2 : list sdk_event) :
  sdk_announced (e1 ++ e2)%list = (sdk_announced e1 ++ sdk_announced e2)%list.
Proof. unfold sdk_announced. apply flat_map_app. Qed.

Lemma user_events_plain (l : sdk_locals) (content : list sdk_block) :
  sdk_text_of (flat_map (user_block_events l) content) = ""
  /\ sdk_announced (flat_map (user_block_events l) content) = []
  /\ existsb is_sdk_done (flat_map (user_block_events l) content) = false.
Proof.
  induction content as [|b content (I1 & I2 & I3)]; [now repeat split|].
  cbn [flat_map]. rewrite sdk_text_of_app, sdk_announced_app, existsb_app.
  rewrite I1, I2, I3.
  destruct b as [t| |id n i|id c]; cbn; try now repeat split.
  destruct (truthy_id id); cbn; now repeat split.
Qed.

Lemma assistant_blocks_spec (bs : list sdk_block) :
  forall l : sdk_locals,
    sdk_tool_calls (fst (assistant_blocks l bs))
    = (sdk_tool_calls l ++ sdk_announced (snd (assistant_blocks l bs)))%list
    /\ existsb is_sdk_done (snd (assistant_blocks l bs)) = false
    /\ forall acc : string * list tool_call,
        fold_left ContextGraphAgentQuery.scan_block bs acc
        = (fst acc ++ sdk_text_of (snd (assistant_blocks l bs)),
           (snd acc ++ sdk_announced (snd (assistant_blocks l bs)))%list).
Proof.
  induction bs as [|b bs IH]; intros l.
  - cbn. rewrite app_nil_r. repeat split.
    intros [t cs]. cbn. now rewrite string_app_nil_r, app_nil_r.
  - cbn [assistant_blocks fold_left].
    destruct (assistant_block l b) as [l1 e1] eqn:E1.
    destruct (IH l1) as (I1 & I2 & I3).
    destruct (assistant_blocks l1 bs) as [l2 e2]. cbn [fst snd] in *.
    rewrite sdk_announced_app, existsb_app, sdk_text_of_app, I1, I2.
    destruct b as [t| |id n i|id c]; cbn in E1; inversion E1; subst; cbn;
      (split; [now rewrite <- ?app_assoc|split; [reflexivity|]]);
      intros [t0 cs]; rewrite I3; cbn;
      now rewrite ?string_app_assoc, <- ?app_assoc.
Qed.

Lemma receive_spec (msgs : list sdk_message) :
  forall l : sdk_locals,
    sdk_tool_calls (fst (receive l msgs))
    = (sdk_tool_calls l ++ sdk_announced (snd (receive l msgs)))%list
    /\ existsb is_sdk_done (snd (receive l msgs)) = false
    /\ (forallb plain_message msgs = true ->
        forall acc : string * list tool_call,
          fold_left ContextGraphAgentQuery.scan_message msgs acc
          = (fst acc ++ sdk_text_of (snd (receive l msgs)),
             (snd acc ++ sdk_announced (snd (receive l msgs)))%list)).
Proof.
  induction msgs as [|m msgs IH]; intros l.
  - cbn. rewrite app_nil_r. repeat split.
    intros _ [t cs]. cbn. now rewrite string_app_nil_r, app_nil_r.
  - destruct m as [content|content| |]; cbn [receive fold_left forallb].
    + destruct (IH l) as (I1 & I2 & I3).
      destruct (user_events_plain l content) as (U1 & U2 & U3).
      destruct (receive l msgs) as [l' evs]. cbn [fst snd] in *.
      rewrite sdk_announced_app, existsb_app, sdk_text_of_app, U1, U2, U3.
      split; [exact I1|split; [exact I2|]].
      intros P acc. apply andb_prop in P. destruct P as [P1 P2].
      cbn [ContextGraphAgentQuery.scan_message plain_message] in *.
      assert (Q : fold_left ContextGraphAgentQuery.scan_block content acc = acc).
      { clear - P1. revert acc.
        induction content as [|b content IHc]; intros acc; [reflexivity|].
        cbn in P1 |- *. apply andb_prop in P1. destruct P1 as [Pb Pc].
        destruct b; try discriminate Pb; now apply IHc. }
      rewrite Q. now apply I3.
    + destruct (assistant_blocks_spec content l) as (B1 & B2 & B3).
      destruct (assistant_blocks l content) as [l1 e1]. cbn [fst snd] in *.
      destruct (IH l1) as (I1 & I2 & I3).
      destruct (receive l1 msgs) as [l2 e2]. cbn [fst snd] in *.
      rewrite sdk_announced_app, existsb_app, sdk_text_of_app, I1, B1, B2, I2.
      split; [now rewrite <- app_assoc|split; [reflexivity|]].
      intros P acc. cbn [ContextGraphAgentQuery.scan_message].
      rewrite B3, (I3 P). cbn [fst snd].
      now rewrite string_app_assoc, <- app_assoc.
    + destruct (IH l) as (I1 & I2 & I3). split; [exact I1|split; [exact I2|]].
      intros P acc. now apply I3.
    + destruct (IH l) as (I1 & I2 & I3). split; [exact I1|split; [exact I2|]].
      intros P acc. now apply I3.
Qed.

End SdkAgent.

(** X9. When the SDK client delivers its messages without raising, a
    connected agent's stream starts with the agent context and ends
    with the only [done] event, and that event lists exactly the tool
    calls of the [tool_use] events yielded before it, in order.  An
    agent that is not connected yields nothing and raises "Agent not
    connected. Use 'async with' context manager.", and so does
    [query]. *)
Theorem sdk_done_lists_the_announced_calls :
  forall (client : ContextGraphAgent.sdk_client) (message : string)
         (h : option (list chat_message)),
    (exists evs,
        ContextGraphAgent.query_stream (Some client) message h
        = ((ContextGraphAgent.sdk_agent_context
              :: evs ++ [ContextGraphAgent.sdk_done (sdk_announced evs) []])%list,
           Ok tt)
        /\ existsb is_sdk_done evs = false)
    /\ ContextGraphAgent.query_stream None message h
       = ([], Raise (Exception
                       "Agent not connected. Use 'async with' context manager."))
    /\ ContextGraphAgentQuery.query None message h
       = Raise (Exception
                  "Agent not connected. Use 'async with' context manager.").
Proof.
  intros client message h. split; [|split; reflexivity].
  unfold ContextGraphAgent.query_stream.
  destruct (receive_spec (client (ContextGraphAgent.full_message message h))
                         (ContextGraphAgent.mk_sdk_locals [] []))
    as (R1 & R2 & _).
  destruct (ContextGraphAgent.receive _ _) as [l evs]. cbn [fst snd] in *.
  exists evs. rewrite R1. cbn. now split.
Qed.

(** X10. [ContextGraphAgent.query] and [ContextGraphAgent.query_stream]
    agree on an exchange in which no [UserMessage] carries a text or a
    tool-use block: the response is the concatenation of the [text]
    events and the tool calls are those of the [tool_use] events.
    ([query] scans the blocks of every message, [query_stream] does
    not scan a [UserMessage] for text or tool use.) *)
Theorem sdk_query_agrees_with_its_stream :
  forall (client : ContextGraphAgent.sdk_client) (message : string)
         (h : option (list chat_message)),
    forallb plain_message (client (ContextGraphAgent.full_message message h))
    = true ->
    exists evs,
      ContextGraphAgent.query_stream (Some client) message h
      = ((ContextGraphAgent.sdk_agent_context
            :: evs ++ [ContextGraphAgent.sdk_done (sdk_announced evs) []])%list,
         Ok tt)
      /\ ContextGraphAgentQuery.query (Some client) message h
         = Ok (mk_reply (sdk_text_of evs) (sdk_announced evs) []).
Proof.
  intros client message h P.
  unfold ContextGraphAgent.query_stream, ContextGraphAgentQuery.query.
  destruct (receive_spec (client (ContextGraphAgent.full_message message h))
                         (ContextGraphAgent.mk_sdk_locals [] []))
    as (R1 & _ & R3).
  specialize (R3 P ("", [])).
  destruct (ContextGraphAgent.receive _ _) as [l evs]. cbn [fst snd] in *.
  exists evs. rewrite R1, R3. cbn. now split.
Qed.

(** The scenario's exchange, whose user message holds a tool result
    only. *)
Lemma sdk_query_agrees_with_its_stream_witness :
  exists evs,
    ContextGraphAgent.query_stream (Some Scenario.sdk) Scenario.question None
    = ((ContextGraphAgent.sdk_agent_context
          :: evs ++ [ContextGraphAgent.sdk_done (sdk_announced evs) []])%list,
       Ok tt)
    /\ ContextGraphAgentQuery.query (Some Scenario.sdk) Scenario.question None
       = Ok (mk_reply (sdk_text_of evs) (sdk_announced evs) []).
Proof.
  exact (@sdk_query_agrees_with_its_stream
           Scenario.sdk Scenario.question None eq_refl).
Defined.




(** ** The embeddings client *)

Section Embeddings.

Import PyValue BedrockEmbeddingsClient.

Variable rt : runtime.
Variable model_id : string.
Hypothesis titan : contains "titan" (lower model_id) = true.

(** For a Titan model the outcome of [generate_embedding] does not
    depend on what was sent before, and one request is sent. *)
Lemma generate_embedding_titan (text : string) (log : list request) :
  generate_embedding rt model_id text log
  = (fst (generate_embedding rt model_id text []),
     (log ++ [titan_request model_id text])%list).
Proof.
  unfold generate_embedding. rewrite titan. reflexivity.
Qed.

Lemma embed_each_all (texts : list string) :
  Forall (fun t => exists v, fst (generate_embedding rt model_id t []) = Ok v)
         texts ->
  forall log : list request,
  exists vs,
    embed_each rt model_id texts log
    = (Ok vs, (log ++ map (titan_request model_id) texts)%list)
    /\ Forall2 (fun t v => fst (generate_embedding rt model_id t []) = Ok v)
               texts vs.
Proof.
  induction 1 as [|t texts [v Hv] _ IH]; intros log.
  - exists []. cbn. rewrite app_nil_r. split; [reflexivity|constructor].
  - cbn [embed_each]. rewrite generate_embedding_titan, Hv.
    destruct (IH (log ++ [titan_request model_id t])%list) as (vs & E & F).
    exists (v :: vs). rewrite E. cbn [map].
    split; [now rewrite <- app_assoc|now constructor].
Qed.

Lemma embed_each_first_failure (good : list string) (bad : string)
      (rest : list string) (e : exn) :
  Forall (fun t => exists v, fst (generate_embedding rt model_id t []) = Ok v)
         good ->
  fst (generate_embedding rt model_id bad []) = Raise e ->
  forall log : list request,
    embed_each rt model_id (good ++ bad :: rest)%list log
    = (Raise e, (log ++ map (titan_request model_id) (good ++ [bad]))%list).
Proof.
  intros G B. induction G as [|t good [v Hv] _ IH]; intros log.
  - cbn [app embed_each map]. now rewrite generate_embedding_titan, B.
  - cbn [app embed_each map]. rewrite generate_embedding_titan, Hv.
    rewrite IH. now rewrite <- app_assoc.
Qed.

End Embeddings.

(** X13. A model id that names neither Titan nor Cohere (in any
    letter case) is refused before anything is sent:
    [generate_embedding] raises "Unsupported embedding model: <id>" for
    every text, and so does [generate_embeddings_batch] for every list
    that is not empty; for the empty list it returns the empty list
    and does not object to the model. *)
Theorem unsupported_embedding_model :
  forall (rt : BedrockEmbeddingsClient.runtime) (model_id : string)
         (log : list BedrockEmbeddingsClient.request),
    PyValue.contains "titan" (PyValue.lower model_id) = false ->
    PyValue.contains "cohere" (PyValue.lower model_id) = false ->
    (forall text,
        BedrockEmbeddingsClient.generate_embedding rt model_id text log
        = (Raise (Exception ("Unsupported embedding model: " ++ model_id)), log))
    /\ (forall text texts,
           BedrockEmbeddingsClient.generate_embeddings_batch
             rt model_id (text :: texts) log
           = (Raise (Exception ("Unsupported embedding model: " ++ model_id)),
              log))
    /\ BedrockEmbeddingsClient.generate_embeddings_batch rt model_id [] log
       = (Ok (JArr []), log).
Proof.
  intros rt model_id log T C.
  assert (G : forall text,
             BedrockEmbeddingsClient.generate_embedding rt model_id text log
             = (Raise (Exception ("Unsupported embedding model: " ++ model_id)),
                log)).
  { intros text. unfold BedrockEmbeddingsClient.generate_embedding.
    now rewrite T, C. }
  split; [exact G|split].
  - intros text texts.
    unfold BedrockEmbeddingsClient.generate_embeddings_batch. rewrite C.
    cbn [BedrockEmbeddingsClient.embed_each]. now rewrite G.
  - unfold BedrockEmbeddingsClient.generate_embeddings_batch. now rewrite C.
Qed.

(** An OpenAI model id given to the Bedrock client. *)
Lemma unsupported_embedding_model_witness :
  let rt : BedrockEmbeddingsClient.runtime := fun _ _ => Ok (JObj []) in
  BedrockEmbeddingsClient.generate_embedding rt "text-embedding-3-small" "wire" []
  = (Raise (Exception "Unsupported embedding model: text-embedding-3-small"), [])
  /\ BedrockEmbeddingsClient.generate_embeddings_batch
       rt "text-embedding-3-small" [] []
     = (Ok (JArr []), []).
Proof.
  intros rt.
  destruct (@unsupported_embedding_model rt "text-embedding-3-small" []
                                         eq_refl eq_refl) as (G & _ & B).
  split; [apply G|exact B].
Defined.

(** X14. [generate_embeddings_batch] sends one request for the whole
    list to a Cohere model, also for the empty list.  To a Titan model
    that is not a Cohere model it sends one request per text, in
    order, and stops at the first text that fails: the texts before
    it and that text have been sent, the texts after it have not, and
    the exception is the one of that text.  When no text fails, every
    text has been sent and the embeddings are returned one per text,
    in the order of the texts. *)
Theorem embeddings_batch_requests :
  forall (rt : BedrockEmbeddingsClient.runtime) (model_id : string)
         (log : list BedrockEmbeddingsClient.request),
    let embedded (text : string) :=
      fst (BedrockEmbeddingsClient.generate_embedding rt model_id text []) in
    (PyValue.contains "cohere" (PyValue.lower model_id) = true ->
     forall texts,
       snd (BedrockEmbeddingsClient.generate_embeddings_batch
              rt model_id texts log)
       = (log ++ [cohere_batch_request model_id texts])%list)
    /\ (PyValue.contains "cohere" (PyValue.lower model_id) = false ->
        PyValue.contains "titan" (PyValue.lower model_id) = true ->
        (forall good bad rest e,
            Forall (fun t => exists v, embedded t = Ok v) good ->
            embedded bad = Raise e ->
            BedrockEmbeddingsClient.generate_embeddings_batch
              rt model_id (good ++ bad :: rest)%list log
            = (Raise e,
               (log ++ map (titan_request model_id) (good ++ [bad]))%list))
        /\ (forall texts,
               Forall (fun t => exists v, embedded t = Ok v) texts ->
               exists vs,
                 BedrockEmbeddingsClient.generate_embeddings_batch
                   rt model_id texts log
                 = (Ok (JArr vs),
                    (log ++ map (titan_request model_id) texts)%list)
                 /\ Forall2 (fun t v => embedded t = Ok v) texts vs)).
Proof.
  intros rt model_id log embedded. split.
  - intros C texts. unfold BedrockEmbeddingsClient.generate_embeddings_batch.
    now rewrite C.
  - intros C T. split.
    + intros good bad rest e G B.
      unfold BedrockEmbeddingsClient.generate_embeddings_batch. rewrite C.
      now rewrite (@embed_each_first_failure rt model_id T good bad rest e G B).
    + intros texts G.
      unfold BedrockEmbeddingsClient.generate_embeddings_batch. rewrite C.
      destruct (@embed_each_all rt model_id T texts G log) as (vs & E & F).
      exists vs. now rewrite E.
Qed.

(** Three texts for the default Titan model when the second one is
    refused, and for a Cohere model. *)
Lemma embeddings_batch_requests_witness :
  let body (text : string) :=
    "{" ++ quote "inputText" ++ ": " ++ quote text ++ "}" in
  let rt : BedrockEmbeddingsClient.runtime :=
    fun _ sent =>
      if String.eqb sent (body "b") then Raise (Exception "throttled")
      else Ok (JObj [("embedding", JArr [JNum 1; JNum 0]);
                     ("embeddings", JArr [JArr [JNum 1; JNum 0]])]) in
  BedrockEmbeddingsClient.generate_embeddings_batch
    rt "amazon.titan-embed-text-v2:0" ["a"; "b"; "c"] []
  = (Raise (Exception "throttled"),
     [BedrockEmbeddingsClient.mk_request "amazon.titan-embed-text-v2:0"
                                         (body "a");
      BedrockEmbeddingsClient.mk_request "amazon.titan-embed-text-v2:0"
                                         (body "b")])
  /\ snd (BedrockEmbeddingsClient.generate_embeddings_batch
            rt "cohere.embed-english-v3" ["a"; "b"; "c"] [])
     = [BedrockEmbeddingsClient.mk_request
          "cohere.embed-english-v3"
          ("{" ++ quote "texts" ++ ": [" ++ quote "a" ++ ", " ++ quote "b"
               ++ ", " ++ quote "c" ++ "], " ++ quote "input_type" ++ ": "
               ++ quote "search_document" ++ "}")].
Proof.
  intros body rt.
  destruct (embeddings_batch_requests rt "amazon.titan-embed-text-v2:0" [])
    as [_ T].
  destruct (embeddings_batch_requests rt "cohere.embed-english-v3" [])
    as [C _].
  split.
  - destruct (T eq_refl eq_refl) as [F _].
    apply (F ["a"] "b" ["c"] (Exception "throttled")).
    + constructor; [|constructor]. eexists. reflexivity.
    + reflexivity.
  - exact (C eq_refl ["a"; "b"; "c"]).
Defined.

(** ** The tool tables and the tool handlers *)

Lemma find_handler_in (name : string) (hs : tool_handlers) :
  (exists h, find_handler name hs = Some h) <-> In name (map fst hs).
Proof.
  induction hs as [|[k h] hs IH]; cbn.
  - split; [intros [h H]; discriminate H|intros []].
  - destruct (String.eqb_spec name k) as [->|N].
    + split; [now left|eauto].
    + rewrite IH. split; [now right|].
      intros [E|H]; [now contradiction N|exact H].
Qed.

(** X15. The Bedrock wrapper advertises twelve tools to the model and
    agent.py defines ten of them.  The two advertised names
    [find_decision_community] and
    [find_accounts_with_high_shared_transaction_volume] are imported
    from agent.py, which binds neither: the import at the head of
    agent_bedrock.py raises [ImportError] on the first of them in
    import order, whatever the graph clients are.  Every other
    advertised name is bound in agent.py to the tool that
    [create_context_graph_server] registers under that name, and these
    ten names are [AVAILABLE_TOOLS], in its order.  The advertised
    names are distinct and each schema requires only properties it
    declares. *)
Theorem advertised_tools_without_a_definition :
  forall (cl : Tools.clients) (origin name : string),
    let advertised :=
      map BedrockTools.schema_name
          (BedrockTools.convert_mcp_tools_to_bedrock_format
             AgentContext.AVAILABLE_TOOLS) in
    let missing := ["find_accounts_with_high_shared_transaction_volume";
                    "find_decision_community"] in
    AgentModule.import_from origin (AgentModule.namespace cl)
                            AgentModule.imported_names
    = Raise (Exception
               ("cannot import name 'find_accounts_with_high_shared_transaction_volume' from "
                  ++ origin))
    /\ AgentModule.unbound_imports cl = missing
    /\ (In name advertised ->
        (In name missing /\ AgentModule.tool_named cl name = None)
        \/ (exists h, AgentModule.tool_named cl name = Some h
                      /\ In (name, h) (Tools.server_tools cl)
                      /\ In name AgentContext.AVAILABLE_TOOLS))
    /\ map fst (Tools.server_tools cl) = AgentContext.AVAILABLE_TOOLS
    /\ incl missing advertised
    /\ List.length advertised = 12%nat
    /\ NoDup advertised
    /\ Forall (fun s => incl (BedrockTools.schema_required s)
                             (map BedrockTools.property_name
                                  (BedrockTools.schema_properties s)))
              BedrockTools.tool_schemas.
Proof.
  intros cl origin name advertised missing.
  split; [reflexivity|]. split; [reflexivity|].
  split; [|split; [reflexivity|split; [|split; [reflexivity|split]]]].
  - unfold advertised. cbn [map BedrockTools.convert_mcp_tools_to_bedrock_format
                              BedrockTools.tool_schemas BedrockTools.schema_name].
    intros Hn. cbn in Hn.
    repeat (destruct Hn as [<-|Hn];
            [first [left; split; [cbn; tauto|reflexivity]
                   |right; eexists; split; [reflexivity|split; cbn; tauto]]|]).
    destruct Hn.
  - unfold advertised, missing. cbn. intros x Hx. cbn in Hx.
    intuition (subst; cbn; tauto).
  - unfold advertised. cbn.
    repeat (constructor; [cbn; intuition discriminate|]). constructor.
  - unfold BedrockTools.tool_schemas.
    repeat (constructor;
            [cbn; intros x Hx; cbn in Hx; intuition (subst; cbn; tauto)|]).
    constructor.
Qed.

Lemma reported (body : outcome tool_output) (prefix : string) :
  (forall r, body = Ok r -> one_text r) ->
  exists r, try_except body (Tools.report prefix) = Ok r /\ one_text r.
Proof.
  intros T. destruct body as [r|e]; cbn.
  - exists r. split; [reflexivity|]. now apply T.
  - eexists. split; [reflexivity|]. eexists. now right.
Qed.

(** Follows a chain of steps that may raise down to the result it
    returns. *)
Ltac follow_chain H :=
  repeat match type of H with
         | and_then ?x _ = Ok _ =>
             let E := fresh "E" in
             destruct x eqn:E; cbn [and_then] in H; [|discriminate H]
         end;
  inversion H; eexists; left; reflexivity.

(** X16. No tool handler of agent.py raises, whatever its arguments are
    and whatever the graph clients do: each returns a result that is
    one text item, either the serialized answer or an error report
    tagged [is_error].  Dispatched through the Bedrock wrapper's
    table, such a tool therefore gets its own result back unchanged;
    [execute_tool] never has to report an exception for it. *)
Theorem tool_handlers_never_raise :
  forall (cl : Tools.clients) (o1 o2 : BedrockTools.tool_object)
         (name : string) (h : handler) (args : json),
    In (name, h) (Tools.server_tools cl) ->
    exists r,
      h args = Ok r
      /\ one_text r
      /\ execute_tool (Some name) args
                      (BedrockTools.handlers_of
                         (BedrockTools.tool_objects cl o1 o2))
         = Ok r.
Proof.
  intros cl o1 o2 name h args H.
  assert (A : exists r, h args = Ok r /\ one_text r).
  { cbn in H.
    repeat (destruct H as [H|H]; [inversion H; subst; clear H|]);
      try contradiction;
      try (apply reported; intros r Hr; follow_chain Hr).
    - (* record_decision *)
      apply reported. intros r Hr. cbv zeta in Hr. follow_chain Hr.
    - (* execute_cypher *)
      unfold Tools.execute_cypher, Tools.report.
      destruct (PyValue.subscript args "cypher") as [q|e].
      + destruct (Tools.run_cypher cl q);
          eexists; (split; [reflexivity|]); eexists; auto.
      + eexists. split; [reflexivity|]. eexists. now right. }
  destruct A as (r & Hr & T). exists r. split; [exact Hr|split; [exact T|]].
  cbn in H.
  repeat (destruct H as [H|H];
          [inversion H; subst; clear H; unfold execute_tool; cbn;
           rewrite Hr; reflexivity|]).
  contradiction.
Qed.

(** The schema tool with the graph down. *)
Lemma tool_handlers_never_raise_witness :
  exists r,
    Tools.get_schema ToolScenario.offline (JObj []) = Ok r
    /\ one_text r
    /\ execute_tool (Some "get_schema") (JObj [])
                    (BedrockTools.handlers_of
                       (BedrockTools.tool_objects
                          ToolScenario.offline ToolScenario.unbound
                          ToolScenario.unbound))
       = Ok r.
Proof.
  apply (@tool_handlers_never_raise
           ToolScenario.offline ToolScenario.unbound ToolScenario.unbound
           "get_schema" (Tools.get_schema ToolScenario.offline) (JObj [])).
  cbn. tauto.
Defined.

(** X17. A tool that reads an argument by subscript reports its absence
    and does nothing else: called with arguments that lack the key it
    reads first, it returns the error result "<prefix>: '<key>'"
    whatever the other arguments are and whatever the clients would
    have answered.  ([record_decision] names "decision_type", not
    "reasoning": a missing "reasoning" is first swallowed with the
    embedding.) *)
Theorem tools_report_a_missing_argument :
  forall (cl : Tools.clients) (name : string) (h : handler)
         (report : string * string) (members : list (string * json)),
    In (name, h) (Tools.server_tools cl) ->
    first_argument name = Some report ->
    PyValue.lookup (snd report) members = None ->
    h (JObj members) = Ok (missing_argument_output report).
Proof.
  intros cl name h report members H F L. cbn in H.
  repeat (destruct H as [H|H];
          [inversion H; subst; clear H; cbn in F; inversion F; subst;
           cbn in L;
           cbv beta delta [Tools.search_customer Tools.get_customer_decisions
                             Tools.find_similar_decisions Tools.find_precedents
                             Tools.get_causal_chain Tools.record_decision
                             Tools.execute_cypher];
           cbv zeta; cbn [PyValue.subscript]; rewrite ?L; reflexivity|]).
  contradiction.
Qed.

(** [find_precedents] called with a limit and no scenario, on a graph
    that would have answered. *)
Lemma tools_report_a_missing_argument_witness :
  Tools.find_precedents ToolScenario.one_customer (JObj [("limit", JNum 5)])
  = Ok (error_output "Error finding precedents: 'scenario'").
Proof.
  exact (@tools_report_a_missing_argument
           ToolScenario.one_customer "find_precedents"
           (Tools.find_precedents ToolScenario.one_customer)
           ("Error finding precedents", "scenario") [("limit", JNum 5)]
           ltac:(cbn; tauto) eq_refl eq_refl).
Defined.

(** ** Tools called from the streaming loop *)

Lemma stream_chunk_shows (hs : tool_handlers) (c : chunk) (l : stream_locals)
      (a : agent) :
  input_still_empty l ->
  exists l' evs fl a',
    stream_chunk hs c l a = (Ok (l', evs, fl), a')
    /\ input_still_empty l'
    /\ Forall (shows_empty_call hs) evs.
Proof.
  unfold input_still_empty. intros E.
  destruct c as [cb|d| | |ty]; cbn.
  - destruct cb; unfold ret; do 4 eexists;
      (split; [reflexivity|split; [cbn; auto|]]);
      repeat constructor.
  - destruct d as [t|pj|ty]; cbn.
    + unfold ret; do 4 eexists;
        (split; [reflexivity|split; [exact E|]]); repeat constructor.
    + destruct (current_tool_use l) as [cur|] eqn:C; cbn.
      * destruct (nonempty _); cbn.
        -- rewrite E. destruct (json_loads _) as [v|] eqn:J; unfold ret;
             do 4 eexists; (split; [reflexivity|split; [cbn|constructor]]).
           ++ now apply loads_after_empty_dict in J.
           ++ now rewrite C.
        -- unfold ret; do 4 eexists;
             (split; [reflexivity|split; [now rewrite C|constructor]]).
      * unfold ret; do 4 eexists;
          (split; [reflexivity|split; [now rewrite C|constructor]]).
    + unfold ret; do 4 eexists;
        (split; [reflexivity|split; [exact E|]]); repeat constructor.
  - destruct (current_tool_use l) as [cur|] eqn:C; cbn.
    + unfold bind, modify, lift, ret. rewrite execute_tool_run. cbn.
      do 4 eexists. split; [reflexivity|split; [exact I|]].
      constructor; [|constructor]. cbn. now rewrite E.
    + unfold ret; do 4 eexists;
        (split; [reflexivity|split; [now rewrite C|constructor]]).
  - destruct (_ && _); unfold ret; do 4 eexists;
      (split; [reflexivity|split; [exact E|constructor]]).
  - unfold ret; do 4 eexists;
      (split; [reflexivity|split; [exact E|constructor]]).
Qed.

Lemma consume_shows (hs : tool_handlers) (cs : list chunk) (fin : option exn) :
  forall (acc : list block) (l : stream_locals) (a : agent),
    input_still_empty l ->
    Forall (shows_empty_call hs) (pass_events (consume hs cs fin acc l a)).
Proof.
  induction cs as [|c cs IH]; intros acc l a E; cbn [consume].
  - constructor.
  - destruct (accumulate c acc) as [acc' [c'|]]; [|now apply IH].
    destruct (@stream_chunk_shows hs c' l a E)
      as (l' & evs & fl & a' & Eq & E' & F).
    rewrite Eq. destruct fl; cbn [pass_events]; [|exact F].
    apply Forall_app. split; [exact F|now apply IH].
Qed.

Lemma stream_loop_shows (rt : bedrock_runtime) (hs : tool_handlers)
      (message : string) (remaining : nat) :
  forall (iteration : nat) (a : agent),
    Forall (shows_empty_call hs)
           (fst (fst (stream_loop_from rt hs message remaining iteration a))).
Proof.
  induction remaining as [|n IH]; intros iteration a; [constructor|].
  cbn [stream_loop_from].
  assert (S1 : Forall (shows_empty_call hs)
                      (fst (fst (stream_iteration rt hs message iteration a)))).
  { unfold stream_iteration.
    unfold query_stream_open, bind, get_history, modify, ret.
    cbn [fst snd].
    match goal with
    | |- context [consume ?h ?cs ?f ?ac ?l ?ag] =>
        pose proof (@consume_shows h cs f ac l ag I) as F;
        destruct (consume h cs f ac l ag) as [evs [| |e] acc l' a']
    end; exact F. }
  destruct (stream_iteration rt hs message iteration a) as [[evs fin] a1].
  cbn [fst] in S1.
  destruct fin as [| |e]; cbn [fst]; try exact S1.
  specialize (IH (S iteration) a1).
  destruct (stream_loop_from rt hs message n (S iteration) a1)
    as [[evs2 out2] a2]. cbn [fst] in *.
  apply Forall_app. now split.
Qed.

(** X18. Through the Bedrock wrapper's streaming entry point, no tool
    that reads an argument by subscript can succeed: whatever the model
    streams and whatever the graph holds, every [tool_use] event
    carries the input [{}], and every [tool_result] event for
    [search_customer], [get_customer_decisions],
    [find_similar_decisions], [find_precedents], [get_causal_chain],
    [record_decision] or [execute_cypher] carries that tool's report
    of its missing argument. *)
Theorem streamed_tools_miss_their_arguments :
  forall (cl : Tools.clients) (o1 o2 : BedrockTools.tool_object)
         (rt : bedrock_runtime) (message : string)
         (h : option (list chat_message)) (a : agent),
    let hs := BedrockTools.handlers_of (BedrockTools.tool_objects cl o1 o2) in
    let evs := fst (fst (ContextGraphAgentBedrock.query_stream rt hs message h a)) in
    (forall name input, In (tool_use_event name input) evs -> input = JObj [])
    /\ (forall name output report,
           In (tool_result_event (Some name) output) evs ->
           first_argument name = Some report ->
           output = missing_argument_output report).
Proof.
  intros cl o1 o2 rt message h a hs evs.
  assert (F : Forall (shows_empty_call hs) evs).
  { unfold evs, ContextGraphAgentBedrock.query_stream, run_agentic_loop_stream.
    pose proof (stream_loop_shows rt hs message 10 0 (seed_history h a)) as F.
    destruct (stream_loop_from rt hs message 10 0 (seed_history h a))
      as [[evs1 [[]|e]] a1]; cbn [fst] in *.
    - constructor; [exact I|]. apply Forall_app. split; [exact F|].
      constructor; [exact I|constructor].
    - constructor; [exact I|exact F]. }
  rewrite Forall_forall in F. split.
  - intros name input H. exact (F _ H).
  - intros name output report H R.
    rewrite (F _ H : output = run_tool hs (Some name) empty_dict).
    unfold first_argument in R.
    repeat match type of R with
           | (if String.eqb name ?k then _ else _) = _ =>
               destruct (String.eqb_spec name k) as [->|_];
               [inversion R; reflexivity|]
           end.
    discriminate R.
Qed.

(** The scenario's stream through the wrapper, on a graph that holds a
    customer: the call to [find_precedents] fails for want of its
    scenario. *)
Lemma streamed_tools_miss_their_arguments_witness :
  In (tool_result_event
        (Some "find_precedents")
        (error_output "Error finding precedents: 'scenario'"))
     (fst (fst (ContextGraphAgentBedrock.query_stream
                  Scenario.streaming ToolScenario.handlers
                  Scenario.question None new_agent))).
Proof.
  destruct (streamed_tools_miss_their_arguments
              ToolScenario.one_customer ToolScenario.unbound
              ToolScenario.unbound Scenario.streaming Scenario.question
              None new_agent) as [_ R].
  assert (H : exists output,
             In (tool_result_event (Some "find_precedents") output)
                (fst (fst (ContextGraphAgentBedrock.query_stream
                             Scenario.streaming ToolScenario.handlers
                             Scenario.question None new_agent)))).
  { eexists. vm_compute. right. right. left. reflexivity. }
  destruct H as [output H].
  pose proof (R "find_precedents" output
                ("Error finding precedents", "scenario") H eq_refl) as Eq.
  rewrite Eq in H. exact H.
Defined.

(** ** The wrapper across calls *)

Lemma seed_history_history (h : list chat_message) (a : agent) :
  conversation_history (seed_history (Some h) a)
  = (conversation_history a ++ map turn_of_chat (last_n 6 h))%list.
Proof.
  unfold seed_history. destruct h as [|m h]; cbn [truthy].
  - cbn. now rewrite app_nil_r.
  - now rewrite seed_fold.
Qed.

Lemma wrapper_query_agent (rt : bedrock_runtime) (hs : tool_handlers)
      (message : string) (h : option (list chat_message)) (a : agent) :
  snd (ContextGraphAgentBedrock.query rt hs message h a)
  = snd (run_agentic_loop rt hs message 10 (seed_history h a)).
Proof.
  cbv [ContextGraphAgentBedrock.query bind modify ret].
  now destruct (run_agentic_loop rt hs message 10 (seed_history h a))
    as [[res|e] a'].
Qed.

(** X19. The Bedrock wrapper never clears its agent's transcript.  Each
    call appends the last six messages of the history it is given and
    then the turns of its run, so a second call on the same agent with
    the same history sends them twice: its first request is everything
    the first call left, the last six messages again, and the new
    message. *)
Theorem wrapper_keeps_and_repeats_the_history :
  forall (rt : bedrock_runtime) (hs : tool_handlers) (m1 m2 : string)
         (h : list chat_message) (a : agent),
    let a1 := snd (ContextGraphAgentBedrock.query rt hs m1 (Some h) a) in
    let a2 := snd (ContextGraphAgentBedrock.query rt hs m2 (Some h) a1) in
    exists (turns : list turn) (later : list (list turn)),
      conversation_history a1
      = (conversation_history a ++ map turn_of_chat (last_n 6 h) ++ turns)%list
      /\ requests a2
         = (requests a1
              ++ (conversation_history a ++ map turn_of_chat (last_n 6 h)
                    ++ turns ++ map turn_of_chat (last_n 6 h)
                    ++ [user_turn m2])
              :: later)%list.
Proof.
  intros rt hs m1 m2 h a a1 a2. unfold a2, a1.
  rewrite !wrapper_query_agent. unfold run_agentic_loop.
  destruct (loop_from_grows rt hs m1 10 0 (mk_locals "" [] false [])
                            (seed_history (Some h) a))
    as (new1 & turns & _ & _ & H1 & _).
  rewrite seed_history_history in H1.
  set (a1' := snd (loop_from rt hs m1 10 0 (mk_locals "" [] false [])
                             (seed_history (Some h) a))) in *.
  destruct (loop_from_grows rt hs m2 10 0 (mk_locals "" [] false [])
                            (seed_history (Some h) a1'))
    as (new2 & suffix2 & R2 & _ & _ & First).
  rewrite seed_history_requests in R2.
  rewrite seed_history_history, H1 in First.
  destruct new2 as [|r later]; [discriminate First|].
  exists turns, later. split.
  - now rewrite H1, <- app_assoc.
  - rewrite R2, First. unfold turn_message. cbn [Nat.eqb].
    now rewrite <- !app_assoc.
Qed.

(** ** Witnesses for the general lemmas on the streaming loop *)

(** The scenario's run through the Bedrock wrapper. *)
Lemma bedrock_done_is_last_and_empty_witness :
  exists evs a' inner,
    ContextGraphAgentBedrock.query_stream
      Scenario.streaming Scenario.handlers Scenario.question None new_agent
    = (evs, Ok tt, a')
    /\ evs = (agent_context_event :: inner ++ [done_event [] []])%list
    /\ existsb is_done inner = false.
Proof.
  set (r := ContextGraphAgentBedrock.query_stream
              Scenario.streaming Scenario.handlers Scenario.question None
              new_agent).
  assert (E : r = (fst (fst r), Ok tt, snd r)) by (vm_compute; reflexivity).
  destruct (@bedrock_done_is_last_and_empty
              Scenario.streaming Scenario.handlers Scenario.question None
              new_agent (fst (fst r)) (snd r) E) as (inner & H1 & H2).
  exists (fst (fst r)), (snd r), inner. now repeat split.
Defined.

(** The cut-off model, asked through the streaming loop. *)
Lemma streaming_turn_without_tools_returns_witness :
  exists evs a',
    run_agentic_loop_stream Scenario.cut_off Scenario.handlers
                            Scenario.question 10 new_agent
    = (evs, Ok tt, a')
    /\ requests a' = [[user_turn Scenario.question]].
Proof.
  exact (@streaming_turn_without_tools_returns
           Scenario.cut_off Scenario.handlers Scenario.question 9 new_agent
           Scenario.cut_off_turn eq_refl eq_refl).
Defined.

(** ** The policy lookup *)

Lemma matching_policies_filter (wanted : string) (ps : list json) :
  forallb well_named ps = true ->
  Tools.matching_policies (JStr wanted) ps
  = Ok (filter (fun p => PyValue.contains (PyValue.lower wanted)
                                          (PyValue.lower (policy_name_of p)))
               ps).
Proof.
  induction ps as [|p ps IH]; intros W; [reflexivity|].
  cbn in W. apply andb_prop in W. destruct W as [Wp Ws].
  cbn [Tools.matching_policies filter]. rewrite (IH Ws).
  destruct p as [| | | | |members]; try discriminate Wp.
  cbn in Wp |- *.
  destruct (PyValue.lookup "name" members) as [[| | |s| |]|];
    try discriminate Wp; cbn; reflexivity.
Qed.

(** X23. Asked for a policy by name, [get_policy] answers with the
    first policy of the category whose name contains the wanted name,
    letter case ignored on both sides, or with [null] when there is
    none; a policy without a name never matches.  (The policies are
    dicts whose name, if any, is a string.) *)
Theorem get_policy_finds_by_name :
  forall (cl : Tools.clients) (members : list (string * json))
         (wanted : string) (ps : list json),
    PyValue.lookup "policy_name" members = Some (JStr wanted) ->
    nonempty wanted = true ->
    Tools.policies cl (or_default JNull (PyValue.lookup "category" members))
    = Ok (JArr ps) ->
    forallb well_named ps = true ->
    Tools.get_policy cl (JObj members)
    = Ok (Tools.text_output
            (PyValue.dumps_indent
               0 (hd JNull
                     (filter (fun p => PyValue.contains
                                         (PyValue.lower wanted)
                                         (PyValue.lower (policy_name_of p)))
                             ps))))
    /\ (forall p, In p ps -> policy_name_of p = "" ->
                  PyValue.contains (PyValue.lower wanted)
                                   (PyValue.lower (policy_name_of p)) = false).
Proof.
  intros cl members wanted ps L N P W. split.
  - unfold Tools.get_policy. cbn [PyValue.get PyValue.subscript].
    rewrite L. cbn [or_default and_then PyValue.truthy_json]. rewrite N.
    cbn [and_then]. rewrite P. cbn [and_then PyValue.iterate].
    rewrite (matching_policies_filter wanted ps W). cbn [and_then].
    destruct (filter _ ps); reflexivity.
  - intros p _ E. rewrite E. cbn.
    destruct wanted as [|c w]; [discriminate N|]. reflexivity.
Qed.

(** Three policies, one of them without a name, looked up by a name
    in capitals. *)
Lemma get_policy_finds_by_name_witness :
  Tools.get_policy ToolScenario.with_policies
                   (JObj [("policy_name", JStr "KYC")])
  = Ok (Tools.text_output (PyValue.dumps_indent 0 ToolScenario.kyc_policy)).
Proof.
  exact (proj1 (@get_policy_finds_by_name
                  ToolScenario.with_policies
                  [("policy_name", JStr "KYC")] "KYC"
                  [ToolScenario.unnamed_policy; ToolScenario.wire_policy;
                   ToolScenario.kyc_policy]
                  eq_refl eq_refl eq_refl eq_refl)).
Defined.

(** ** The history a caller supplies *)



